(** * fortune-teller: the Kalshi client and the crypto arbitrage monitor

    A shallow embedding of [src/kalshi.py] and [src/arb_monitor.py] and the
    properties of the valuation heuristic, the opportunity detector, the
    strike extraction, the request signing input and the failure policy.

    Modelling conventions.
    - Python [None] is [None] of an [option]; a raised exception is [Err].
    - A Python float is a [pyfloat]: an exact rational, an infinity or NaN.
      The special values follow IEEE 754 as Python exposes it; the rounding
      of finite results to 53 bits, and overflow of finite results, are not
      modelled: finite arithmetic is exact.  The interpreter rounds every
      finite result to binary64, so the two can part where the exact value
      before [round] is a tie or next to one; [Binary64] has the valuation
      with the interpreter's arithmetic, to tell where they do.  The lemmas
      on [calculate_fair_value] are about the exact arithmetic; the
      theorems built on them claim nothing that depends on the side a tie
      falls.
    - Python [str] is [string]; the case mapping and the whitespace test
      are the ASCII ones.
    - A [dict] with string keys is a [gmap string _]; a missing key of a
      record-like dict read with [.get] is a [None] field.
    - The JSON answers are typed: a field of a market object is missing or
      of its JSON type, and the price feed maps an asset to a mapping.  An
      answer of another shape makes the [try] block that reads it raise
      ([TypeError] on a null quote or subtitle, [AttributeError] on a null
      asset), and the handler of that block treats it as it treats a failed
      request: such an answer is the [Err] case of the feed or of the
      client. *)

From Stdlib Require Import ZArith QArith Qround Qabs Qminmax Lia Lqa Bool List.
From Stdlib Require Import Ascii String DecimalString.
From Stdlib Require SpecFloat.
From stdpp Require Import gmap strings.

Local Open Scope Z_scope.

(** ** Exceptions and the error monad *)

Module Py.

(** The exceptions the modelled code can raise.  [UnsupportedMethod] is the
    [ValueError] of [KalshiClient._request]; [RequestError] stands for any
    exception escaping an HTTP call or a client, carrying its [str]. *)
Inductive exn : Type :=
  | ZeroDivisionError
  | ValueError
  | OverflowError
  | IndexError
  | TypeError
  | AttributeError
  | UnsupportedMethod (method : string)
  | RequestError (text : string).

Inductive result (A : Type) : Type :=
  | Ok (a : A)
  | Err (e : exn).
Arguments Ok {A} a.
Arguments Err {A} e.

Definition bind {A B} (m : result A) (f : A -> result B) : result B :=
  match m with
  | Ok a => f a
  | Err e => Err e
  end.

Definition is_ok {A} (m : result A) : bool :=
  match m with Ok _ => true | Err _ => false end.

End Py.
Export Py.

Notation "'try!' x := m 'in' k" := (Py.bind m (fun x => k))
  (at level 10, x name, m at level 100, k at level 200).

(** ** Strings *)

Module Str.

Definition code (c : ascii) : N := N_of_ascii c.

Definition is_digit (c : ascii) : bool := (48 <=? code c)%N && (code c <=? 57)%N.

(** [Py_ISSPACE] on an ASCII character: tab, LF, VT, FF, CR and space. *)
Definition is_space (c : ascii) : bool :=
  ((9 <=? code c)%N && (code c <=? 13)%N) || (code c =? 32)%N.

Definition upper_char (c : ascii) : ascii :=
  if (97 <=? code c)%N && (code c <=? 122)%N
  then ascii_of_N (code c - 32) else c.

Definition lower_char (c : ascii) : ascii :=
  if (65 <=? code c)%N && (code c <=? 90)%N
  then ascii_of_N (code c + 32) else c.

Fixpoint map_chars (f : ascii -> ascii) (s : string) : string :=
  match s with
  | EmptyString => EmptyString
  | String c r => String (f c) (map_chars f r)
  end.

(** [s.upper()] and [s.lower()] *)
Definition upper (s : string) : string := map_chars upper_char s.
Definition lower (s : string) : string := map_chars lower_char s.

Fixpoint starts_with (p s : string) : bool :=
  match p, s with
  | EmptyString, _ => true
  | String a p', String b s' => Ascii.eqb a b && starts_with p' s'
  | String _ _, EmptyString => false
  end.

(** [needle in hay] *)
Fixpoint contains (needle hay : string) : bool :=
  starts_with needle hay ||
  match hay with
  | EmptyString => false
  | String _ r => contains needle r
  end.

(** [s.split(sep)] for a separator of one character *)
Fixpoint split (sep : ascii) (s : string) : list string :=
  match s with
  | EmptyString => [EmptyString]
  | String c r =>
      if Ascii.eqb c sep then EmptyString :: split sep r
      else match split sep r with
           | h :: t => String c h :: t
           | [] => [String c EmptyString]
           end
  end.

(** [l[i]] *)
Definition index {A} (l : list A) (i : nat) : result A :=
  match nth_error l i with
  | Some x => Ok x
  | None => Err IndexError
  end.

(** [s.replace(old, new)] for [old] of one character *)
Fixpoint replace (old : ascii) (new : string) (s : string) : string :=
  match s with
  | EmptyString => EmptyString
  | String c r =>
      if Ascii.eqb c old then (new ++ replace old new r)%string
      else String c (replace old new r)
  end.

Fixpoint lstrip (s : string) : string :=
  match s with
  | String c r => if is_space c then lstrip r else s
  | EmptyString => EmptyString
  end.

Fixpoint rstrip (s : string) : string :=
  match s with
  | EmptyString => EmptyString
  | String c r =>
      match rstrip r with
      | EmptyString => if is_space c then EmptyString else String c EmptyString
      | r' => String c r'
      end
  end.

(** the longest prefix of decimal digits, and what follows it *)
Fixpoint span_digits (s : string) : string * string :=
  match s with
  | String c r =>
      if is_digit c then let (d, rest) := span_digits r in (String c d, rest)
      else (EmptyString, s)
  | EmptyString => (EmptyString, EmptyString)
  end.

Definition digit_value (c : ascii) : Z := Z.of_N (code c) - 48.

Fixpoint digits_value (acc : Z) (s : string) : Z :=
  match s with
  | EmptyString => acc
  | String c r => digits_value (10 * acc + digit_value c) r
  end.

(** [str(z)] of an integer *)
Definition str_of_Z (z : Z) : string := NilZero.string_of_int (Z.to_int z).

End Str.

(** ** Floats *)

Inductive pyfloat : Type :=
  | Fin (q : Q)
  | Inf (neg : bool)
  | NaN.

Definition Qis_zero (q : Q) : bool := (Qnum q =? 0)%Z.
Definition Qis_neg (q : Q) : bool := (Qnum q <? 0)%Z.
Definition Qltb (a b : Q) : bool :=
  (Qnum a * Zpos (Qden b) <? Qnum b * Zpos (Qden a))%Z.

Definition fl (z : Z) : pyfloat := Fin (inject_Z z).

Definition pf_neg (a : pyfloat) : pyfloat :=
  match a with
  | Fin q => Fin (- q)%Q
  | Inf s => Inf (negb s)
  | NaN => NaN
  end.

Definition pf_add (a b : pyfloat) : pyfloat :=
  match a, b with
  | NaN, _ | _, NaN => NaN
  | Inf s, Inf s' => if Bool.eqb s s' then Inf s else NaN
  | Inf s, Fin _ => Inf s
  | Fin _, Inf s => Inf s
  | Fin x, Fin y => Fin (x + y)%Q
  end.

Definition pf_sub (a b : pyfloat) : pyfloat := pf_add a (pf_neg b).

Definition pf_mul (a b : pyfloat) : pyfloat :=
  match a, b with
  | NaN, _ | _, NaN => NaN
  | Inf s, Inf s' => Inf (xorb s s')
  | Inf s, Fin y => if Qis_zero y then NaN else Inf (xorb s (Qis_neg y))
  | Fin x, Inf s => if Qis_zero x then NaN else Inf (xorb s (Qis_neg x))
  | Fin x, Fin y => Fin (x * y)%Q
  end.

Definition pf_is_zero (a : pyfloat) : bool :=
  match a with Fin q => Qis_zero q | _ => false end.

(** [a / b]: Python raises on a zero divisor before anything else. *)
Definition pf_div (a b : pyfloat) : result pyfloat :=
  if pf_is_zero b then Err ZeroDivisionError
  else Ok match a, b with
          | NaN, _ | _, NaN => NaN
          | Inf _, Inf _ => NaN
          | Inf s, Fin y => Inf (xorb s (Qis_neg y))
          | Fin _, Inf _ => Fin 0
          | Fin x, Fin y => Fin (x / y)%Q
          end.

(** [a < b]; every comparison with NaN is false. *)
Definition pf_ltb (a b : pyfloat) : bool :=
  match a, b with
  | NaN, _ | _, NaN => false
  | Inf s, Inf s' => s && negb s'
  | Inf s, Fin _ => s
  | Fin _, Inf s => negb s
  | Fin x, Fin y => Qltb x y
  end.

(** The builtins [min(a, b)] and [max(a, b)]: the first argument is kept
    unless the second is strictly smaller (larger). *)
Definition py_min (a b : pyfloat) : pyfloat := if pf_ltb b a then b else a.
Definition py_max (a b : pyfloat) : pyfloat := if pf_ltb a b then b else a.

(** [round(x)] of one argument on a rational: to the nearest integer, ties
    to the even one. *)
Definition round_half_even (q : Q) : Z :=
  let n := Qnum q in
  let d := Zpos (Qden q) in
  let f := n / d in
  match 2 * (n mod d) ?= d with
  | Lt => f
  | Gt => f + 1
  | Eq => if Z.even f then f else f + 1
  end.

Definition py_round (a : pyfloat) : result Z :=
  match a with
  | Fin q => Ok (round_half_even q)
  | Inf _ => Err OverflowError
  | NaN => Err ValueError
  end.

(** ** The builtin [float] on a string

    CPython's [float_from_string] on ASCII text: underscores are allowed
    between two digits only and are dropped; white space is stripped at both
    ends; what remains is an optional sign and then either [inf],
    [infinity] or [nan] in any case, or a decimal number (digits with an
    optional point, at least one digit) with an optional exponent.  Anything
    else is a [ValueError]. *)

Module FloatParse.
Import Str.

Definition is_underscore (c : ascii) : bool := Ascii.eqb c "_".

(** [prev] is the previous character of the text, if any *)
Fixpoint drop_underscores (prev : option ascii) (s : string) : option string :=
  match s with
  | EmptyString =>
      match prev with
      | Some p => if is_underscore p then None else Some EmptyString
      | None => Some EmptyString
      end
  | String c r =>
      if is_underscore c then
        match prev with
        | Some p => if is_digit p then drop_underscores (Some c) r else None
        | None => None
        end
      else
        let after_underscore :=
          match prev with Some p => is_underscore p | None => false end in
        if after_underscore && negb (is_digit c) then None
        else option_map (String c) (drop_underscores (Some c) r)
  end.

Definition take_sign (s : string) : bool * string :=
  match s with
  | String "-" r => (true, r)
  | String "+" r => (false, r)
  | _ => (false, s)
  end.

(** [mant * 10 ^ e10], negated when [neg] *)
Definition decimal_value (neg : bool) (mant e10 : Z) : Q :=
  let m := if neg then - mant else mant in
  if 0 <=? e10 then inject_Z (m * 10 ^ e10)
  else Qmake m (Z.to_pos (10 ^ (- e10))).

(** the exponent part: nothing, or [e], an optional sign and digits *)
Definition parse_exponent (s : string) : option Z :=
  match s with
  | EmptyString => Some 0
  | String c r =>
      if Ascii.eqb (lower_char c) "e" then
        let (eneg, r1) := take_sign r in
        let (ed, r2) := span_digits r1 in
        match ed, r2 with
        | String _ _, EmptyString =>
            Some (if eneg then - digits_value 0 ed else digits_value 0 ed)
        | _, _ => None
        end
      else None
  end.

Definition parse_decimal (neg : bool) (s : string) : option pyfloat :=
  let (ip, r1) := span_digits s in
  let (fp, r2) :=
    match r1 with
    | String "." r => span_digits r
    | _ => (EmptyString, r1)
    end in
  match (ip ++ fp)%string with
  | EmptyString => None
  | String _ _ as ds =>
      match parse_exponent r2 with
      | Some e =>
          Some (Fin (decimal_value neg (digits_value 0 ds)
                                   (e - Z.of_nat (String.length fp))))
      | None => None
      end
  end.

Definition parse_signed (s : string) : option pyfloat :=
  let (neg, r) := take_sign s in
  let w := lower r in
  if String.eqb w "inf" || String.eqb w "infinity" then Some (Inf neg)
  else if String.eqb w "nan" then Some NaN
  else parse_decimal neg r.

Definition float_of_string (s : string) : result pyfloat :=
  match drop_underscores None s with
  | None => Err ValueError
  | Some s1 =>
      match parse_signed (rstrip (lstrip s1)) with
      | Some x => Ok x
      | None => Err ValueError
      end
  end.

End FloatParse.

(** ** arb_monitor.calculate_fair_value *)

Definition calculate_fair_value (current_price strike_price : option pyfloat)
    (time_to_expiry_minutes : Z) : result (option Z) :=
  match strike_price, current_price with
  | None, _ | _, None => Ok None
  | Some strike_price, Some current_price =>
      try! q := pf_div (pf_sub current_price strike_price) strike_price in
      let pct_diff := pf_mul q (fl 100) in
      let fair_value :=
        if pf_ltb (fl 0) pct_diff
        then py_min (pf_add (fl 50) (pf_mul pct_diff (fl 15))) (fl 95)
        else py_max (pf_add (fl 50) (pf_mul pct_diff (fl 15))) (fl 5) in
      try! r := py_round fair_value in
      Ok (Some r)
  end.

(** ** The valuation in binary64

    The same lines with the arithmetic of the interpreter: every result is
    rounded to the nearest binary64 number, ties to even.  [SpecFloat] is
    the Standard Library's executable IEEE 754 arithmetic, here with 53
    bits of precision and exponents below 1024. *)

Module Binary64.

Definition t : Type := SpecFloat.spec_float.

Definition prec : Z := 53.
Definition emax : Z := 1024.

(** the float of an integer literal *)
Definition of_Z (z : Z) : t := SpecFloat.binary_normalize prec emax z 0 false.

Definition add (a b : t) : t := SpecFloat.SFadd prec emax a b.
Definition sub (a b : t) : t := SpecFloat.SFsub prec emax a b.
Definition mul (a b : t) : t := SpecFloat.SFmul prec emax a b.
Definition ltb (a b : t) : bool := SpecFloat.SFltb a b.

Definition is_zero (a : t) : bool :=
  match a with SpecFloat.S754_zero _ => true | _ => false end.

Definition div (a b : t) : result t :=
  if is_zero b then Err ZeroDivisionError
  else Ok (SpecFloat.SFdiv prec emax a b).

(** the float of the decimal literal [n/d], for [n] and [d] below [2^53] *)
Definition of_ratio (n d : Z) : t := SpecFloat.SFdiv prec emax (of_Z n) (of_Z d).

Definition min (a b : t) : t := if ltb b a then b else a.
Definition max (a b : t) : t := if ltb a b then b else a.

(** the rational [m * 2 ^ e], negated when [s] *)
Definition to_Q (s : bool) (m : positive) (e : Z) : Q :=
  let v := if 0 <=? e then inject_Z (Zpos m * 2 ^ e)
           else Qmake (Zpos m) (Z.to_pos (2 ^ (- e))) in
  if s then (- v)%Q else v.

Definition round (a : t) : result Z :=
  match a with
  | SpecFloat.S754_zero _ => Ok 0
  | SpecFloat.S754_finite s m e => Ok (round_half_even (to_Q s m e))
  | SpecFloat.S754_infinity _ => Err OverflowError
  | SpecFloat.S754_nan => Err ValueError
  end.

Definition calculate_fair_value (current_price strike_price : option t)
    (time_to_expiry_minutes : Z) : result (option Z) :=
  match strike_price, current_price with
  | None, _ | _, None => Ok None
  | Some strike_price, Some current_price =>
      try! q := div (sub current_price strike_price) strike_price in
      let pct_diff := mul q (of_Z 100) in
      let fair_value :=
        if ltb (of_Z 0) pct_diff
        then min (add (of_Z 50) (mul pct_diff (of_Z 15))) (of_Z 95)
        else max (add (of_Z 50) (mul pct_diff (of_Z 15))) (of_Z 5) in
      try! r := round fair_value in
      Ok (Some r)
  end.

End Binary64.

(** ** HTTP calls of the trading client *)

(** A JSON value of an order, and a dict in insertion order. *)
Inductive jval : Type :=
  | JNull
  | JInt (z : Z)
  | JStr (s : string).

Definition dict : Type := list (string * jval).

Definition dict_get (d : dict) (k : string) : option jval :=
  option_map snd (List.find (fun kv => String.eqb (fst kv) k) d).

(** [d[k] = v] *)
Fixpoint dict_set (d : dict) (k : string) (v : jval) : dict :=
  match d with
  | [] => [(k, v)]
  | (k', v') :: rest =>
      if String.eqb k' k then (k, v) :: rest else (k', v') :: dict_set rest k v
  end.

Definition headers : Type := list (string * string).

Inductive http_call : Type :=
  | HttpGet (url : string) (hs : headers) (params : option dict)
  | HttpPost (url : string) (hs : headers) (json : option dict)
  | HttpDelete (url : string) (hs : headers).

(** ** Effects: a trace of what the program did, and how it ended *)

Inductive event : Type :=
  | EvPriceFeed                         (* the GET to the CoinGecko price feed *)
  | EvNewClient                         (* [KalshiClient()] *)
  | EvRequest (method path : string)    (* [client._request(method, path)] *)
  | EvHttp (call : http_call)           (* [requests.get / post / delete] *)
  | EvStderr (text : string)            (* [print(text, file=sys.stderr)] *)
  | EvPrint (text : string).            (* [print(text)] *)

Module IO.

Definition t (A : Type) : Type := (list event * result A)%type.

Definition ret {A} (a : A) : t A := ([], Ok a).

Definition bind {A B} (m : t A) (f : A -> t B) : t B :=
  match m with
  | (tr, Ok a) => let (tr', r) := f a in (tr ++ tr', r)
  | (tr, Err e) => (tr, Err e)
  end.

Definition emit (ev : event) : t unit := ([ev], Ok tt).

(** an effect [ev] whose outcome is [r] *)
Definition perform {A} (ev : event) (r : result A) : t A := ([ev], r).

(** [try: m  except Exception as e: h e] *)
Definition catch {A} (m : t A) (h : exn -> t A) : t A :=
  match m with
  | (tr, Err e) => let (tr', r) := h e in (tr ++ tr', r)
  | ok => ok
  end.

Definition lift {A} (r : result A) : t A := ([], r).

Definition trace {A} (m : t A) : list event := fst m.
Definition outcome {A} (m : t A) : result A := snd m.

End IO.

Notation "'do!' x := m 'in' k" := (IO.bind m (fun x => k))
  (at level 10, x name, m at level 100, k at level 200).

(** ** Data of the monitor *)

(** A value of the price mapping: [None], a number, or a text. *)
Inductive pyval : Type :=
  | VNone
  | VNum (x : pyfloat)
  | VStr (s : string).

(** A market object of the trading API, as far as the monitor reads it; a
    field is [None] when the key is missing, and has its JSON type when it
    is there (a number for the quotes and the volume, a text for the
    rest). *)
Module ApiMarket.
Record t : Type := Make {
  ticker : option string;
  yes_bid : option Z;
  yes_ask : option Z;
  no_bid : option Z;
  no_ask : option Z;
  close_time : option string;
  volume : option Z;
  yes_sub_title : option string;
  rules_primary : option string
}.
End ApiMarket.

(** The answer of a market listing: the ["markets"] key may be missing. *)
Record response : Type := Response { markets : option (list ApiMarket.t) }.

(** A client is anything with [_request(method, path)]: what it gives is
    the typed answer, or the exception that ends the [try] block of the
    caller - raised by the request, or by the first read of an answer that
    is not typed as above (a null quote compared with a number, a null
    subtitle searched for the marker). *)
Definition client : Type := string -> string -> result response.

(** The per-asset market the monitor keeps. *)
Module Market.
Record t : Type := Make {
  ticker : option string;
  strike : option pyfloat;
  yes_bid : option Z;
  yes_ask : option Z;
  no_bid : option Z;
  no_ask : option Z;
  close_time : option string;
  volume : option Z;
  subtitle : option string
}.
End Market.

(** A value of the [markets] dict: a market under ["<coin>"], the text of
    an exception under ["<coin>_error"]. *)
Inductive entry : Type :=
  | EMarket (m : Market.t)
  | EError (text : string).

Inductive direction : Type := BUY_YES | SELL_YES.

Module Opp.
Record t : Type := Make {
  type : direction;
  coin : string;
  ticker : option string;
  current_price : pyfloat;
  strike : pyfloat;
  fair_value : Z;
  market_price : Z;      (* key ["market_ask"] of a BUY_YES, ["market_bid"] of a SELL_YES *)
  edge : Z;
  reasoning : string
}.
End Opp.

(** The summary kept for a daily market, and a value of the daily dict. *)
Module Daily.
Record t : Type := Make {
  ticker : option string;
  yes_bid : Z;
  yes_ask : Z;
  volume : Z;
  subtitle : string
}.
End Daily.

Inductive daily_entry : Type :=
  | DMarkets (ms : list Daily.t)
  | DError (text : string).

Definition from_option {A} (d : A) (o : option A) : A :=
  match o with Some a => a | None => d end.

(** ** Strike extraction (arb_monitor.py, lines 55-60) *)

Definition strike_text (subtitle : string) : result string :=
  try! seg := Str.index (Str.split "$" subtitle) 1 in
  Ok (Str.replace "," "" seg).

Definition strike_of_subtitle (subtitle : string) : result pyfloat :=
  try! text := strike_text subtitle in
  FloatParse.float_of_string text.

Definition parse_strike (subtitle : string) : result (option pyfloat) :=
  if Str.contains "Price to beat:" subtitle then
    match strike_of_subtitle subtitle with
    | Ok x => Ok (Some x)
    | Err _ => Ok None           (* except: pass *)
    end
  else Ok None.

(** ** kalshi.py: the client *)

Section Client.

(** The payload of an answer ([resp.json()]) is opaque to the client. *)
Variable payload : Type.
Variable empty_payload : payload.                      (* [{}] *)

Record http_response : Type := HttpResponse {
  status_code : Z;
  text : string;
  json : result payload                                (* [resp.json()] *)
}.

(** [resp.ok]: [raise_for_status] would not raise *)
Definition ok (resp : http_response) : bool :=
  negb ((400 <=? status_code resp) && (status_code resp <? 600)).

(** The configured client: its key id and base URL, the private key's
    RSA-PSS signature of a message (with SHA-256, for the salt drawn at
    that call), base64, the clock, the transport, and the message of the
    [HTTPError] that [raise_for_status] raises. *)
Variable key_id base_url : string.
Variable rsa_pss_sha256 : string -> string.
Variable b64encode : string -> string.
Variable http_error_text : http_response -> string.

Definition _sign (text : string) : string := b64encode (rsa_pss_sha256 text).

(** [path.split('?')[0]] *)
Definition path_clean (path : string) : string :=
  match Str.split "?" path with
  | h :: _ => h
  | [] => EmptyString
  end.

(** the message [_headers] signs; [now_ms] is [int(time.time() * 1000)] *)
Definition signed_message (now_ms : Z) (method path : string) : string :=
  let timestamp := Str.str_of_Z now_ms in
  (timestamp ++ Str.upper method ++ path_clean path)%string.

Definition _headers (now_ms : Z) (method path : string) : headers :=
  let timestamp := Str.str_of_Z now_ms in
  let msg := signed_message now_ms method path in
  let signature := _sign msg in
  [("KALSHI-ACCESS-KEY", key_id);
   ("KALSHI-ACCESS-TIMESTAMP", timestamp);
   ("KALSHI-ACCESS-SIGNATURE", signature);
   ("Content-Type", "application/json")]%string.

Definition error_line (resp : http_response) : string :=
  ("Error " ++ Str.str_of_Z (status_code resp) ++ ": " ++ text resp)%string.

Definition _request (transport : http_call -> result http_response) (now_ms : Z)
    (method path : string) (data : option dict) : IO.t payload :=
  let url := (base_url ++ path)%string in
  let hs := _headers now_ms method path in
  do! call := IO.lift
      (if String.eqb (Str.upper method) "GET" then Ok (HttpGet url hs data)
       else if String.eqb (Str.upper method) "POST" then Ok (HttpPost url hs data)
       else if String.eqb (Str.upper method) "DELETE" then Ok (HttpDelete url hs)
       else Err (UnsupportedMethod method)) in
  do! resp := IO.perform (EvHttp call) (transport call) in
  do! _u := (if ok resp then IO.ret tt
             else do! _p := IO.emit (EvStderr (error_line resp)) in
                  IO.lift (Err (RequestError (http_error_text resp)))) in
  match text resp with
  | EmptyString => IO.ret empty_payload
  | String _ _ => IO.lift (json resp)
  end.

(** lines 136-145: the order dict; [type] defaults to ["market"] and
    [price] to [None] at the call *)
Definition build_order (ticker side action : string) (count : Z) (type : string)
    (price : option Z) : dict :=
  let order : dict :=
    [("ticker", JStr ticker); ("side", JStr side); ("action", JStr action);
     ("count", JInt count); ("type", JStr type)]%string in
  match price with
  | Some p =>
      if String.eqb type "limit" then
        let order := dict_set order "yes_price"
                       (if String.eqb side "yes" then JInt p else JNull) in
        dict_set order "no_price"
                       (if String.eqb side "no" then JInt p else JNull)
      else order
  | None => order
  end.

Definition orders_path : string := "/trade-api/v2/portfolio/orders".

Definition place_order (transport : http_call -> result http_response) (now_ms : Z)
    (ticker side action : string) (count : Z) (type : string)
    (price : option Z) : IO.t payload :=
  let order := build_order ticker side action count type price in
  _request transport now_ms "POST" orders_path (Some order).

(** *** The typed operations (lines 83-114 and 149-151)

    Default arguments are given at the call: [status] of [get_orders] is
    ["resting"], [limit] is 20 and [status] of [get_events] is ["open"]. *)

Definition get_balance (transport : http_call -> result http_response) (now_ms : Z)
    : IO.t payload :=
  _request transport now_ms "GET" "/trade-api/v2/portfolio/balance" None.

Definition get_positions (transport : http_call -> result http_response) (now_ms : Z)
    : IO.t payload :=
  _request transport now_ms "GET" "/trade-api/v2/portfolio/positions" None.

Definition get_orders (transport : http_call -> result http_response) (now_ms : Z)
    (status : string) : IO.t payload :=
  _request transport now_ms "GET"
    ("/trade-api/v2/portfolio/orders?status=" ++ status)%string None.

Definition get_events (transport : http_call -> result http_response) (now_ms : Z)
    (limit : Z) (status : string) : IO.t payload :=
  _request transport now_ms "GET"
    ("/trade-api/v2/events?limit=" ++ Str.str_of_Z limit ++ "&status=" ++ status)%string
    None.

(** [if event_ticker:] holds for a text that is not empty *)
Definition markets_path (event_ticker : option string) (limit : Z) : string :=
  let path := ("/trade-api/v2/markets?limit=" ++ Str.str_of_Z limit)%string in
  match event_ticker with
  | Some (String _ _ as t) => (path ++ "&event_ticker=" ++ t)%string
  | _ => path
  end.

Definition get_markets (transport : http_call -> result http_response) (now_ms : Z)
    (event_ticker : option string) (limit : Z) : IO.t payload :=
  _request transport now_ms "GET" (markets_path event_ticker limit) None.

Definition get_market (transport : http_call -> result http_response) (now_ms : Z)
    (ticker : string) : IO.t payload :=
  _request transport now_ms "GET" ("/trade-api/v2/markets/" ++ ticker)%string None.

Definition get_orderbook (transport : http_call -> result http_response) (now_ms : Z)
    (ticker : string) : IO.t payload :=
  _request transport now_ms "GET"
    ("/trade-api/v2/markets/" ++ ticker ++ "/orderbook")%string None.

Definition cancel_order (transport : http_call -> result http_response) (now_ms : Z)
    (order_id : string) : IO.t payload :=
  _request transport now_ms "DELETE"
    ("/trade-api/v2/portfolio/orders/" ++ order_id)%string None.

(** *** The command line ([main] of kalshi.py, lines 154-190)

    [load_client] is the outcome of [KalshiClient()], which reads the
    configuration and the key; [dumps] is [json.dumps(_, indent=2)].  A run
    ends by returning or by [sys.exit(code)]. *)

Inductive ending : Type :=
  | Returned
  | Exited (code : Z).

Variable load_client : result unit.
Variable dumps : payload -> string.

Definition usage : string := "Usage: kalshi.py <command> [args]".
Definition usage_commands : string :=
  "Commands: balance, positions, orders, events, markets, market <ticker>, orderbook <ticker>".

(** [print(json.dumps(answer, indent=2))] *)
Definition show (answer : IO.t payload) : IO.t ending :=
  do! x := answer in
  do! _u := IO.emit (EvPrint (dumps x)) in
  IO.ret Returned.

Definition exit_with (lines : list string) (code : Z) : IO.t ending :=
  (List.map EvPrint lines, Ok (Exited code)).

Definition kalshi_main (transport : http_call -> result http_response) (now_ms : Z)
    (argv : list string) : IO.t ending :=
  do! _c := IO.perform EvNewClient load_client in
  match argv with
  | [] | [_] => exit_with [usage; usage_commands] 1
  | _ :: cmd :: args =>
      if String.eqb cmd "balance" then show (get_balance transport now_ms)
      else if String.eqb cmd "positions" then show (get_positions transport now_ms)
      else if String.eqb cmd "orders" then show (get_orders transport now_ms "resting")
      else if String.eqb cmd "events" then show (get_events transport now_ms 20 "open")
      else if String.eqb cmd "markets" then
        show (get_markets transport now_ms (List.head args) 20)
      else if String.eqb cmd "market" then
        match args with
        | [] => exit_with ["Usage: kalshi.py market <ticker>"%string] 1
        | ticker :: _ => show (get_market transport now_ms ticker)
        end
      else if String.eqb cmd "orderbook" then
        match args with
        | [] => exit_with ["Usage: kalshi.py orderbook <ticker>"%string] 1
        | ticker :: _ => show (get_orderbook transport now_ms ticker)
        end
      else exit_with [("Unknown command: " ++ cmd)%string] 1
  end.

(** lines 193-194: the script calls [main()] without a handler, so the
    process ends with status 0 when [main] returns, with [code] on
    [sys.exit(code)], and with status 1, after the traceback, when an
    exception escapes. *)
Definition exit_status (r : result ending) : Z :=
  match r with
  | Ok Returned => 0
  | Ok (Exited code) => code
  | Err _ => 1
  end.

End Client.

(** ** arb_monitor.py *)

Section Monitor.

(** [str(e)] of an exception, [f"{x:,.2f}"] of a number; their texts are
    left to the interpreter. *)
Variable exn_text : exn -> string.
Variable fmt_money : pyfloat -> string.

Definition request (c : client) (method path : string) : IO.t response :=
  IO.perform (EvRequest method path) (c method path).

(** *** get_crypto_prices *)

(** The feed's JSON: asset id to a mapping with ["usd"] and
    ["usd_24h_change"].  An answer in which an asset is not a mapping makes
    the second [.get] raise inside the [try] block: it is a failed feed
    ([Err]) of [get_crypto_prices] below. *)
Definition feed_data : Type := gmap string (gmap string pyval).

(** [data.get(asset, {}).get(key)] *)
Definition feed_get (data : feed_data) (asset key : string) : pyval :=
  match data !! asset with
  | Some quote => from_option VNone (quote !! key)
  | None => VNone
  end.

(** lines 29-36: the mapping returned when the feed answers *)
Definition prices_of (data : feed_data) : gmap string pyval :=
  <["btc" := feed_get data "bitcoin" "usd"]>
  (<["eth" := feed_get data "ethereum" "usd"]>
  (<["doge" := feed_get data "dogecoin" "usd"]>
  (<["btc_24h" := feed_get data "bitcoin" "usd_24h_change"]>
  (<["eth_24h" := feed_get data "ethereum" "usd_24h_change"]>
  (<["doge_24h" := feed_get data "dogecoin" "usd_24h_change"]> ∅))))).

Definition get_crypto_prices (feed : result feed_data) : IO.t (gmap string pyval) :=
  IO.catch
    (do! data := IO.perform EvPriceFeed feed in
     IO.ret (prices_of data))
    (fun e => IO.ret (<["error" := VStr (exn_text e)]> ∅)).

(** *** get_kalshi_15m_markets *)

Definition path_15m (series : string) : string :=
  ("/trade-api/v2/markets?series_ticker=" ++ series ++ "&limit=5&status=open")%string.

(** the filter of line 49 *)
Definition quotable (m : ApiMarket.t) : bool :=
  (0 <? from_option 0 (ApiMarket.yes_bid m))
  || (from_option 0 (ApiMarket.yes_ask m) <? 100).

(** lines 51-72: the entry stored for a market that passes the filter *)
Definition market_entry (m : ApiMarket.t) : result Market.t :=
  let subtitle := from_option EmptyString (ApiMarket.yes_sub_title m) in
  try! strike := parse_strike subtitle in
  Ok {| Market.ticker := ApiMarket.ticker m;
        Market.strike := strike;
        Market.yes_bid := Some (from_option 0 (ApiMarket.yes_bid m));
        Market.yes_ask := Some (from_option 0 (ApiMarket.yes_ask m));
        Market.no_bid := Some (from_option 0 (ApiMarket.no_bid m));
        Market.no_ask := Some (from_option 0 (ApiMarket.no_ask m));
        Market.close_time := ApiMarket.close_time m;
        Market.volume := Some (from_option 0 (ApiMarket.volume m));
        Market.subtitle := Some subtitle |}.

(** the inner loop: the first market passing the filter is stored, then
    [break] *)
Fixpoint scan_markets (coin : string) (ms : list ApiMarket.t)
    (acc : gmap string entry) : result (gmap string entry) :=
  match ms with
  | [] => Ok acc
  | m :: rest =>
      if quotable m then
        try! e := market_entry m in
        Ok (<[coin := EMarket e]> acc)
      else scan_markets coin rest acc
  end.

Definition error_key (coin : string) : string := (coin ++ "_error")%string.

(** one round of the outer loop *)
Definition fetch_15m (c : client) (acc : gmap string entry)
    (sc : string * string) : IO.t (gmap string entry) :=
  let (series, coin) := sc in
  IO.catch
    (do! resp := request c "GET" (path_15m series) in
     IO.lift (scan_markets coin (from_option [] (markets resp)) acc))
    (fun e => IO.ret (<[error_key coin := EError (exn_text e)]> acc)).

Fixpoint for_each {A B} (body : B -> A -> IO.t B) (l : list A) (acc : B) : IO.t B :=
  match l with
  | [] => IO.ret acc
  | x :: rest => do! acc' := body acc x in for_each body rest acc'
  end.

Definition series_15m : list (string * string) :=
  [("KXBTC15M", "btc"); ("KXETH15M", "eth")].

Definition get_kalshi_15m_markets (c : client) : IO.t (gmap string entry) :=
  for_each (fetch_15m c) series_15m ∅.

(** *** get_kalshi_daily_markets *)

Definition path_daily (series : string) : string :=
  ("/trade-api/v2/markets?series_ticker=" ++ series ++ "&limit=20&status=open")%string.

Definition active (m : ApiMarket.t) : bool :=
  (0 <? from_option 0 (ApiMarket.volume m))
  || (0 <? from_option 0 (ApiMarket.yes_bid m)).

Definition daily_summary (m : ApiMarket.t) : Daily.t :=
  {| Daily.ticker := ApiMarket.ticker m;
     Daily.yes_bid := from_option 0 (ApiMarket.yes_bid m);
     Daily.yes_ask := from_option 0 (ApiMarket.yes_ask m);
     Daily.volume := from_option 0 (ApiMarket.volume m);
     Daily.subtitle := from_option EmptyString (ApiMarket.yes_sub_title m) |}.

Definition fetch_daily (c : client) (acc : gmap string daily_entry)
    (sc : string * string) : IO.t (gmap string daily_entry) :=
  let (series, coin) := sc in
  IO.catch
    (do! resp := request c "GET" (path_daily series) in
     let act := List.filter active (from_option [] (markets resp)) in
     IO.ret (match act with
             | [] => acc
             | _ :: _ => <[coin := DMarkets (List.map daily_summary (firstn 5 act))]> acc
             end))
    (fun e => IO.ret (<[error_key coin := DError (exn_text e)]> acc)).

Definition series_daily : list (string * string) :=
  [("KXDOGE", "doge"); ("KXBTC", "btc_daily")].

Definition get_kalshi_daily_markets (c : client) : IO.t (gmap string daily_entry) :=
  for_each (fetch_daily c) series_daily ∅.

(** *** analyze_arbitrage *)

(** the two characters that end a reasoning text in the source, as UTF-8 *)
Definition cent_suffix : string :=
  String (ascii_of_nat 195) (String (ascii_of_nat 130)
    (String (ascii_of_nat 194) (String (ascii_of_nat 162) EmptyString))).

Definition reasoning_text (current_price strike : pyfloat) (fair_value : Z)
    (verb : string) (quote : Z) : string :=
  ("Price $" ++ fmt_money current_price ++ " vs strike $" ++ fmt_money strike
   ++ " suggests " ++ Str.str_of_Z fair_value ++ "% YES, but market " ++ verb
   ++ " " ++ Str.str_of_Z quote ++ cent_suffix)%string.

Definition buy_yes (coin : string) (market : Market.t)
    (current_price strike : pyfloat) (fair_value yes_ask : Z) : Opp.t :=
  {| Opp.type := BUY_YES;
     Opp.coin := Str.upper coin;
     Opp.ticker := Market.ticker market;
     Opp.current_price := current_price;
     Opp.strike := strike;
     Opp.fair_value := fair_value;
     Opp.market_price := yes_ask;
     Opp.edge := fair_value - yes_ask;
     Opp.reasoning := reasoning_text current_price strike fair_value "asks" yes_ask |}.

Definition sell_yes (coin : string) (market : Market.t)
    (current_price strike : pyfloat) (fair_value yes_bid : Z) : Opp.t :=
  {| Opp.type := SELL_YES;
     Opp.coin := Str.upper coin;
     Opp.ticker := Market.ticker market;
     Opp.current_price := current_price;
     Opp.strike := strike;
     Opp.fair_value := fair_value;
     Opp.market_price := yes_bid;
     Opp.edge := yes_bid - fair_value;
     Opp.reasoning := reasoning_text current_price strike fair_value "bids" yes_bid |}.

(** lines 148-177: the two checks, once the fair value is known *)
Definition detect (coin : string) (market : Market.t)
    (current_price strike : pyfloat) (fair_value : Z) : list Opp.t :=
  let yes_ask := from_option 100 (Market.yes_ask market) in
  let yes_bid := from_option 0 (Market.yes_bid market) in
  (if yes_ask + 5 <? fair_value
   then [buy_yes coin market current_price strike fair_value yes_ask] else [])
  ++
  (if fair_value <? yes_bid - 5
   then [sell_yes coin market current_price strike fair_value yes_bid] else []).

(** [market.get] needs a dict; arithmetic needs a number *)
Definition as_market (e : entry) : result Market.t :=
  match e with
  | EMarket m => Ok m
  | EError _ => Err AttributeError
  end.

Definition as_number (v : pyval) : result (option pyfloat) :=
  match v with
  | VNone => Ok None
  | VNum x => Ok (Some x)
  | VStr _ => Err TypeError
  end.

(** one round of the loop of [analyze_arbitrage]: what it appends *)
Definition analyze_coin (prices : gmap string pyval)
    (markets_15m : gmap string entry) (coin : string) : result (list Opp.t) :=
  match markets_15m !! coin, prices !! coin with
  | None, _ | _, None | _, Some VNone => Ok []                  (* continue *)
  | Some e, Some v =>
      try! market := as_market e in
      match Market.strike market with
      | None => Ok []                                            (* continue *)
      | Some strike =>
          try! current_price := as_number v in
          try! fair_value := calculate_fair_value current_price (Some strike) 15 in
          match fair_value, current_price with
          | Some fair_value, Some current_price =>
              Ok (detect coin market current_price strike fair_value)
          | _, _ => Ok []                                        (* continue *)
          end
      end
  end.

Fixpoint analyze_loop (prices : gmap string pyval) (markets_15m : gmap string entry)
    (coins : list string) (opportunities : list Opp.t) : result (list Opp.t) :=
  match coins with
  | [] => Ok opportunities
  | coin :: rest =>
      try! found := analyze_coin prices markets_15m coin in
      analyze_loop prices markets_15m rest (opportunities ++ found)
  end.

Definition analyze_arbitrage (prices : gmap string pyval)
    (markets_15m : gmap string entry) : result (list Opp.t) :=
  analyze_loop prices markets_15m ["btc"; "eth"] [].

(** *** main *)

(** [format_report] renders the findings (and reads the clock); it is kept
    abstract, and may raise. *)
Variable format_report :
  gmap string pyval -> gmap string entry -> gmap string daily_entry ->
  list Opp.t -> result string.

(** [f"{v}"] of a value; the text of a float is the interpreter's *)
Variable float_text : pyfloat -> string.

Definition pyval_text (v : pyval) : string :=
  match v with
  | VNone => "None"
  | VNum x => float_text x
  | VStr s => s
  end.

Record main_result : Type := MainResult {
  report : string;
  prices : gmap string pyval;
  markets_15m : gmap string entry;
  opportunities : list Opp.t;
  has_opportunities : bool
}.

(** What one run meets outside: the answer of the price feed (or the
    exception that ends the [try] block of [get_crypto_prices]), and the
    client that [KalshiClient()] builds (or the exception it raises). *)
Record world : Type := World {
  feed : result feed_data;
  new_client : result client
}.

Definition main (w : world) : IO.t (option main_result) :=
  do! prices := get_crypto_prices (feed w) in
  match prices !! "error" with
  | Some err =>
      do! _u := IO.emit (EvPrint ("Error fetching prices: " ++ pyval_text err)%string) in
      IO.ret None
  | None =>
      do! c := IO.perform EvNewClient (new_client w) in
      do! markets_15m := get_kalshi_15m_markets c in
      do! markets_daily := get_kalshi_daily_markets c in
      do! opportunities := IO.lift (analyze_arbitrage prices markets_15m) in
      do! report := IO.lift (format_report prices markets_15m markets_daily opportunities) in
      IO.ret (Some {| report := report;
                      prices := prices;
                      markets_15m := markets_15m;
                      opportunities := opportunities;
                      has_opportunities := (0 <? Z.of_nat (List.length opportunities)) |})
  end.

End Monitor.

(** ** The specification's wording, to compare with the code *)

(** The valuation formula as the specification writes it, over the
    rationals: the percentage deviation, the two capped branches, and the
    value before rounding. *)
Definition spec_pct_diff (spot strike : Q) : Q := ((spot - strike) / strike * 100)%Q.

(** the capped mapping from the deviation to the value before rounding *)
Definition spec_cap (pct_diff : Q) : Q :=
  if Qlt_le_dec 0 pct_diff
  then Qmin (50 + pct_diff * 15) 95
  else Qmax (50 + pct_diff * 15) 5.

Definition spec_fair_value (spot strike : Q) : Q :=
  spec_cap (spec_pct_diff spot strike).



(** the capital of a letter, and a text in upper case, as the
    specification words the method of the signing input *)
Definition small_letters : string := "abcdefghijklmnopqrstuvwxyz".
Definition capital_letters : string := "ABCDEFGHIJKLMNOPQRSTUVWXYZ".

(** the character of [to] at the place [c] has in [from]; [c] itself when
    it is not there *)
Fixpoint translate (c : ascii) (from to : string) : ascii :=
  match from, to with
  | String a from', String b to' =>
      if Ascii.eqb c a then b else translate c from' to'
  | _, _ => c
  end.

Definition spec_capital (c : ascii) : ascii :=
  translate c small_letters capital_letters.

Fixpoint spec_uppercase (s : string) : string :=
  match s with
  | EmptyString => EmptyString
  | String c r => String (spec_capital c) (spec_uppercase r)
  end.

(** a text cut at the first occurrence of a character, as the
    specification words the removal of the query string *)
Fixpoint spec_truncate (c : ascii) (s : string) : string :=
  match s with
  | EmptyString => EmptyString
  | String a r => if Ascii.eqb a c then EmptyString else String a (spec_truncate c r)
  end.

(** ** Auxiliary definitions of the proofs *)

(** the value [calculate_fair_value] rounds, for finite arguments *)
Definition code_fair_value (spot strike : Q) : Q :=
  let pct_diff := ((spot + - strike) / strike * inject_Z 100)%Q in
  let x := (inject_Z 50 + pct_diff * inject_Z 15)%Q in
  if Qltb (inject_Z 0) pct_diff
  then (if Qltb (inject_Z 95) x then inject_Z 95 else x)
  else (if Qltb x (inject_Z 5) then inject_Z 5 else x).

(** the opportunities of one asset, and of one direction, in a result *)
Definition direction_eqb (a b : direction) : bool :=
  match a, b with
  | BUY_YES, BUY_YES | SELL_YES, SELL_YES => true
  | _, _ => false
  end.

Definition of_coin (coin : string) (o : Opp.t) : bool :=
  String.eqb (Opp.coin o) (Str.upper coin).

Definition of_type (d : direction) (o : Opp.t) : bool :=
  direction_eqb d (Opp.type o).

(** a market dict with a strike and the quotes given, and a price mapping
    with one asset *)
Definition quoted_market (strike : pyfloat) (yes_bid yes_ask : option Z) : Market.t :=
  {| Market.ticker := None; Market.strike := Some strike;
     Market.yes_bid := yes_bid; Market.yes_ask := yes_ask;
     Market.no_bid := None; Market.no_ask := None;
     Market.close_time := None; Market.volume := None;
     Market.subtitle := None |}.

Definition one_market (coin : string) (m : Market.t) : gmap string entry :=
  {[ coin := EMarket m ]}.

Definition one_price (coin : string) (x : pyfloat) : gmap string pyval :=
  {[ coin := VNum x ]}.

(** occurrence of a character, and texts made of decimal digits only *)
Fixpoint occurs (c : ascii) (s : string) : bool :=
  match s with
  | EmptyString => false
  | String a r => Ascii.eqb a c || occurs c r
  end.

Fixpoint every (f : ascii -> bool) (s : string) : bool :=
  match s with
  | EmptyString => true
  | String a r => f a && every f r
  end.

Definition all_digits (s : string) : bool := every Str.is_digit s.

(** a character of a plain decimal literal: a digit or the point *)
Definition plain_char (c : ascii) : bool := Str.is_digit c || Ascii.eqb c ".".

(** the literal [ip.fp], and the literal [ip] *)
Definition literal (ip : string) (fp : option string) : string :=
  match fp with
  | Some fp => (ip ++ String "." fp)%string
  | None => ip
  end.

Definition fraction (fp : option string) : string :=
  match fp with Some fp => fp | None => EmptyString end.

(** the number a decimal literal denotes: integer digits [ip] and fraction
    digits [fp] *)
Definition spec_decimal (ip fp : string) : Q :=
  (inject_Z (Str.digits_value 0 ip)
   + inject_Z (Str.digits_value 0 fp) / inject_Z (10 ^ Z.of_nat (String.length fp)))%Q.

(** a client whose BTC series times out while the ETH series answers with
    one quotable market *)
Definition sample_market : ApiMarket.t :=
  {| ApiMarket.ticker := Some "KXETH15M-T1"%string;
     ApiMarket.yes_bid := Some 40; ApiMarket.yes_ask := Some 45;
     ApiMarket.no_bid := Some 55; ApiMarket.no_ask := Some 60;
     ApiMarket.close_time := None; ApiMarket.volume := Some 12;
     ApiMarket.yes_sub_title := Some "Price to beat: $100"%string;
     ApiMarket.rules_primary := None |}.

Definition flaky_client : client :=
  fun method path =>
    if String.eqb path (path_15m "KXBTC15M") then Err (RequestError "timed out")
    else Ok {| markets := Some [sample_market] |}.

Definition sample_exn_text (e : exn) : string :=
  match e with
  | RequestError t | UnsupportedMethod t => t
  | _ => EmptyString
  end.

(** whether an event is a call of the market API or the making of its
    client *)
Definition is_market_call (ev : event) : bool :=
  match ev with
  | EvNewClient | EvRequest _ _ | EvHttp _ => true
  | _ => false
  end.

(** a run whose price feed is down *)
Definition feed_down : world :=
  {| feed := Err (RequestError "connection refused");
     new_client := Ok flaky_client |}.

(** a transport that accepts every call with an empty 201 answer *)
Definition accepting_transport (c : http_call) : result (http_response unit) :=
  Ok {| status_code := 201; text := EmptyString; json := Ok tt |}.

(** ** Auxiliary definitions of the further properties *)

(** what every opportunity of an analysis satisfies *)
Definition sound_opportunity (o : Opp.t) : Prop :=
  (Opp.coin o = "BTC"%string \/ Opp.coin o = "ETH"%string)
  /\ 5 <= Opp.fair_value o <= 95
  /\ 6 <= Opp.edge o
  /\ Opp.edge o = Z.abs (Opp.fair_value o - Opp.market_price o)
  /\ match Opp.type o with
     | BUY_YES => Opp.market_price o + 5 < Opp.fair_value o
                  /\ Opp.market_price o <= 89
     | SELL_YES => Opp.fair_value o < Opp.market_price o - 5
                   /\ 11 <= Opp.market_price o
     end.

(** the strike and the entry kept for a market object, without the error
    wrapper (the extraction raises nothing) *)
Definition strike_of (subtitle : string) : option pyfloat :=
  match parse_strike subtitle with
  | Ok strike => strike
  | Err _ => None
  end.

Definition stored_entry (m : ApiMarket.t) : Market.t :=
  let subtitle := from_option EmptyString (ApiMarket.yes_sub_title m) in
  {| Market.ticker := ApiMarket.ticker m;
     Market.strike := strike_of subtitle;
     Market.yes_bid := Some (from_option 0 (ApiMarket.yes_bid m));
     Market.yes_ask := Some (from_option 0 (ApiMarket.yes_ask m));
     Market.no_bid := Some (from_option 0 (ApiMarket.no_bid m));
     Market.no_ask := Some (from_option 0 (ApiMarket.no_ask m));
     Market.close_time := ApiMarket.close_time m;
     Market.volume := Some (from_option 0 (ApiMarket.volume m));
     Market.subtitle := Some subtitle |}.

(** the market objects of an answer, the first quotable one, and the
    marker of a failed fetch *)
Definition listed (r : result response) : list ApiMarket.t :=
  match r with
  | Ok resp => from_option [] (markets resp)
  | Err _ => []
  end.

Definition selected (r : result response) : option ApiMarket.t :=
  List.find quotable (listed r).

Definition failure {A} (mk : string -> A) (exn_text : exn -> string)
    (r : result response) : option A :=
  match r with
  | Ok _ => None
  | Err e => Some (mk (exn_text e))
  end.

(** the daily summaries kept for an answer *)
Definition daily_kept (r : result response) : list Daily.t :=
  List.map daily_summary (firstn 5 (List.filter active (listed r))).

(** the HTTP call a request plans, if its method is supported *)
Definition planned_call (key_id base_url : string)
    (rsa_pss_sha256 b64encode : string -> string) (now_ms : Z)
    (method path : string) (data : option dict) : option http_call :=
  let url := (base_url ++ path)%string in
  let hs := _headers key_id rsa_pss_sha256 b64encode now_ms method path in
  if String.eqb (Str.upper method) "GET" then Some (HttpGet url hs data)
  else if String.eqb (Str.upper method) "POST" then Some (HttpPost url hs data)
  else if String.eqb (Str.upper method) "DELETE" then Some (HttpDelete url hs)
  else None.

(** events that are HTTP calls, and events a read-only run may make *)
Definition is_http (ev : event) : bool :=
  match ev with
  | EvHttp _ => true
  | _ => false
  end.

Definition reads_only (ev : event) : bool :=
  match ev with
  | EvHttp (HttpGet _ _ None) => true
  | EvHttp _ => false
  | _ => true
  end.

(** the command lines the tool serves *)
Definition served (argv : list string) : bool :=
  match argv with
  | _ :: cmd :: args =>
      String.eqb cmd "balance" || String.eqb cmd "positions"
      || String.eqb cmd "orders" || String.eqb cmd "events"
      || String.eqb cmd "markets"
      || ((String.eqb cmd "market" || String.eqb cmd "orderbook")
          && match args with [] => false | _ :: _ => true end)
  | _ => false
  end.

(** the dict after one round of the 15-minute loop, and after both *)
Definition fetched (exn_text : exn -> string) (coin : string)
    (r : result response) (acc : gmap string entry) : gmap string entry :=
  match r with
  | Ok _ =>
      match selected r with
      | Some m => <[coin := EMarket (stored_entry m)]> acc
      | None => acc
      end
  | Err e => <[error_key coin := EError (exn_text e)]> acc
  end.

Definition markets_after (exn_text : exn -> string) (c : client) : gmap string entry :=
  fetched exn_text "eth" (c "GET" (path_15m "KXETH15M"))%string
    (fetched exn_text "btc" (c "GET" (path_15m "KXBTC15M"))%string ∅).

(** the same for the daily loop *)
Definition daily_fetched (exn_text : exn -> string) (coin : string)
    (r : result response) (acc : gmap string daily_entry) : gmap string daily_entry :=
  match r with
  | Ok _ =>
      match List.filter active (listed r) with
      | [] => acc
      | _ :: _ => <[coin := DMarkets (daily_kept r)]> acc
      end
  | Err e => <[error_key coin := DError (exn_text e)]> acc
  end.

Definition daily_after (exn_text : exn -> string) (c : client)
    : gmap string daily_entry :=
  daily_fetched exn_text "btc_daily" (c "GET" (path_daily "KXBTC"))%string
    (daily_fetched exn_text "doge" (c "GET" (path_daily "KXDOGE"))%string ∅).

(** what [_request] does once its call is planned *)
Definition send (payload : Type) (empty_payload : payload)
    (http_error_text : http_response payload -> string)
    (transport : http_call -> result (http_response payload))
    (call : http_call) : IO.t payload :=
  match transport call with
  | Err e => ([EvHttp call], Err e)
  | Ok resp =>
      if (400 <=? status_code payload resp) && (status_code payload resp <? 600)
      then ([EvHttp call; EvStderr (error_line payload resp)],
            Err (RequestError (http_error_text resp)))
      else ([EvHttp call],
            match text payload resp with
            | EmptyString => Ok empty_payload
            | String _ _ => json payload resp
            end)
  end.

(** sample runs: a feed with the BTC price only, a client that answers
    every series with one market whose strike is zero, and worlds made of
    them *)
Definition sample_feed : feed_data :=
  {[ "bitcoin"%string := {[ "usd"%string := VNum (fl 102) ]} ]}.

Definition zero_market : ApiMarket.t :=
  {| ApiMarket.ticker := Some "KXBTC15M-T0"%string;
     ApiMarket.yes_bid := Some 40; ApiMarket.yes_ask := Some 45;
     ApiMarket.no_bid := None; ApiMarket.no_ask := None;
     ApiMarket.close_time := None; ApiMarket.volume := None;
     ApiMarket.yes_sub_title := Some "Price to beat: $0.00"%string;
     ApiMarket.rules_primary := None |}.

Definition zero_client : client :=
  fun method path => Ok {| markets := Some [zero_market] |}.

Definition healthy_world : world :=
  {| feed := Ok sample_feed; new_client := Ok flaky_client |}.

Definition zero_world : world :=
  {| feed := Ok sample_feed; new_client := Ok zero_client |}.

Definition clientless_world : world :=
  {| feed := Ok sample_feed; new_client := Err (RequestError "no config") |}.

(** * Properties *)

(** ** Evaluation checks of the embedding *)

Example float_plain : FloatParse.float_of_string "67250.50" = Ok (Fin (6725050 # 100)).
Proof. reflexivity. Qed.
Example float_exp : FloatParse.float_of_string " -1_0.5e+2 " = Ok (Fin (inject_Z (-1050))).
Proof. reflexivity. Qed.
Example float_bad1 : FloatParse.float_of_string "67250.50 or above" = Err ValueError.
Proof. reflexivity. Qed.
Example float_bad2 : FloatParse.float_of_string "1e" = Err ValueError.
Proof. reflexivity. Qed.
Example float_bad3 : FloatParse.float_of_string "." = Err ValueError.
Proof. reflexivity. Qed.
Example float_dot : FloatParse.float_of_string "5." = Ok (Fin (inject_Z 5)).
Proof. reflexivity. Qed.
Example float_inf : FloatParse.float_of_string "-Infinity" = Ok (Inf true).
Proof. reflexivity. Qed.
Example fair_value_2pct :
  calculate_fair_value (Some (fl 102)) (Some (fl 100)) 15 = Ok (Some 80).
Proof. reflexivity. Qed.
Example fair_value_tie_even :
  calculate_fair_value (Some (Fin (1003 # 10))) (Some (fl 100)) 15 = Ok (Some 54).
Proof. vm_compute. reflexivity. Qed.
(** the interpreter's arithmetic on the same inputs: equal away from a tie,
    one less at the tie 17.5, where the binary64 value falls below it *)
Example binary64_2pct :
  Binary64.calculate_fair_value
    (Some (Binary64.of_Z 102)) (Some (Binary64.of_Z 100)) 15 = Ok (Some 80).
Proof. vm_compute. reflexivity. Qed.
Example binary64_exact_tie :
  Binary64.calculate_fair_value
    (Some (Binary64.of_Z 613)) (Some (Binary64.of_Z 600)) 15 = Ok (Some 82)
  /\ calculate_fair_value (Some (fl 613)) (Some (fl 600)) 15 = Ok (Some 82).
Proof. split; vm_compute; reflexivity. Qed.
Example binary64_below_tie :
  Binary64.calculate_fair_value
    (Some (Binary64.of_Z 587)) (Some (Binary64.of_Z 600)) 15 = Ok (Some 17)
  /\ calculate_fair_value (Some (fl 587)) (Some (fl 600)) 15 = Ok (Some 18)
  /\ Binary64.calculate_fair_value
       (Some (Binary64.of_ratio 587 100)) (Some (Binary64.of_Z 6)) 15 = Ok (Some 18).
Proof. split; [|split]; vm_compute; reflexivity. Qed.
Example binary64_zero_strike :
  Binary64.calculate_fair_value
    (Some (Binary64.of_Z 102)) (Some (Binary64.of_Z 0)) 15 = Err ZeroDivisionError.
Proof. reflexivity. Qed.
Example strike_example :
  parse_strike "Price to beat: $67,250.50" = Ok (Some (Fin (6725050 # 100))).
Proof. reflexivity. Qed.
Example float_thousands : FloatParse.float_of_string "1_000.5" = Ok (Fin (10005 # 10)).
Proof. reflexivity. Qed.
Example float_bad_underscore : FloatParse.float_of_string "1_.5" = Err ValueError.
Proof. reflexivity. Qed.
Example float_nan : FloatParse.float_of_string "NaN" = Ok NaN.
Proof. reflexivity. Qed.
Example split_dollar : Str.split "$" "a$b$" = ["a"; "b"; ""]%string.
Proof. reflexivity. Qed.
Example strike_no_marker : parse_strike "Above $67,250.50" = Ok None.
Proof. reflexivity. Qed.
Example strike_no_dollar : parse_strike "Price to beat: 67,250.50" = Ok None.
Proof. reflexivity. Qed.
Example strike_two_dollars :
  parse_strike "Price to beat: $1,000$ today" = Ok (Some (Fin (inject_Z 1000))).
Proof. reflexivity. Qed.

(** the three cases of the specification, through [analyze_arbitrage] *)
Example detect_buy (fmt : pyfloat -> string) :
  let m := quoted_market (fl 100) None (Some 70) in
  analyze_arbitrage fmt (one_price "btc" (fl 102)) (one_market "btc" m)
  = Ok [buy_yes fmt "btc" m (fl 102) (fl 100) 80 70]
  /\ Opp.edge (buy_yes fmt "btc" m (fl 102) (fl 100) 80 70) = 10.
Proof. split; reflexivity. Qed.
Example detect_sell (fmt : pyfloat -> string) :
  let m := quoted_market (fl 300) (Some 40) None in
  analyze_arbitrage fmt (one_price "eth" (fl 296)) (one_market "eth" m)
  = Ok [sell_yes fmt "eth" m (fl 296) (fl 300) 30 40]
  /\ Opp.edge (sell_yes fmt "eth" m (fl 296) (fl 300) 30 40) = 10.
Proof. split; reflexivity. Qed.
Example detect_nothing (fmt : pyfloat -> string) :
  let m := quoted_market (fl 300) (Some 50) (Some 60) in
  analyze_arbitrage fmt (one_price "btc" (fl 301)) (one_market "btc" m) = Ok [].
Proof. reflexivity. Qed.
(** a crossed market gives both *)
Example detect_both (fmt : pyfloat -> string) :
  let m := quoted_market (fl 100) (Some 90) (Some 70) in
  analyze_arbitrage fmt (one_price "btc" (fl 102)) (one_market "btc" m)
  = Ok [buy_yes fmt "btc" m (fl 102) (fl 100) 80 70;
        sell_yes fmt "btc" m (fl 102) (fl 100) 80 90].
Proof. reflexivity. Qed.
(** a strike of zero stops the whole analysis *)
Example analyze_zero_strike (fmt : pyfloat -> string) :
  analyze_arbitrage fmt (one_price "btc" (fl 102))
    (one_market "btc" (quoted_market (fl 0) None None))
  = Err ZeroDivisionError.
Proof. reflexivity. Qed.
Example fetch_flaky :
  get_kalshi_15m_markets sample_exn_text flaky_client
  = ([EvRequest "GET" (path_15m "KXBTC15M"); EvRequest "GET" (path_15m "KXETH15M")],
     Ok (<["eth"%string :=
             EMarket {| Market.ticker := Some "KXETH15M-T1"%string;
                        Market.strike := Some (Fin (inject_Z 100));
                        Market.yes_bid := Some 40; Market.yes_ask := Some 45;
                        Market.no_bid := Some 55; Market.no_ask := Some 60;
                        Market.close_time := None; Market.volume := Some 12;
                        Market.subtitle := Some "Price to beat: $100"%string |}]>
          (<["btc_error"%string := EError "timed out"]> ∅))).
Proof. reflexivity. Qed.
Example request_unsupported :
  _request unit tt "key" "https://api" (fun m => m) (fun m => m)
    (fun _ => EmptyString) accepting_transport 0 "PATCH" "/x" None
  = ([], Err (UnsupportedMethod "PATCH")).
Proof. reflexivity. Qed.

(** ** Rounding *)

Section Rounding.

Local Open Scope Z_scope.

Lemma Qltb_lt (a b : Q) : Qltb a b = true <-> (a < b)%Q.
Proof. unfold Qltb, Qlt. apply Z.ltb_lt. Qed.

Lemma Qltb_ge (a b : Q) : Qltb a b = false <-> (b <= a)%Q.
Proof. unfold Qltb, Qle. rewrite Z.ltb_ge. reflexivity. Qed.

(** rounding never decreases when its argument grows *)
Lemma round_half_even_mono (a b : Q) :
  (a <= b)%Q -> round_half_even a <= round_half_even b.
Proof.
  destruct a as [n1 d1], b as [n2 d2]. unfold Qle, round_half_even. simpl.
  intros Hle.
  pose proof (Z.div_mod n1 (Zpos d1) ltac:(lia)) as E1.
  pose proof (Z.div_mod n2 (Zpos d2) ltac:(lia)) as E2.
  pose proof (Z.mod_pos_bound n1 (Zpos d1) ltac:(lia)) as B1.
  pose proof (Z.mod_pos_bound n2 (Zpos d2) ltac:(lia)) as B2.
  set (f1 := n1 / Zpos d1) in *. set (r1 := n1 mod Zpos d1) in *.
  set (f2 := n2 / Zpos d2) in *. set (r2 := n2 mod Zpos d2) in *.
  assert (Hpos1 : 0 < Zpos d1) by lia. assert (Hpos2 : 0 < Zpos d2) by lia.
  set (D1 := Zpos d1) in *. set (D2 := Zpos d2) in *.
  assert (Hf : f1 <= f2).
  { destruct (Z_le_gt_dec f1 f2) as [|Hgt]; [assumption|exfalso].
    assert (f2 + 1 <= f1) by lia.
    assert (n2 * D1 < (f2 + 1) * D2 * D1) by nia.
    assert ((f2 + 1) * D2 * D1 <= f1 * D1 * D2) by nia.
    assert (f1 * D1 * D2 <= n1 * D2) by nia.
    lia. }
  destruct (Z.eq_dec f1 f2) as [Heq|Hne].
  - assert (Hr : r1 * D2 <= r2 * D1) by nia.
    rewrite <- Heq.
    destruct (Z.compare_spec (2 * r1) D1) as [c1|c1|c1];
    destruct (Z.compare_spec (2 * r2) D2) as [c2|c2|c2];
      try destruct (Z.even f1); try lia; exfalso; nia.
  - assert (f1 + 1 <= f2) by lia.
    destruct (2 * r1 ?= D1); destruct (2 * r2 ?= D2);
      try destruct (Z.even f1); try destruct (Z.even f2); lia.
Qed.

Lemma round_half_even_Qeq (a b : Q) :
  (a == b)%Q -> round_half_even a = round_half_even b.
Proof.
  intros H. apply Z.le_antisymm; apply round_half_even_mono;
    rewrite H; apply Qle_refl.
Qed.

Lemma round_half_even_Z (z : Z) : round_half_even (inject_Z z) = z.
Proof.
  unfold round_half_even, inject_Z. simpl.
  rewrite Z.mod_1_r, Z.div_1_r. reflexivity.
Qed.

(** the result is a nearest integer: at most one half away *)
Lemma round_half_even_nearest (q : Q) :
  (inject_Z (round_half_even q) - (1 # 2) <= q
   /\ q <= inject_Z (round_half_even q) + (1 # 2))%Q.
Proof.
  destruct q as [n d]. unfold round_half_even, Qle, Qminus, Qplus, Qopp, inject_Z.
  simpl.
  pose proof (Z.div_mod n (Zpos d) ltac:(lia)) as E.
  pose proof (Z.mod_pos_bound n (Zpos d) ltac:(lia)) as B.
  set (f := n / Zpos d) in *. set (r := n mod Zpos d) in *.
  destruct (Z.compare_spec (2 * r) (Zpos d)); try destruct (Z.even f); lia.
Qed.

End Rounding.

(** ** The valuation heuristic *)

Section Valuation.

Local Open Scope Q_scope.

Lemma Qis_zero_false (q : Q) : Qis_zero q = false <-> ~ q == 0.
Proof.
  unfold Qis_zero, Qeq. simpl. rewrite Z.eqb_neq. split; intros H; lia.
Qed.

Lemma Qis_zero_true (q : Q) : Qis_zero q = true <-> q == 0.
Proof.
  unfold Qis_zero, Qeq. simpl. rewrite Z.eqb_eq. split; intros H; lia.
Qed.

Lemma fair_value_finite (spot strike : Q) (t : Z) :
  ~ strike == 0 ->
  calculate_fair_value (Some (Fin spot)) (Some (Fin strike)) t
  = Ok (Some (round_half_even (code_fair_value spot strike))).
Proof.
  intros Hnz. apply Qis_zero_false in Hnz.
  unfold calculate_fair_value, pf_div, pf_sub. simpl. rewrite Hnz. simpl.
  unfold code_fair_value, py_min, py_max, fl. simpl.
  destruct (Qltb (inject_Z 0) _); simpl.
  - destruct (Qltb (inject_Z 95) _); reflexivity.
  - destruct (Qltb _ (inject_Z 5)); reflexivity.
Qed.

Lemma code_fair_value_spec (spot strike : Q) :
  code_fair_value spot strike == spec_fair_value spot strike.
Proof.
  unfold code_fair_value, spec_fair_value, spec_cap, spec_pct_diff.
  change (inject_Z 100) with 100. change (inject_Z 15) with 15.
  change (inject_Z 50) with 50. change (inject_Z 95) with 95.
  change (inject_Z 5) with 5. change (inject_Z 0) with 0.
  change (spot + - strike) with (spot - strike).
  set (p := (spot - strike) / strike * 100).
  destruct (Qlt_le_dec 0 p) as [Hp|Hp].
  - apply Qltb_lt in Hp. rewrite Hp.
    destruct (Qltb 95 (50 + p * 15)) eqn:E.
    + apply Qltb_lt in E. symmetry. apply Q.min_r. apply Qlt_le_weak, E.
    + apply Qltb_ge in E. symmetry. apply Q.min_l. exact E.
  - apply Qltb_ge in Hp. rewrite Hp.
    destruct (Qltb (50 + p * 15) 5) eqn:E.
    + apply Qltb_lt in E. symmetry. apply Q.max_r. apply Qlt_le_weak, E.
    + apply Qltb_ge in E. symmetry. apply Q.max_l. exact E.
Qed.

Lemma spec_cap_bounds (p : Q) : 5 <= spec_cap p /\ spec_cap p <= 95.
Proof.
  unfold spec_cap. destruct (Qlt_le_dec 0 p) as [Hp|Hp].
  - destruct (Q.min_spec (50 + p * 15) 95) as [[H E]|[H E]]; rewrite E; lra.
  - destruct (Q.max_spec (50 + p * 15) 5) as [[H E]|[H E]]; rewrite E; lra.
Qed.







(** the fair value of finite arguments, through the specification's formula *)
Lemma fair_value_spec (spot strike : Q) (t : Z) :
  ~ strike == 0 ->
  calculate_fair_value (Some (Fin spot)) (Some (Fin strike)) t
  = Ok (Some (round_half_even (spec_fair_value spot strike))).
Proof.
  intros H. rewrite fair_value_finite by exact H.
  do 2 f_equal. apply round_half_even_Qeq, code_fair_value_spec.
Qed.

Lemma round_bounds (q : Q) (lo hi : Z) :
  inject_Z lo <= q -> q <= inject_Z hi ->
  (lo <= round_half_even q <= hi)%Z.
Proof.
  intros Hlo Hhi. split.
  - rewrite <- (round_half_even_Z lo). apply round_half_even_mono, Hlo.
  - rewrite <- (round_half_even_Z hi). apply round_half_even_mono, Hhi.
Qed.

(** whatever the arguments, a returned value lies in [5, 95] *)
Lemma fair_value_range (cp sp : option pyfloat) (t r : Z) :
  calculate_fair_value cp sp t = Ok (Some r) -> (5 <= r <= 95)%Z.
Proof.
  destruct sp as [b|]; [|destruct cp; discriminate].
  destruct cp as [a|]; [|discriminate].
  destruct a as [x|s|], b as [y|s'|].
  - destruct (Qis_zero y) eqn:Hy.
    + unfold calculate_fair_value, pf_div. simpl. rewrite Hy. discriminate.
    + apply Qis_zero_false in Hy. rewrite fair_value_spec by exact Hy.
      intros [= <-]. destruct (spec_cap_bounds (spec_pct_diff x y)).
      apply round_bounds; assumption.
  - destruct s'; vm_compute; discriminate.
  - vm_compute; discriminate.
  - unfold calculate_fair_value, pf_div. simpl.
    destruct (Qis_zero y) eqn:Hy; [discriminate|].
    destruct s, (Qis_neg y); vm_compute; intros [= <-]; split; discriminate.
  - destruct s, s'; vm_compute; discriminate.
  - destruct s; vm_compute; discriminate.
  - unfold calculate_fair_value, pf_div. simpl.
    destruct (Qis_zero y); vm_compute; discriminate.
  - destruct s'; vm_compute; discriminate.
  - vm_compute; discriminate.
Qed.

End Valuation.

(** ** Claims on the valuation heuristic *)

Section ValuationClaims.

Local Open Scope Q_scope.







(** C9. With a strike of zero the division is unguarded: for every non-null
    spot price the call raises [ZeroDivisionError]; for finite arguments it
    raises exactly when the strike is zero, and returns a value otherwise. *)
Theorem C9_zero_strike_raises (cp : pyfloat) (spot strike : Q) (t : Z) :
  calculate_fair_value (Some cp) (Some (Fin 0)) t = Err ZeroDivisionError
  /\ (strike == 0 ->
      calculate_fair_value (Some cp) (Some (Fin strike)) t = Err ZeroDivisionError)
  /\ (calculate_fair_value (Some (Fin spot)) (Some (Fin strike)) t
        = Err ZeroDivisionError <-> strike == 0)
  /\ (~ strike == 0 ->
      exists r : Z,
        calculate_fair_value (Some (Fin spot)) (Some (Fin strike)) t = Ok (Some r)).
Proof.
  assert (Hz : forall k, k == 0 ->
            calculate_fair_value (Some cp) (Some (Fin k)) t = Err ZeroDivisionError).
  { intros k Hk. apply Qis_zero_true in Hk.
    unfold calculate_fair_value, pf_div. simpl. rewrite Hk. reflexivity. }
  split; [|split; [|split; [split|]]].
  - apply Hz. reflexivity.
  - apply Hz.
  - intros H. destruct (Qeq_dec strike 0) as [E|E]; [exact E|].
    rewrite fair_value_spec in H by exact E. discriminate.
  - intros Hk. apply Qis_zero_true in Hk.
    unfold calculate_fair_value, pf_div. simpl. rewrite Hk. reflexivity.
  - intros E. eexists. apply fair_value_spec, E.
Qed.

Lemma C9_zero_strike_raises_witness :
  calculate_fair_value (Some (Fin 102)) (Some (Fin (0 # 7))) 15 = Err ZeroDivisionError
  /\ exists r : Z,
       calculate_fair_value (Some (Fin 102)) (Some (Fin 100)) 15 = Ok (Some r).
Proof.
  pose proof (C9_zero_strike_raises (Fin 102) 102 (0 # 7) 15) as [_ [H _]].
  pose proof (C9_zero_strike_raises (Fin 102) 102 100 15) as [_ [_ [_ H']]].
  split; [apply H; reflexivity | apply H'; vm_compute; discriminate].
Defined.

End ValuationClaims.

(** ** The opportunity detector *)

Section Detector.

Variable fmt_money : pyfloat -> string.

Local Open Scope Z_scope.
Local Arguments calculate_fair_value : simpl never.

Lemma analyze_arbitrage_rounds (prices : gmap string pyval)
    (markets_15m : gmap string entry) :
  analyze_arbitrage fmt_money prices markets_15m =
  try! a := analyze_coin fmt_money prices markets_15m "btc" in
  try! b := analyze_coin fmt_money prices markets_15m "eth" in
  Ok (a ++ b).
Proof.
  unfold analyze_arbitrage. simpl.
  destruct (analyze_coin fmt_money prices markets_15m "btc") as [a|e]; simpl; [|reflexivity].
  destruct (analyze_coin fmt_money prices markets_15m "eth") as [b|e]; simpl; reflexivity.
Qed.

Lemma analyze_coin_detect (prices : gmap string pyval) (markets_15m : gmap string entry)
    (coin : string) (market : Market.t) (cp strike : pyfloat) (fv : Z) :
  markets_15m !! coin = Some (EMarket market) ->
  prices !! coin = Some (VNum cp) ->
  Market.strike market = Some strike ->
  calculate_fair_value (Some cp) (Some strike) 15 = Ok (Some fv) ->
  analyze_coin fmt_money prices markets_15m coin
  = Ok (detect fmt_money coin market cp strike fv).
Proof.
  intros Hm Hp Hs Hfv. unfold analyze_coin. rewrite Hm, Hp. simpl.
  rewrite Hs. simpl. rewrite Hfv. reflexivity.
Qed.

Lemma detect_coin (coin : string) (market : Market.t) (cp strike : pyfloat) (fv : Z) :
  Forall (fun o => Opp.coin o = Str.upper coin)
         (detect fmt_money coin market cp strike fv).
Proof.
  unfold detect. apply Forall_app. split.
  - destruct (_ <? fv); repeat constructor.
  - destruct (fv <? _); repeat constructor.
Qed.

Lemma analyze_coin_coin (prices : gmap string pyval) (markets_15m : gmap string entry)
    (coin : string) (l : list Opp.t) :
  analyze_coin fmt_money prices markets_15m coin = Ok l ->
  Forall (fun o => Opp.coin o = Str.upper coin) l.
Proof.
  unfold analyze_coin.
  destruct (markets_15m !! coin) as [e|]; [|intros [= <-]; constructor].
  destruct (prices !! coin) as [v|]; [|intros [= <-]; constructor].
  destruct v as [|x|s]; [intros [= <-]; constructor| |].
  - destruct e as [m|txt]; simpl; [|discriminate].
    destruct (Market.strike m) as [k|]; [|intros [= <-]; constructor]. simpl.
    destruct (calculate_fair_value (Some x) (Some k) 15) as [[fv|]|]; simpl;
      try discriminate; intros [= <-]; [apply detect_coin | constructor].
  - destruct e as [m|txt]; simpl; [|discriminate].
    destruct (Market.strike m) as [k|]; [|intros [= <-]; constructor]. simpl.
    discriminate.
Qed.

Lemma filter_all {A} (f : A -> bool) (l : list A) :
  Forall (fun x => f x = true) l -> List.filter f l = l.
Proof.
  induction 1 as [|x l Hx _ IH]; simpl; [reflexivity|].
  rewrite Hx, IH. reflexivity.
Qed.

Lemma filter_none {A} (f : A -> bool) (l : list A) :
  Forall (fun x => f x = false) l -> List.filter f l = [].
Proof.
  induction 1 as [|x l Hx _ IH]; simpl; [reflexivity|].
  rewrite Hx, IH. reflexivity.
Qed.

(** in the result of a whole analysis, the opportunities of an asset are
    those of its own round *)
Lemma analyze_arbitrage_of_coin (prices : gmap string pyval)
    (markets_15m : gmap string entry) (coin : string) (opps found : list Opp.t) :
  coin = "btc"%string \/ coin = "eth"%string ->
  analyze_arbitrage fmt_money prices markets_15m = Ok opps ->
  analyze_coin fmt_money prices markets_15m coin = Ok found ->
  List.filter (of_coin coin) opps = found.
Proof.
  intros Hc Ha Hf. rewrite analyze_arbitrage_rounds in Ha.
  destruct (analyze_coin fmt_money prices markets_15m "btc") as [a|] eqn:Ea; [|discriminate].
  destruct (analyze_coin fmt_money prices markets_15m "eth") as [b|] eqn:Eb; [|discriminate].
  simpl in Ha. injection Ha as <-.
  pose proof (analyze_coin_coin _ _ _ _ Ea) as Fa.
  pose proof (analyze_coin_coin _ _ _ _ Eb) as Fb.
  rewrite List.filter_app.
  destruct Hc as [-> | ->].
  - assert (found = a) by congruence. subst found.
    rewrite filter_all, filter_none, app_nil_r; [reflexivity| |].
    + eapply Forall_impl; [exact Fb|]. intros o Ho. unfold of_coin. rewrite Ho. reflexivity.
    + eapply Forall_impl; [exact Fa|]. intros o Ho. unfold of_coin. rewrite Ho. reflexivity.
  - assert (found = b) by congruence. subst found.
    rewrite filter_none, filter_all; [reflexivity| |].
    + eapply Forall_impl; [exact Fb|]. intros o Ho. unfold of_coin. rewrite Ho. reflexivity.
    + eapply Forall_impl; [exact Fa|]. intros o Ho. unfold of_coin. rewrite Ho. reflexivity.
Qed.

Lemma detect_buys (coin : string) (market : Market.t) (cp strike : pyfloat) (fv : Z) :
  List.filter (of_type BUY_YES) (detect fmt_money coin market cp strike fv)
  = if from_option 100 (Market.yes_ask market) + 5 <? fv
    then [buy_yes fmt_money coin market cp strike fv
            (from_option 100 (Market.yes_ask market))]
    else [].
Proof.
  unfold detect. rewrite List.filter_app.
  destruct (_ <? fv); destruct (fv <? _); reflexivity.
Qed.

Lemma detect_sells (coin : string) (market : Market.t) (cp strike : pyfloat) (fv : Z) :
  List.filter (of_type SELL_YES) (detect fmt_money coin market cp strike fv)
  = if fv <? from_option 0 (Market.yes_bid market) - 5
    then [sell_yes fmt_money coin market cp strike fv
            (from_option 0 (Market.yes_bid market))]
    else [].
Proof.
  unfold detect. rewrite List.filter_app.
  destruct (_ <? fv); destruct (fv <? _); reflexivity.
Qed.

Lemma detect_length (coin : string) (market : Market.t) (cp strike : pyfloat) (fv : Z) :
  from_option 0 (Market.yes_bid market) <= from_option 100 (Market.yes_ask market) + 10 ->
  (List.length (detect fmt_money coin market cp strike fv) <= 1)%nat.
Proof.
  intros H. unfold detect. rewrite length_app.
  destruct (Z.ltb_spec (from_option 100 (Market.yes_ask market) + 5) fv);
  destruct (Z.ltb_spec fv (from_option 0 (Market.yes_bid market) - 5));
    simpl; lia.
Qed.

(** C2. For an asset with a selected market and a fair value, the analysis
    emits a BUY_YES opportunity with edge [fair_value - yes_ask] exactly
    when [fair_value > yes_ask + 5], and a SELL_YES opportunity with edge
    [yes_bid - fair_value] exactly when [fair_value < yes_bid - 5]; so a
    fair value of 80 against an ask of 70 gives one BUY_YES of edge 10, a
    fair value of 30 against a bid of 40 one SELL_YES of edge 10, and a
    fair value of 55 between a bid of 50 and an ask of 60 gives nothing. *)
Theorem C2_opportunity_detection (prices : gmap string pyval)
    (markets_15m : gmap string entry) (coin : string) (market : Market.t)
    (cp strike : pyfloat) (fv : Z)
    (Hcoin : coin = "btc"%string \/ coin = "eth"%string)
    (Hm : markets_15m !! coin = Some (EMarket market))
    (Hp : prices !! coin = Some (VNum cp))
    (Hs : Market.strike market = Some strike)
    (Hfv : calculate_fair_value (Some cp) (Some strike) 15 = Ok (Some fv)) :
  let yes_ask := from_option 100 (Market.yes_ask market) in
  let yes_bid := from_option 0 (Market.yes_bid market) in
  let found := detect fmt_money coin market cp strike fv in
  let buy := buy_yes fmt_money coin market cp strike fv yes_ask in
  let sell := sell_yes fmt_money coin market cp strike fv yes_bid in
  analyze_coin fmt_money prices markets_15m coin = Ok found
  /\ (forall opps, analyze_arbitrage fmt_money prices markets_15m = Ok opps ->
        List.filter (of_coin coin) opps = found)
  /\ List.filter (of_type BUY_YES) found = (if yes_ask + 5 <? fv then [buy] else [])
  /\ List.filter (of_type SELL_YES) found = (if fv <? yes_bid - 5 then [sell] else [])
  /\ (Opp.type buy = BUY_YES /\ Opp.edge buy = fv - yes_ask)
  /\ (Opp.type sell = SELL_YES /\ Opp.edge sell = yes_bid - fv)
  /\ (fv = 80 -> yes_ask = 70 ->
        List.filter (of_type BUY_YES) found = [buy] /\ Opp.edge buy = 10)
  /\ (fv = 30 -> yes_bid = 40 ->
        List.filter (of_type SELL_YES) found = [sell] /\ Opp.edge sell = 10)
  /\ (fv = 55 -> yes_bid = 50 -> yes_ask = 60 -> found = []).
Proof.
  intros yes_ask yes_bid found buy sell.
  assert (Hfound : analyze_coin fmt_money prices markets_15m coin = Ok found)
    by (apply analyze_coin_detect; assumption).
  split; [exact Hfound|].
  split; [intros opps Ho; eapply analyze_arbitrage_of_coin; eassumption|].
  split; [apply detect_buys|]. split; [apply detect_sells|].
  split; [split; reflexivity|]. split; [split; reflexivity|].
  split; [|split].
  - intros -> Hask. subst found. rewrite detect_buys. fold yes_ask.
    assert (E : (yes_ask + 5 <? 80) = true) by (apply Z.ltb_lt; lia).
    rewrite E. split; [reflexivity|]. subst buy. simpl. lia.
  - intros -> Hbid. subst found. rewrite detect_sells. fold yes_bid.
    assert (E : (30 <? yes_bid - 5) = true) by (apply Z.ltb_lt; lia).
    rewrite E. split; [reflexivity|]. subst sell. simpl. lia.
  - intros -> Hbid Hask. subst found. unfold detect. fold yes_ask yes_bid.
    assert (E : (yes_ask + 5 <? 55) = false) by (apply Z.ltb_ge; lia).
    assert (E' : (55 <? yes_bid - 5) = false) by (apply Z.ltb_ge; lia).
    rewrite E, E'. reflexivity.
Qed.

(** C10. When the selected market of an asset has
    [yes_bid <= yes_ask + 10], the two conditions cannot hold together and
    the analysis emits at most one opportunity for the asset. *)
Theorem C10_at_most_one_opportunity (prices : gmap string pyval)
    (markets_15m : gmap string entry) (coin : string) (market : Market.t)
    (cp strike : pyfloat) (fv : Z)
    (Hcoin : coin = "btc"%string \/ coin = "eth"%string)
    (Hm : markets_15m !! coin = Some (EMarket market))
    (Hp : prices !! coin = Some (VNum cp))
    (Hs : Market.strike market = Some strike)
    (Hfv : calculate_fair_value (Some cp) (Some strike) 15 = Ok (Some fv))
    (Hspread : from_option 0 (Market.yes_bid market)
               <= from_option 100 (Market.yes_ask market) + 10) :
  let yes_ask := from_option 100 (Market.yes_ask market) in
  let yes_bid := from_option 0 (Market.yes_bid market) in
  ~ (fv > yes_ask + 5 /\ fv < yes_bid - 5)
  /\ (exists found,
        analyze_coin fmt_money prices markets_15m coin = Ok found
        /\ (List.length found <= 1)%nat)
  /\ (forall opps, analyze_arbitrage fmt_money prices markets_15m = Ok opps ->
        (List.length (List.filter (of_coin coin) opps) <= 1)%nat).
Proof.
  intros yes_ask yes_bid.
  assert (Hfound : analyze_coin fmt_money prices markets_15m coin
                   = Ok (detect fmt_money coin market cp strike fv))
    by (apply analyze_coin_detect; assumption).
  split; [subst yes_ask yes_bid; lia|]. split.
  - eexists. split; [exact Hfound|]. apply detect_length, Hspread.
  - intros opps Ho.
    rewrite (analyze_arbitrage_of_coin _ _ _ _ _ Hcoin Ho Hfound).
    apply detect_length, Hspread.
Qed.

End Detector.

Lemma C2_opportunity_detection_witness :
  let fmt := fun _ : pyfloat => EmptyString in
  let m := quoted_market (fl 100) None (Some 70) in
  analyze_coin fmt (one_price "btc" (fl 102)) (one_market "btc" m) "btc"
  = Ok [buy_yes fmt "btc" m (fl 102) (fl 100) 80 70].
Proof.
  intros fmt m.
  refine (proj1 (C2_opportunity_detection fmt (one_price "btc" (fl 102))
                   (one_market "btc" m) "btc" m (fl 102) (fl 100) 80
                   (or_introl eq_refl) _ _ eq_refl _));
    vm_compute; reflexivity.
Defined.

Lemma C10_at_most_one_opportunity_witness :
  let fmt := fun _ : pyfloat => EmptyString in
  let m := quoted_market (fl 100) (Some 68) (Some 70) in
  exists found,
    analyze_coin fmt (one_price "eth" (fl 102)) (one_market "eth" m) "eth" = Ok found
    /\ (List.length found <= 1)%nat.
Proof.
  intros fmt m.
  refine (proj1 (proj2 (C10_at_most_one_opportunity fmt (one_price "eth" (fl 102))
                   (one_market "eth" m) "eth" m (fl 102) (fl 100) 80
                   (or_intror eq_refl) _ _ eq_refl _ _)));
    vm_compute; try reflexivity; discriminate.
Defined.

(** ** The signing input *)

Section Signing.

Variable key_id : string.
Variable rsa_pss_sha256 : string -> string.
Variable b64encode : string -> string.

Lemma path_clean_cons (a : ascii) (r : string) :
  path_clean (String a r)
  = if Ascii.eqb a "?" then EmptyString else String a (path_clean r).
Proof.
  unfold path_clean. simpl. destruct (Ascii.eqb a "?"); [reflexivity|].
  destruct (Str.split "?" r); reflexivity.
Qed.

Lemma path_clean_truncate (path : string) :
  path_clean path = spec_truncate "?" path.
Proof.
  induction path as [|a r IH]; [reflexivity|].
  rewrite path_clean_cons. simpl. rewrite IH. reflexivity.
Qed.

Lemma spec_truncate_query (c : ascii) (p q : string) :
  spec_truncate c (spec_truncate c p ++ String c q) = spec_truncate c p.
Proof.
  induction p as [|a r IH]; simpl.
  - rewrite Ascii.eqb_refl. reflexivity.
  - destruct (Ascii.eqb a c) eqn:E; simpl.
    + rewrite Ascii.eqb_refl. reflexivity.
    + rewrite E, IH. reflexivity.
Qed.

Lemma upper_char_capital (c : ascii) : Str.upper_char c = spec_capital c.
Proof. destruct c as [[] [] [] [] [] [] [] []]; reflexivity. Qed.

Lemma upper_uppercase (s : string) : Str.upper s = spec_uppercase s.
Proof.
  unfold Str.upper. induction s as [|c r IH]; simpl; [reflexivity|].
  rewrite upper_char_capital, IH. reflexivity.
Qed.

(** C5. The message the client signs is the timestamp in decimal, the
    method with each of its letters [a] to [z] replaced by its capital, and
    the path cut at its first [?]; the signature header carries the
    signature of that message.  A query string does not change it: the
    signing input for ["/x?a=1"] is the one for ["/x"], and at the
    millisecond 1700000000000 the inputs of [get] on
    ["/trade-api/v2/markets?limit=5"] and of [Post] on the orders path are
    the texts shown. *)
Theorem C5_signing_input (now_ms : Z) (method path : string) :
  let timestamp := Str.str_of_Z now_ms in
  let msg := (timestamp ++ spec_uppercase method ++ spec_truncate "?" path)%string in
  signed_message now_ms method path = msg
  /\ _headers key_id rsa_pss_sha256 b64encode now_ms method path
     = [("KALSHI-ACCESS-KEY", key_id);
        ("KALSHI-ACCESS-TIMESTAMP", timestamp);
        ("KALSHI-ACCESS-SIGNATURE", b64encode (rsa_pss_sha256 msg));
        ("Content-Type", "application/json")]%string
  /\ (forall query : string,
        signed_message now_ms method (spec_truncate "?" path ++ String "?" query)
        = signed_message now_ms method path)
  /\ signed_message now_ms "GET" "/x?a=1" = signed_message now_ms "GET" "/x"
  /\ signed_message now_ms "get" "/x?a=1" = (timestamp ++ "GET/x")%string
  /\ signed_message 1700000000000 "get" "/trade-api/v2/markets?limit=5"
     = "1700000000000GET/trade-api/v2/markets"%string
  /\ signed_message 1700000000000 "Post" "/trade-api/v2/portfolio/orders"
     = "1700000000000POST/trade-api/v2/portfolio/orders"%string
  /\ signed_message 1700000000000 "delete" "/trade-api/v2/portfolio/orders/a?b?c"
     = "1700000000000DELETE/trade-api/v2/portfolio/orders/a"%string.
Proof.
  intros timestamp msg.
  assert (Hmsg : signed_message now_ms method path = msg).
  { unfold signed_message. rewrite path_clean_truncate, upper_uppercase.
    reflexivity. }
  split; [exact Hmsg|]. split; [|split; [|split; [|split; [|split; [|split]]]]].
  - unfold _headers, _sign. rewrite Hmsg. reflexivity.
  - intros query. unfold signed_message.
    rewrite !path_clean_truncate, spec_truncate_query. reflexivity.
  - reflexivity.
  - reflexivity.
  - vm_compute. reflexivity.
  - vm_compute. reflexivity.
  - vm_compute. reflexivity.
Qed.

End Signing.

(** ** Orders *)

Section Orders.

Variable payload : Type.
Variable empty_payload : payload.
Variable key_id base_url : string.
Variable rsa_pss_sha256 : string -> string.
Variable b64encode : string -> string.
Variable http_error_text : http_response payload -> string.
Variable transport : http_call -> result (http_response payload).

(** every call of [place_order] starts by sending the POST *)
Lemma place_order_dispatches (now_ms : Z) (ticker side action : string)
    (count : Z) (type : string) (price : option Z) :
  exists rest,
    IO.trace (place_order payload empty_payload key_id base_url rsa_pss_sha256
                b64encode http_error_text transport
                now_ms ticker side action count type price)
    = EvHttp (HttpPost (base_url ++ orders_path)
                (_headers key_id rsa_pss_sha256 b64encode now_ms "POST" orders_path)
                (Some (build_order ticker side action count type price)))
      :: rest.
Proof.
  unfold place_order, _request. simpl.
  destruct (transport _) as [resp|e]; simpl; [|eexists; reflexivity].
  destruct (ok payload resp); simpl.
  - destruct (text payload resp); simpl; [eexists; reflexivity|].
    destruct (json payload resp); eexists; reflexivity.
  - eexists; reflexivity.
Qed.

Lemma build_order_fields (ticker side action : string) (count : Z) (type : string)
    (price : option Z) :
  let order := build_order ticker side action count type price in
  dict_get order "ticker" = Some (JStr ticker)
  /\ dict_get order "side" = Some (JStr side)
  /\ dict_get order "action" = Some (JStr action)
  /\ dict_get order "count" = Some (JInt count)
  /\ dict_get order "type" = Some (JStr type).
Proof.
  unfold build_order. destruct price as [p|]; [destruct (String.eqb type "limit")|];
    repeat split; reflexivity.
Qed.

Lemma build_order_limit (ticker side action : string) (count p : Z) :
  let order := build_order ticker side action count "limit" (Some p) in
  dict_get order "yes_price" = Some (if String.eqb side "yes" then JInt p else JNull)
  /\ dict_get order "no_price" = Some (if String.eqb side "no" then JInt p else JNull).
Proof. split; reflexivity. Qed.

Lemma build_order_no_price (ticker side action : string) (count : Z) (type : string)
    (price : option Z) :
  String.eqb type "limit" = false \/ price = None ->
  let order := build_order ticker side action count type price in
  dict_get order "yes_price" = None /\ dict_get order "no_price" = None.
Proof.
  unfold build_order. intros [H | ->].
  - rewrite H. destruct price; split; reflexivity.
  - split; reflexivity.
Qed.

(** C3, as the code has it.  [place_order] checks nothing: whatever the
    side, the action, the count, the type and the price, it sends the POST
    with the five fields as given.  A limit order with a price - 1 and 99,
    and 0 and 100 as well - carries the price in the field of its side
    ([yes_price] or [no_price]) and null in the other; a market order, or an
    order without a price, carries neither field. *)
Theorem C3_place_order_unvalidated (now_ms : Z) (ticker side action : string)
    (count : Z) (type : string) (price : option Z) :
  let order := build_order ticker side action count type price in
  (exists rest,
     IO.trace (place_order payload empty_payload key_id base_url rsa_pss_sha256
                 b64encode http_error_text transport
                 now_ms ticker side action count type price)
     = EvHttp (HttpPost (base_url ++ orders_path)
                 (_headers key_id rsa_pss_sha256 b64encode now_ms "POST" orders_path)
                 (Some order)) :: rest)
  /\ (dict_get order "ticker" = Some (JStr ticker)
      /\ dict_get order "side" = Some (JStr side)
      /\ dict_get order "action" = Some (JStr action)
      /\ dict_get order "count" = Some (JInt count)
      /\ dict_get order "type" = Some (JStr type))
  /\ (forall p : Z, type = "limit"%string -> price = Some p ->
        dict_get order "yes_price"
        = Some (if String.eqb side "yes" then JInt p else JNull)
        /\ dict_get order "no_price"
           = Some (if String.eqb side "no" then JInt p else JNull))
  /\ (type <> "limit"%string \/ price = None ->
        dict_get order "yes_price" = None /\ dict_get order "no_price" = None).
Proof.
  intros order. split; [apply place_order_dispatches|].
  split; [apply build_order_fields|]. split.
  - intros p -> ->. apply build_order_limit.
  - intros H. apply build_order_no_price.
    destruct H as [H|H]; [left|right; exact H].
    apply String.eqb_neq, H.
Qed.

End Orders.

Lemma C3_place_order_unvalidated_witness :
  let order := build_order "KXBTC15M-A" "no" "buy" 3 "limit" (Some 99) in
  dict_get order "yes_price" = Some JNull
  /\ dict_get order "no_price" = Some (JInt 99).
Proof.
  intros order.
  exact (proj1 (proj2 (proj2 (C3_place_order_unvalidated unit tt "key" "https://api"
            (fun m => m) (fun m => m) (fun _ => EmptyString) accepting_transport
            0 "KXBTC15M-A" "no" "buy" 3 "limit" (Some 99)))) 99 eq_refl eq_refl).
Defined.

(** C3 as stated fails: a limit order at price 0, and one at price 100 with
    a side and an action outside the allowed ones and a negative count, are
    sent and answered like any other. *)
Lemma C3_counterexample :
  let place := place_order unit tt "key" "https://api" (fun m => m) (fun m => m)
                 (fun _ => EmptyString) accepting_transport 0 in
  let hs := _headers "key" (fun m => m) (fun m => m) 0 "POST" orders_path in
  place "KXBTC15M-A" "yes" "buy" 1 "limit" (Some 0)
  = ([EvHttp (HttpPost "https://api/trade-api/v2/portfolio/orders" hs
        (Some [("ticker", JStr "KXBTC15M-A"); ("side", JStr "yes");
               ("action", JStr "buy"); ("count", JInt 1); ("type", JStr "limit");
               ("yes_price", JInt 0); ("no_price", JNull)]%string))],
     Ok tt)
  /\ place "KXBTC15M-A" "maybe" "hold" (-2) "limit" (Some 100)
     = ([EvHttp (HttpPost "https://api/trade-api/v2/portfolio/orders" hs
        (Some [("ticker", JStr "KXBTC15M-A"); ("side", JStr "maybe");
               ("action", JStr "hold"); ("count", JInt (-2)); ("type", JStr "limit");
               ("yes_price", JNull); ("no_price", JNull)]%string))],
        Ok tt).
Proof. split; reflexivity. Qed.

(** ** Texts *)

Section Texts.

Import Str.

Lemma append_cons (a : ascii) (r s : string) :
  (String a r ++ s)%string = String a (r ++ s)%string.
Proof. reflexivity. Qed.

Lemma append_empty_r (s : string) : (s ++ "")%string = s.
Proof. induction s as [|a r IH]; [reflexivity|]. rewrite append_cons, IH. reflexivity. Qed.

Lemma append_assoc (a b c : string) : ((a ++ b) ++ c)%string = (a ++ (b ++ c))%string.
Proof. induction a as [|x r IH]; [reflexivity|]. rewrite !append_cons, IH. reflexivity. Qed.

Lemma starts_with_app (p s : string) : starts_with p (p ++ s) = true.
Proof.
  induction p as [|a p IH]; simpl; [reflexivity|].
  rewrite Ascii.eqb_refl, IH. reflexivity.
Qed.

Lemma starts_with_char (a b : ascii) (t : string) :
  starts_with (String a EmptyString) (String b t) = true -> a = b.
Proof.
  simpl. destruct (Ascii.eqb_spec a b); [trivial|discriminate].
Qed.

Lemma contains_prefix (needle s : string) :
  starts_with needle s = true -> contains needle s = true.
Proof. intros H. destruct s; simpl; rewrite H; reflexivity. Qed.

Lemma contains_app (needle before after : string) :
  contains needle (before ++ needle ++ after) = true.
Proof.
  induction before as [|a b IH].
  - change (contains needle (needle ++ after) = true).
    apply contains_prefix, starts_with_app.
  - simpl. rewrite IH. apply orb_true_r.
Qed.

Lemma split_absent (c : ascii) (s : string) :
  occurs c s = false -> split c s = [s].
Proof.
  induction s as [|a r IH]; simpl; [reflexivity|].
  intros H. apply orb_false_elim in H as [Ha Hr].
  rewrite Ha, (IH Hr). reflexivity.
Qed.

Lemma split_first (c : ascii) (a b : string) :
  occurs c a = false -> split c (a ++ String c b) = a :: split c b.
Proof.
  induction a as [|x r IH]; simpl.
  - intros _. rewrite Ascii.eqb_refl. reflexivity.
  - intros H. apply orb_false_elim in H as [Hx Hr].
    rewrite Hx, (IH Hr). reflexivity.
Qed.

Lemma occurs_app (c : ascii) (a b : string) :
  occurs c (a ++ b) = occurs c a || occurs c b.
Proof.
  induction a as [|x r IH]; simpl; [reflexivity|].
  rewrite IH. apply orb_assoc.
Qed.

(** removing the commas keeps every other character *)
Lemma occurs_replace_comma (c : ascii) (s : string) :
  Ascii.eqb c "," = false ->
  occurs c (replace "," "" s) = occurs c s.
Proof.
  intros Hc. induction s as [|a r IH]; simpl; [reflexivity|].
  destruct (Ascii.eqb a ",") eqn:Ea; simpl.
  - apply Ascii.eqb_eq in Ea. subst a.
    rewrite Ascii.eqb_sym, Hc. exact IH.
  - rewrite IH. reflexivity.
Qed.

Lemma every_app (f : ascii -> bool) (a b : string) :
  every f (a ++ b) = every f a && every f b.
Proof.
  induction a as [|x r IH]; [reflexivity|].
  rewrite append_cons. simpl. rewrite IH. apply andb_assoc.
Qed.

Lemma every_impl (f g : ascii -> bool) (s : string) :
  (forall c, f c = true -> g c = true) -> every f s = true -> every g s = true.
Proof.
  intros Hfg. induction s as [|a r IH]; simpl; [reflexivity|].
  intros H. apply andb_prop in H as [Ha Hr].
  rewrite (Hfg _ Ha), (IH Hr). reflexivity.
Qed.

Lemma every_occurs (f : ascii -> bool) (c : ascii) (s : string) :
  f c = false -> every f s = true -> occurs c s = false.
Proof.
  intros Hc. induction s as [|a r IH]; simpl; [reflexivity|].
  intros H. apply andb_prop in H as [Ha Hr].
  rewrite (IH Hr), orb_false_r.
  destruct (Ascii.eqb_spec a c) as [->|]; [congruence|reflexivity].
Qed.

(** the second piece of a text cut at its dollar signs *)
Lemma strike_text_segment (before seg tail : string) :
  occurs "$" before = false ->
  occurs "$" seg = false ->
  tail = EmptyString \/ starts_with "$" tail = true ->
  strike_text (before ++ "$" ++ seg ++ tail) = Ok (replace "," "" seg).
Proof.
  intros Hb Hs Ht. unfold strike_text.
  change (before ++ "$" ++ seg ++ tail)%string
    with (before ++ String "$" (seg ++ tail))%string.
  rewrite (split_first _ _ _ Hb).
  destruct Ht as [-> | Ht].
  - rewrite append_empty_r.
    rewrite (split_absent _ _ Hs). reflexivity.
  - destruct tail as [|x t]; [discriminate|].
    apply starts_with_char in Ht. subst x.
    rewrite (split_first _ _ _ Hs). reflexivity.
Qed.

(** *** [float] on a plain decimal literal *)

Import FloatParse.

Lemma digit_plain (c : ascii) : is_digit c = true -> plain_char c = true.
Proof. intros H. unfold plain_char. rewrite H. reflexivity. Qed.

Lemma plain_not_space (c : ascii) : plain_char c = true -> is_space c = false.
Proof.
  destruct c as [[] [] [] [] [] [] [] []]; vm_compute; congruence.
Qed.

Lemma plain_not_underscore (c : ascii) : plain_char c = true -> is_underscore c = false.
Proof.
  destruct c as [[] [] [] [] [] [] [] []]; vm_compute; congruence.
Qed.

Lemma drop_underscores_plain (s : string) (prev : option ascii) :
  match prev with Some p => is_underscore p | None => false end = false ->
  every plain_char s = true ->
  drop_underscores prev s = Some s.
Proof.
  revert prev. induction s as [|a r IH]; intros prev Hprev Hs; simpl.
  - destruct prev as [p|]; [rewrite Hprev|]; reflexivity.
  - simpl in Hs. apply andb_prop in Hs as [Ha Hr].
    rewrite (plain_not_underscore _ Ha).
    replace (match prev with Some p => is_underscore p | None => false end) with false.
    simpl. rewrite (IH (Some a)); [reflexivity| |exact Hr].
    apply plain_not_underscore, Ha.
Qed.

Lemma lstrip_plain (s : string) : every plain_char s = true -> lstrip s = s.
Proof.
  destruct s as [|a r]; simpl; [reflexivity|].
  intros H. apply andb_prop in H as [Ha _].
  rewrite (plain_not_space _ Ha). reflexivity.
Qed.

Lemma rstrip_plain (s : string) : every plain_char s = true -> rstrip s = s.
Proof.
  induction s as [|a r IH]; simpl; [reflexivity|].
  intros H. apply andb_prop in H as [Ha Hr].
  rewrite (IH Hr). destruct r; [|reflexivity].
  rewrite (plain_not_space _ Ha). reflexivity.
Qed.

Lemma take_sign_digit (c : ascii) (r : string) :
  is_digit c = true -> take_sign (String c r) = (false, String c r).
Proof.
  destruct c as [[] [] [] [] [] [] [] []]; vm_compute; congruence.
Qed.

Lemma not_special_digit (c : ascii) (r : string) :
  is_digit c = true ->
  (String.eqb (lower (String c r)) "inf" || String.eqb (lower (String c r)) "infinity")
  = false
  /\ String.eqb (lower (String c r)) "nan" = false.
Proof.
  intros H. unfold lower. simpl.
  destruct c as [[] [] [] [] [] [] [] []]; try (vm_compute in H; congruence);
    split; reflexivity.
Qed.

Lemma span_digits_app (ip rest : string) :
  all_digits ip = true ->
  match rest with String c _ => is_digit c = false | EmptyString => True end ->
  span_digits (ip ++ rest) = (ip, rest).
Proof.
  intros Hip Hrest. induction ip as [|a r IH].
  - destruct rest as [|c t]; simpl; [reflexivity|]. rewrite Hrest. reflexivity.
  - rewrite append_cons. simpl. unfold all_digits in Hip. simpl in Hip.
    apply andb_prop in Hip as [Ha Hr]. rewrite Ha, (IH Hr). reflexivity.
Qed.

Lemma span_digits_all (s : string) :
  all_digits s = true -> span_digits s = (s, EmptyString).
Proof.
  intros H. rewrite <- (append_empty_r s) at 1.
  apply span_digits_app; [exact H|exact I].
Qed.

Lemma parse_decimal_literal (neg : bool) (ip : string) (fp : option string) :
  ip <> EmptyString ->
  all_digits ip = true ->
  all_digits (fraction fp) = true ->
  parse_decimal neg (literal ip fp)
  = Some (Fin (decimal_value neg (digits_value 0 (ip ++ fraction fp))
                 (0 - Z.of_nat (String.length (fraction fp))))).
Proof.
  intros Hne Hip Hfp. unfold parse_decimal.
  destruct fp as [fp|]; simpl literal; simpl fraction in *.
  - rewrite span_digits_app by (trivial; reflexivity).
    rewrite (span_digits_all _ Hfp).
    destruct ip as [|a r]; [congruence|]. rewrite append_cons. reflexivity.
  - rewrite (span_digits_all _ Hip).
    destruct ip as [|a r]; [congruence|]. rewrite append_cons. reflexivity.
Qed.

Lemma literal_plain (ip : string) (fp : option string) :
  all_digits ip = true -> all_digits (fraction fp) = true ->
  every plain_char (literal ip fp) = true.
Proof.
  intros Hip Hfp.
  apply (every_impl _ _ _ digit_plain) in Hip.
  apply (every_impl _ _ _ digit_plain) in Hfp.
  destruct fp as [fp|]; simpl in *; [|exact Hip].
  rewrite every_app, Hip. simpl. exact Hfp.
Qed.

Lemma float_of_literal (ip : string) (fp : option string) :
  ip <> EmptyString ->
  all_digits ip = true ->
  all_digits (fraction fp) = true ->
  float_of_string (literal ip fp)
  = Ok (Fin (decimal_value false (digits_value 0 (ip ++ fraction fp))
               (0 - Z.of_nat (String.length (fraction fp))))).
Proof.
  intros Hne Hip Hfp.
  pose proof (literal_plain ip fp Hip Hfp) as Hplain.
  unfold float_of_string.
  rewrite drop_underscores_plain by (trivial; reflexivity).
  rewrite lstrip_plain, rstrip_plain by exact Hplain.
  unfold parse_signed.
  assert (Hhead : exists c r, literal ip fp = String c r /\ is_digit c = true).
  { destruct ip as [|c r]; [congruence|].
    unfold all_digits in Hip. simpl in Hip. apply andb_prop in Hip as [Hc _].
    destruct fp; simpl; eauto. }
  destruct Hhead as (c & r & E & Hc).
  rewrite E. rewrite (take_sign_digit _ _ Hc).
  destruct (not_special_digit c r Hc) as [H1 H2]. rewrite H1, H2.
  rewrite <- E. rewrite (parse_decimal_literal false ip fp Hne Hip Hfp).
  reflexivity.
Qed.

Lemma digits_value_acc (s : string) (acc : Z) :
  digits_value acc s
  = (acc * 10 ^ Z.of_nat (String.length s) + digits_value 0 s)%Z.
Proof.
  revert acc. induction s as [|c r IH]; intros acc.
  - simpl. lia.
  - change (digits_value acc (String c r))
      with (digits_value (10 * acc + digit_value c) r).
    change (digits_value 0 (String c r))
      with (digits_value (10 * 0 + digit_value c) r).
    rewrite (IH (10 * acc + digit_value c)%Z), (IH (10 * 0 + digit_value c)%Z).
    change (String.length (String c r)) with (S (String.length r)).
    rewrite Nat2Z.inj_succ, Z.pow_succ_r by lia. ring.
Qed.

Lemma digits_value_app (a b : string) (acc : Z) :
  digits_value acc (a ++ b) = digits_value (digits_value acc a) b.
Proof.
  revert acc. induction a as [|c r IH]; intros acc; [reflexivity|].
  rewrite append_cons. simpl. apply IH.
Qed.

(** the value the parser builds is the number the literal denotes *)
Lemma decimal_value_spec (ip fp : string) :
  (decimal_value false (digits_value 0 (ip ++ fp))
     (0 - Z.of_nat (String.length fp)) == spec_decimal ip fp)%Q.
Proof.
  unfold spec_decimal, decimal_value.
  rewrite digits_value_app, (digits_value_acc fp (digits_value 0 ip)).
  set (A := digits_value 0 ip). set (B := digits_value 0 fp).
  set (n := Z.of_nat (String.length fp)).
  assert (Hn : (0 <= n)%Z) by (subst n; lia).
  assert (HP : (0 < 10 ^ n)%Z) by (apply Z.pow_pos_nonneg; lia).
  destruct (Z.leb_spec 0 (0 - n)) as [H|H].
  - assert (n = 0%Z) as -> by lia. simpl.
    rewrite !Z.mul_1_r. rewrite inject_Z_plus.
    change (10 ^ 0)%Z with 1%Z. change (inject_Z 1) with 1%Q.
    unfold Qdiv. change (/ 1)%Q with 1%Q. rewrite Qmult_1_r. reflexivity.
  - replace (- (0 - n))%Z with n by lia.
    rewrite Qmake_Qdiv, Z2Pos.id by exact HP.
    rewrite inject_Z_plus, inject_Z_mult.
    assert (Hnz : ~ (inject_Z (10 ^ n) == 0)%Q).
    { intros E. unfold Qeq in E. simpl in E. lia. }
    field. exact Hnz.
Qed.

Lemma parse_strike_total (subtitle : string) :
  exists r, parse_strike subtitle = Ok r.
Proof.
  unfold parse_strike. destruct (contains _ subtitle); [|eauto].
  destruct (strike_of_subtitle subtitle); eauto.
Qed.

Lemma parse_strike_no_dollar (subtitle : string) :
  occurs "$" subtitle = false -> parse_strike subtitle = Ok None.
Proof.
  intros H. unfold parse_strike, strike_of_subtitle, strike_text.
  rewrite (split_absent _ _ H). simpl.
  destruct (contains _ subtitle); reflexivity.
Qed.

(** C4, as the code has it.  When the subtitle holds ["Price to beat: $"]
    with no dollar sign before it, and the text from there to the next
    dollar sign or to the end is a decimal literal once its commas are
    removed, the strike is the number of that literal;
    ["Price to beat: $67,250.50"] gives 67250.50.  Without
    ["Price to beat:"], without a dollar sign, or when the text after the
    first dollar sign does not parse, the strike is [None]; no exception
    leaves the extraction. *)
Theorem C4_strike_extraction (before lit tail ip : string) (fp : option string)
    (Hbefore : occurs "$" before = false)
    (Htail : tail = EmptyString \/ starts_with "$" tail = true)
    (Hlit : replace "," "" lit = literal ip fp)
    (Hne : ip <> EmptyString)
    (Hip : all_digits ip = true)
    (Hfp : all_digits (fraction fp) = true) :
  (exists q : Q,
     parse_strike (before ++ "Price to beat: $" ++ lit ++ tail) = Ok (Some (Fin q))
     /\ (q == spec_decimal ip (fraction fp))%Q)
  /\ (parse_strike "Price to beat: $67,250.50" = Ok (Some (Fin (6725050 # 100)))
      /\ (6725050 # 100 == 67250.50)%Q)
  /\ (forall subtitle, contains "Price to beat:" subtitle = false ->
        parse_strike subtitle = Ok None)
  /\ (forall subtitle, occurs "$" subtitle = false ->
        parse_strike subtitle = Ok None)
  /\ (forall subtitle e, strike_of_subtitle subtitle = Err e ->
        parse_strike subtitle = Ok None)
  /\ (forall subtitle, exists r, parse_strike subtitle = Ok r).
Proof.
  split; [|split; [|split; [|split; [|split]]]].
  - eexists. split; [|apply decimal_value_spec].
    assert (Hplain : every plain_char (literal ip fp) = true)
      by (apply literal_plain; assumption).
    assert (Hseg : occurs "$" lit = false).
    { rewrite <- (occurs_replace_comma "$" lit) by reflexivity.
      rewrite Hlit. apply (every_occurs plain_char); [reflexivity|exact Hplain]. }
    unfold parse_strike.
    replace (before ++ "Price to beat: $" ++ lit ++ tail)%string
      with (before ++ "Price to beat:" ++ (" $" ++ lit ++ tail))%string
      by reflexivity.
    rewrite contains_app.
    replace (before ++ "Price to beat:" ++ (" $" ++ lit ++ tail))%string
      with ((before ++ "Price to beat: ") ++ "$" ++ lit ++ tail)%string
      by (rewrite append_assoc; reflexivity).
    unfold strike_of_subtitle. rewrite strike_text_segment; trivial.
    + simpl. rewrite Hlit, float_of_literal by assumption. reflexivity.
    + rewrite occurs_app, Hbefore. reflexivity.
  - split; reflexivity.
  - intros subtitle H. unfold parse_strike. rewrite H. reflexivity.
  - apply parse_strike_no_dollar.
  - intros subtitle e H. unfold parse_strike. rewrite H.
    destruct (contains _ subtitle); reflexivity.
  - apply parse_strike_total.
Qed.

End Texts.

Lemma C4_strike_extraction_witness :
  exists q : Q,
    parse_strike "Price to beat: $67,250.50" = Ok (Some (Fin q))
    /\ (q == spec_decimal "67250" "50")%Q.
Proof.
  exact (proj1 (C4_strike_extraction "" "67,250.50" "" "67250" (Some "50"%string)
                  eq_refl (or_introl eq_refl) eq_refl
                  ltac:(discriminate) eq_refl eq_refl)).
Defined.

(** C4 as stated fails both ways: text after the number leaves the strike
    [None] although the marker and the literal are there, and a subtitle
    without the marker ["Price to beat: $"] still yields a strike. *)
Lemma C4_counterexample :
  (Str.contains "Price to beat: $67,250.50" "Price to beat: $67,250.50 or above" = true
   /\ parse_strike "Price to beat: $67,250.50 or above" = Ok None)
  /\ (Str.contains "Price to beat: $" "Price to beat:$500" = false
      /\ parse_strike "Price to beat:$500" = Ok (Some (Fin (inject_Z 500)))).
Proof. repeat split; reflexivity. Qed.

(** ** Failure policy of one cycle *)

Section Cycle.

Variable exn_text : exn -> string.
Variable fmt_money : pyfloat -> string.
Variable format_report :
  gmap string pyval -> gmap string entry -> gmap string daily_entry ->
  list Opp.t -> result string.
Variable float_text : pyfloat -> string.

Local Arguments calculate_fair_value : simpl never.

Lemma market_entry_ok (m : ApiMarket.t) : exists en, market_entry m = Ok en.
Proof.
  unfold market_entry.
  destruct (parse_strike_total (from_option EmptyString (ApiMarket.yes_sub_title m)))
    as [r Hr].
  rewrite Hr. simpl. eauto.
Qed.

Lemma scan_markets_find (coin : string) (ms : list ApiMarket.t)
    (acc : gmap string entry) (m : ApiMarket.t) (en : Market.t) :
  List.find quotable ms = Some m ->
  market_entry m = Ok en ->
  scan_markets coin ms acc = Ok (<[coin := EMarket en]> acc).
Proof.
  intros Hfind Hen. induction ms as [|x rest IH]; simpl in *; [discriminate|].
  destruct (quotable x).
  - injection Hfind as ->. rewrite Hen. reflexivity.
  - apply IH, Hfind.
Qed.

Lemma scan_markets_none (coin : string) (ms : list ApiMarket.t)
    (acc : gmap string entry) :
  List.find quotable ms = None -> scan_markets coin ms acc = Ok acc.
Proof.
  induction ms as [|x rest IH]; simpl; [reflexivity|].
  destruct (quotable x); [discriminate|exact IH].
Qed.

(** the analysis of an asset reads its own entry only *)
Lemma analyze_coin_local (prices : gmap string pyval) (M M' : gmap string entry)
    (coin : string) :
  M !! coin = M' !! coin ->
  analyze_coin fmt_money prices M coin = analyze_coin fmt_money prices M' coin.
Proof. intros H. unfold analyze_coin. rewrite H. reflexivity. Qed.

Lemma analyze_coin_absent (prices : gmap string pyval) (M : gmap string entry)
    (coin : string) :
  M !! coin = None -> analyze_coin fmt_money prices M coin = Ok [].
Proof. intros H. unfold analyze_coin. rewrite H. reflexivity. Qed.

Lemma bind_ok_nil_r (r : result (list Opp.t)) :
  (try! a := r in try! b := Ok [] in Ok (a ++ b)) = r.
Proof. destruct r as [a|e]; simpl; [rewrite app_nil_r|]; reflexivity. Qed.

Lemma bind_ok_nil_l (r : result (list Opp.t)) :
  (try! a := Ok [] in try! b := r in Ok (a ++ b)) = r.
Proof. destruct r as [a|e]; reflexivity. Qed.

(** the quotes of a stored entry are those of the market object, 0 when
    the object has none *)
Lemma market_entry_quotes (m : ApiMarket.t) (en : Market.t) :
  market_entry m = Ok en ->
  Market.yes_bid en = Some (from_option 0 (ApiMarket.yes_bid m))
  /\ Market.yes_ask en = Some (from_option 0 (ApiMarket.yes_ask m))
  /\ parse_strike (from_option EmptyString (ApiMarket.yes_sub_title m))
     = Ok (Market.strike en).
Proof.
  unfold market_entry.
  destruct (parse_strike (from_option EmptyString (ApiMarket.yes_sub_title m)))
    as [k|e]; simpl; [|discriminate].
  intros [= <-]. repeat split.
Qed.

(** what the analysis returns when it comes down to the round of one asset
    whose entry, price and fair value are there *)
Lemma single_asset_opportunities (prices : gmap string pyval)
    (M : gmap string entry) (coin : string) (m : ApiMarket.t) (en : Market.t)
    (cp strike : pyfloat) (fv : Z) :
  market_entry m = Ok en ->
  M !! coin = Some (EMarket en) ->
  analyze_arbitrage fmt_money prices M = analyze_coin fmt_money prices M coin ->
  prices !! coin = Some (VNum cp) ->
  Market.strike en = Some strike ->
  calculate_fair_value (Some cp) (Some strike) 15 = Ok (Some fv) ->
  let yes_bid := from_option 0 (ApiMarket.yes_bid m) in
  let yes_ask := from_option 0 (ApiMarket.yes_ask m) in
  let found := detect fmt_money coin en cp strike fv in
  analyze_arbitrage fmt_money prices M = Ok found
  /\ (yes_ask + 5 < fv ->
      In (buy_yes fmt_money coin en cp strike fv yes_ask) found)
  /\ (fv < yes_bid - 5 ->
      In (sell_yes fmt_money coin en cp strike fv yes_bid) found)
  /\ (found = [] <-> fv <= yes_ask + 5 /\ yes_bid - 5 <= fv).
Proof.
  intros Hen HM Hall Hp Hs Hfv yes_bid yes_ask found.
  destruct (market_entry_quotes m en Hen) as (Hbid & Hask & _).
  split.
  { rewrite Hall. apply (analyze_coin_detect fmt_money prices M coin en cp strike fv);
      assumption. }
  subst found. unfold detect. rewrite Hbid, Hask. cbn [from_option].
  fold yes_bid yes_ask.
  destruct (Z.ltb_spec (yes_ask + 5) fv) as [Hb|Hb];
    destruct (Z.ltb_spec fv (yes_bid - 5)) as [Hs'|Hs'].
  - split; [intros _; left; reflexivity|].
    split; [intros _; right; left; reflexivity|].
    split; [intros H; discriminate H|intros [H _]; exfalso; lia].
  - split; [intros _; left; reflexivity|].
    split; [intros H; exfalso; lia|].
    split; [intros H; discriminate H|intros [H _]; exfalso; lia].
  - split; [intros H; exfalso; lia|].
    split; [intros _; left; reflexivity|].
    split; [intros H; discriminate H|intros [_ H]; exfalso; lia].
  - split; [intros H; exfalso; lia|].
    split; [intros H; exfalso; lia|].
    split; [intros _; split; assumption|reflexivity].
Qed.

(** C6. When the fetch of one series raises and the other succeeds with a
    quotable market, both requests are made, the failure is recorded as
    text under ["<coin>_error"], the healthy asset keeps its market entry,
    and the analysis gives exactly the opportunities of the healthy asset,
    those its entry alone would give: with a price and a fair value for
    that asset, the result of [analyze_arbitrage] is the outcome of the two
    checks on the stored quotes, with the BUY_YES in it when the fair value
    is more than 5 above the ask and the SELL_YES when it is more than 5
    below the bid. *)
Theorem C6_fetch_failure_isolated (c : client) (prices : gmap string pyval)
    (failed healthy : string * string) (e : exn) (resp : response)
    (m : ApiMarket.t)
    (Hpair : (failed, healthy) = (("KXBTC15M", "btc"), ("KXETH15M", "eth"))%string
             \/ (failed, healthy) = (("KXETH15M", "eth"), ("KXBTC15M", "btc"))%string)
    (Hfail : c "GET"%string (path_15m (fst failed)) = Err e)
    (Hok : c "GET"%string (path_15m (fst healthy)) = Ok resp)
    (Hsel : List.find quotable (from_option [] (markets resp)) = Some m) :
  exists (M : gmap string entry) (en : Market.t),
    IO.outcome (get_kalshi_15m_markets exn_text c) = Ok M
    /\ IO.trace (get_kalshi_15m_markets exn_text c)
       = [EvRequest "GET" (path_15m "KXBTC15M"); EvRequest "GET" (path_15m "KXETH15M")]
    /\ market_entry m = Ok en
    /\ M !! error_key (snd failed) = Some (EError (exn_text e))
    /\ M !! snd failed = None
    /\ M !! snd healthy = Some (EMarket en)
    /\ analyze_arbitrage fmt_money prices M
       = analyze_coin fmt_money prices M (snd healthy)
    /\ analyze_coin fmt_money prices M (snd healthy)
       = analyze_coin fmt_money prices (one_market (snd healthy) en) (snd healthy)
    /\ (forall (cp strike : pyfloat) (fv : Z),
          prices !! snd healthy = Some (VNum cp) ->
          Market.strike en = Some strike ->
          calculate_fair_value (Some cp) (Some strike) 15 = Ok (Some fv) ->
          let yes_bid := from_option 0 (ApiMarket.yes_bid m) in
          let yes_ask := from_option 0 (ApiMarket.yes_ask m) in
          let found := detect fmt_money (snd healthy) en cp strike fv in
          analyze_arbitrage fmt_money prices M = Ok found
          /\ (yes_ask + 5 < fv ->
              In (buy_yes fmt_money (snd healthy) en cp strike fv yes_ask) found)
          /\ (fv < yes_bid - 5 ->
              In (sell_yes fmt_money (snd healthy) en cp strike fv yes_bid) found)
          /\ (found = [] <-> fv <= yes_ask + 5 /\ yes_bid - 5 <= fv)).
Proof.
  destruct (market_entry_ok m) as [en Hen].
  destruct Hpair as [[= -> ->] | [= -> ->]]; simpl in Hfail, Hok; simpl snd.
  - exists (<["eth"%string := EMarket en]>
             (<["btc_error"%string := EError (exn_text e)]> ∅)), en.
    assert (HM : get_kalshi_15m_markets exn_text c
                 = ([EvRequest "GET" (path_15m "KXBTC15M");
                     EvRequest "GET" (path_15m "KXETH15M")],
                    Ok (<["eth"%string := EMarket en]>
                         (<["btc_error"%string := EError (exn_text e)]> ∅)))).
    { unfold get_kalshi_15m_markets, series_15m, for_each, fetch_15m, request,
        IO.perform, IO.bind, IO.catch, IO.lift, IO.ret.
      rewrite Hfail, Hok. simpl.
      rewrite (scan_markets_find _ _ _ _ _ Hsel Hen). reflexivity. }
    rewrite HM. simpl.
    assert (Hall : analyze_arbitrage fmt_money prices
                     (<["eth"%string := EMarket en]>
                        (<["btc_error"%string := EError (exn_text e)]> ∅))
                   = analyze_coin fmt_money prices
                       (<["eth"%string := EMarket en]>
                          (<["btc_error"%string := EError (exn_text e)]> ∅)) "eth").
    { rewrite analyze_arbitrage_rounds.
      rewrite (analyze_coin_absent prices _ "btc") by reflexivity.
      apply bind_ok_nil_l. }
    split; [reflexivity|]. split; [reflexivity|]. split; [exact Hen|].
    split; [reflexivity|]. split; [reflexivity|]. split; [reflexivity|].
    split; [exact Hall|]. split.
    + apply analyze_coin_local. reflexivity.
    + intros cp strike fv Hp Hs Hfv.
      apply (single_asset_opportunities prices _ "eth" m en cp strike fv);
        (assumption || reflexivity).
  - exists (<["eth_error"%string := EError (exn_text e)]>
             (<["btc"%string := EMarket en]> ∅)), en.
    assert (HM : get_kalshi_15m_markets exn_text c
                 = ([EvRequest "GET" (path_15m "KXBTC15M");
                     EvRequest "GET" (path_15m "KXETH15M")],
                    Ok (<["eth_error"%string := EError (exn_text e)]>
                         (<["btc"%string := EMarket en]> ∅)))).
    { unfold get_kalshi_15m_markets, series_15m, for_each, fetch_15m, request,
        IO.perform, IO.bind, IO.catch, IO.lift, IO.ret.
      rewrite Hfail, Hok. simpl.
      rewrite (scan_markets_find _ _ _ _ _ Hsel Hen). reflexivity. }
    rewrite HM. simpl.
    assert (Hall : analyze_arbitrage fmt_money prices
                     (<["eth_error"%string := EError (exn_text e)]>
                        (<["btc"%string := EMarket en]> ∅))
                   = analyze_coin fmt_money prices
                       (<["eth_error"%string := EError (exn_text e)]>
                          (<["btc"%string := EMarket en]> ∅)) "btc").
    { rewrite analyze_arbitrage_rounds.
      rewrite (analyze_coin_absent prices _ "eth") by reflexivity.
      apply bind_ok_nil_r. }
    split; [reflexivity|]. split; [reflexivity|]. split; [exact Hen|].
    split; [reflexivity|]. split; [reflexivity|]. split; [reflexivity|].
    split; [exact Hall|]. split.
    + apply analyze_coin_local. reflexivity.
    + intros cp strike fv Hp Hs Hfv.
      apply (single_asset_opportunities prices _ "btc" m en cp strike fv);
        (assumption || reflexivity).
Qed.

Lemma get_crypto_prices_failed (e : exn) :
  get_crypto_prices exn_text (Err e)
  = ([EvPriceFeed], Ok (<["error"%string := VStr (exn_text e)]> ∅)).
Proof. reflexivity. Qed.

Lemma get_crypto_prices_error_key (r : result feed_data) :
  (exists prices,
     IO.outcome (get_crypto_prices exn_text r) = Ok prices
     /\ is_Some (prices !! "error"%string))
  <-> exists e, r = Err e.
Proof.
  split.
  - intros (prices & Hout & Herr). destruct r as [data|e]; [|eauto].
    simpl in Hout. injection Hout as <-.
    destruct Herr as [v Hv]. vm_compute in Hv. discriminate.
  - intros [e ->]. eexists. split; [reflexivity|]. eexists. reflexivity.
Qed.

Lemma prices_of_no_error (data : feed_data) :
  prices_of data !! "error"%string = None.
Proof. reflexivity. Qed.

Lemma trace_bind {A B} (m : IO.t A) (f : A -> IO.t B) :
  IO.trace (IO.bind m f)
  = IO.trace m ++ match IO.outcome m with
                  | Ok a => IO.trace (f a)
                  | Err _ => []
                  end.
Proof.
  destruct m as [tr [a|e]]; simpl.
  - destruct (f a); reflexivity.
  - rewrite app_nil_r. reflexivity.
Qed.

Lemma trace_catch {A} (m : IO.t A) (h : exn -> IO.t A) :
  IO.trace (IO.catch m h)
  = IO.trace m ++ match IO.outcome m with
                  | Ok _ => []
                  | Err e => IO.trace (h e)
                  end.
Proof.
  destruct m as [tr [a|e]]; simpl.
  - rewrite app_nil_r. reflexivity.
  - destruct (h e); reflexivity.
Qed.

Lemma get_15m_first_request (c : client) :
  exists rest,
    IO.trace (get_kalshi_15m_markets exn_text c)
    = EvRequest "GET" (path_15m "KXBTC15M") :: rest.
Proof.
  unfold get_kalshi_15m_markets, series_15m, for_each.
  rewrite trace_bind. unfold fetch_15m at 1. rewrite trace_catch, trace_bind.
  unfold request at 1. simpl. eauto.
Qed.

(** a cycle whose price fetch succeeds goes on to build the client and to
    ask for the first series *)
Lemma main_goes_on (w : world) (data : feed_data) (c : client) :
  feed w = Ok data -> new_client w = Ok c ->
  exists rest,
    IO.trace (main exn_text fmt_money format_report float_text w)
    = EvPriceFeed :: EvNewClient :: EvRequest "GET" (path_15m "KXBTC15M") :: rest.
Proof.
  intros Hfeed Hc. unfold main. rewrite Hfeed, Hc, trace_bind.
  change (IO.outcome (get_crypto_prices exn_text (Ok data)))
    with (Ok (A:=gmap string pyval) (prices_of data)).
  cbv beta iota. rewrite prices_of_no_error, trace_bind.
  change (IO.outcome (IO.perform EvNewClient (Ok c))) with (Ok (A:=client) c).
  cbv beta iota. rewrite trace_bind.
  destruct (get_15m_first_request c) as [rest ->].
  simpl. eauto.
Qed.

(** C7. When the price fetch fails, [get_crypto_prices] returns a mapping
    with the key ["error"], and [main] prints the error and returns [None]:
    the price fetch and the print are all it does, so no client is made, no
    market is asked for and no report is produced. *)
Theorem C7_price_failure_aborts (w : world) (e : exn) (Hfail : feed w = Err e) :
  let run := main exn_text fmt_money format_report float_text w in
  IO.outcome (get_crypto_prices exn_text (feed w))
  = Ok (<["error"%string := VStr (exn_text e)]> ∅)
  /\ IO.trace run
     = [EvPriceFeed; EvPrint ("Error fetching prices: " ++ exn_text e)%string]
  /\ IO.outcome run = Ok None
  /\ List.filter is_market_call (IO.trace run) = [].
Proof.
  intros run. subst run. unfold main. rewrite Hfail.
  rewrite get_crypto_prices_failed. simpl. repeat split; reflexivity.
Qed.

End Cycle.

Lemma C6_fetch_failure_isolated_witness :
  let fmt := fun _ : pyfloat => EmptyString in
  exists (M : gmap string entry) (en : Market.t),
    IO.outcome (get_kalshi_15m_markets sample_exn_text flaky_client) = Ok M
    /\ M !! "btc_error"%string = Some (EError "timed out")
    /\ M !! "eth"%string = Some (EMarket en)
    /\ Market.strike en = Some (Fin (inject_Z 100))
    /\ analyze_arbitrage fmt (one_price "eth" (fl 102)) M
       = Ok [buy_yes fmt "eth" en (fl 102) (fl 100) 80 45].
Proof.
  intros fmt.
  destruct (C6_fetch_failure_isolated sample_exn_text fmt
              flaky_client (one_price "eth" (fl 102))
              ("KXBTC15M", "btc")%string ("KXETH15M", "eth")%string
              (RequestError "timed out")
              {| markets := Some [sample_market] |} sample_market
              (or_introl eq_refl) eq_refl eq_refl eq_refl)
    as (M & en & HM & _ & Hen & Herr & _ & Hm & _ & _ & Hopp).
  exists M, en.
  vm_compute in Hen. injection Hen as <-.
  destruct (Hopp (fl 102) (fl 100) 80 eq_refl eq_refl eq_refl) as (Hfound & _).
  repeat split; assumption.
Defined.

Lemma C7_price_failure_aborts_witness :
  IO.trace (main sample_exn_text (fun _ => EmptyString) (fun _ _ _ _ => Ok EmptyString)
              (fun _ => EmptyString) feed_down)
  = [EvPriceFeed; EvPrint "Error fetching prices: connection refused"]
  /\ IO.outcome (main sample_exn_text (fun _ => EmptyString)
                   (fun _ _ _ _ => Ok EmptyString) (fun _ => EmptyString) feed_down)
     = Ok None.
Proof.
  pose proof (C7_price_failure_aborts sample_exn_text (fun _ => EmptyString)
                (fun _ _ _ _ => Ok EmptyString) (fun _ => EmptyString)
                feed_down (RequestError "connection refused") eq_refl)
    as (_ & Htr & Hout & _).
  split; [exact Htr|exact Hout].
Defined.

(** * Further properties of the code *)

(** ** More on the valuation heuristic *)

Section ValuationMore.

Local Open Scope Q_scope.




(** Values that are not numbers never give a fair value: with a NaN spot
    (and a strike that is not zero) or a NaN strike the call raises
    [ValueError]; an infinite spot against a positive strike gives the cap
    or the floor. *)
Theorem fair_value_not_finite (cp sp : pyfloat) (strike : Q) (t : Z) :
  (pf_is_zero sp = false ->
   calculate_fair_value (Some NaN) (Some sp) t = Err ValueError)
  /\ calculate_fair_value (Some cp) (Some NaN) t = Err ValueError
  /\ (0 < strike ->
      calculate_fair_value (Some (Inf false)) (Some (Fin strike)) t = Ok (Some 95%Z)
      /\ calculate_fair_value (Some (Inf true)) (Some (Fin strike)) t = Ok (Some 5%Z)).
Proof.
  split; [|split].
  - intros Hz. unfold calculate_fair_value, pf_div. rewrite Hz.
    destruct sp as [y|s|]; reflexivity.
  - destruct cp as [x|s|]; reflexivity.
  - intros Hpos.
    assert (Hz : Qis_zero strike = false) by (apply Qis_zero_false; lra).
    assert (Hn : Qis_neg strike = false).
    { unfold Qis_neg. apply Z.ltb_ge. unfold Qlt in Hpos. simpl in Hpos. lia. }
    unfold calculate_fair_value, pf_div. simpl. rewrite Hz, Hn. split; reflexivity.
Qed.

Lemma fair_value_not_finite_witness :
  calculate_fair_value (Some NaN) (Some (Fin 100)) 15 = Err ValueError
  /\ calculate_fair_value (Some (Inf false)) (Some (Fin 100)) 15 = Ok (Some 95%Z).
Proof.
  pose proof (fair_value_not_finite NaN (Fin 100) 100 15) as (H1 & _ & H3).
  split; [apply H1; reflexivity | apply H3; reflexivity].
Defined.

End ValuationMore.

(** ** More on the opportunity detector *)

Section DetectorMore.

Variable fmt_money : pyfloat -> string.

Local Open Scope Z_scope.
Local Arguments calculate_fair_value : simpl never.

(** how a round of the analysis can end well *)
Lemma analyze_coin_cases (prices : gmap string pyval) (markets_15m : gmap string entry)
    (coin : string) (l : list Opp.t) :
  analyze_coin fmt_money prices markets_15m coin = Ok l ->
  l = []
  \/ exists market cp strike fv,
       markets_15m !! coin = Some (EMarket market)
       /\ prices !! coin = Some (VNum cp)
       /\ Market.strike market = Some strike
       /\ calculate_fair_value (Some cp) (Some strike) 15 = Ok (Some fv)
       /\ l = detect fmt_money coin market cp strike fv.
Proof.
  unfold analyze_coin.
  destruct (markets_15m !! coin) as [e|]; [|intros [= <-]; auto].
  destruct (prices !! coin) as [v|]; [|intros [= <-]; auto].
  destruct v as [|x|s]; [intros [= <-]; auto| |].
  - destruct e as [m|txt]; simpl; [|discriminate].
    destruct (Market.strike m) as [k|] eqn:Ek; [|intros [= <-]; auto]. simpl.
    destruct (calculate_fair_value (Some x) (Some k) 15) as [[fv|]|] eqn:Efv; simpl;
      try discriminate; intros [= <-]; [right|auto].
    exists m, x, k, fv. auto.
  - destruct e as [m|txt]; simpl; [|discriminate].
    destruct (Market.strike m) as [k|]; [|intros [= <-]; auto]. simpl.
    discriminate.
Qed.

Lemma detect_sound (coin : string) (market : Market.t) (cp strike : pyfloat) (fv : Z) :
  coin = "btc"%string \/ coin = "eth"%string ->
  5 <= fv <= 95 ->
  Forall sound_opportunity (detect fmt_money coin market cp strike fv).
Proof.
  intros Hcoin Hfv. unfold detect. apply Forall_app. split.
  - destruct (Z.ltb_spec (from_option 100 (Market.yes_ask market) + 5) fv);
      constructor; [|constructor].
    unfold sound_opportunity. simpl.
    split; [destruct Hcoin as [-> | ->]; auto|]. repeat split; lia.
  - destruct (Z.ltb_spec fv (from_option 0 (Market.yes_bid market) - 5));
      constructor; [|constructor].
    unfold sound_opportunity. simpl.
    split; [destruct Hcoin as [-> | ->]; auto|]. repeat split; lia.
Qed.

Lemma detect_at_most_two (coin : string) (market : Market.t) (cp strike : pyfloat)
    (fv : Z) :
  (List.length (detect fmt_money coin market cp strike fv) <= 2)%nat.
Proof.
  unfold detect. rewrite length_app.
  destruct (_ <? fv); destruct (fv <? _); simpl; lia.
Qed.

(** Every opportunity an analysis returns is for BTC or ETH, has a fair
    value in [5, 95], and an edge of at least 6 that is the distance
    between the fair value and the quoted price; a BUY_YES quotes an ask of
    at most 89 and a SELL_YES a bid of at least 11. *)
Theorem opportunities_sound (prices : gmap string pyval)
    (markets_15m : gmap string entry) (opps : list Opp.t)
    (Hrun : analyze_arbitrage fmt_money prices markets_15m = Ok opps) :
  Forall sound_opportunity opps.
Proof.
  rewrite analyze_arbitrage_rounds in Hrun.
  destruct (analyze_coin fmt_money prices markets_15m "btc") as [a|] eqn:Ea;
    [|discriminate].
  destruct (analyze_coin fmt_money prices markets_15m "eth") as [b|] eqn:Eb;
    [|discriminate].
  simpl in Hrun. injection Hrun as <-. apply Forall_app. split.
  - apply analyze_coin_cases in Ea as [-> | (m & cp & k & fv & _ & _ & _ & Hfv & ->)];
      [constructor|].
    apply detect_sound; [auto|]. eapply fair_value_range, Hfv.
  - apply analyze_coin_cases in Eb as [-> | (m & cp & k & fv & _ & _ & _ & Hfv & ->)];
      [constructor|].
    apply detect_sound; [auto|]. eapply fair_value_range, Hfv.
Qed.

(** An analysis returns at most four opportunities: those of BTC, at most
    two, come before those of ETH, at most two. *)
Theorem opportunities_shape (prices : gmap string pyval)
    (markets_15m : gmap string entry) (opps : list Opp.t)
    (Hrun : analyze_arbitrage fmt_money prices markets_15m = Ok opps) :
  exists btc eth : list Opp.t,
    opps = btc ++ eth
    /\ Forall (fun o => Opp.coin o = "BTC"%string) btc
    /\ Forall (fun o => Opp.coin o = "ETH"%string) eth
    /\ (List.length btc <= 2)%nat /\ (List.length eth <= 2)%nat
    /\ (List.length opps <= 4)%nat.
Proof.
  rewrite analyze_arbitrage_rounds in Hrun.
  destruct (analyze_coin fmt_money prices markets_15m "btc") as [a|] eqn:Ea;
    [|discriminate].
  destruct (analyze_coin fmt_money prices markets_15m "eth") as [b|] eqn:Eb;
    [|discriminate].
  simpl in Hrun. injection Hrun as <-. exists a, b.
  pose proof (analyze_coin_coin _ _ _ _ _ Ea) as Fa.
  pose proof (analyze_coin_coin _ _ _ _ _ Eb) as Fb.
  assert (La : (List.length a <= 2)%nat).
  { apply analyze_coin_cases in Ea as [-> | (m & cp & k & fv & _ & _ & _ & _ & ->)];
      [simpl; lia|apply detect_at_most_two]. }
  assert (Lb : (List.length b <= 2)%nat).
  { apply analyze_coin_cases in Eb as [-> | (m & cp & k & fv & _ & _ & _ & _ & ->)];
      [simpl; lia|apply detect_at_most_two]. }
  split; [reflexivity|]. split; [exact Fa|]. split; [exact Fb|].
  split; [exact La|]. split; [exact Lb|]. rewrite length_app. lia.
Qed.

End DetectorMore.

Lemma opportunities_sound_witness :
  Forall sound_opportunity
    [buy_yes (fun _ => EmptyString) "btc" (quoted_market (fl 100) None (Some 70))
       (fl 102) (fl 100) 80 70].
Proof.
  apply (opportunities_sound (fun _ => EmptyString) (one_price "btc" (fl 102))
           (one_market "btc" (quoted_market (fl 100) None (Some 70)))).
  vm_compute. reflexivity.
Defined.

Lemma opportunities_shape_witness :
  exists btc eth : list Opp.t,
    [buy_yes (fun _ => EmptyString) "btc" (quoted_market (fl 100) None (Some 70))
       (fl 102) (fl 100) 80 70] = btc ++ eth
    /\ Forall (fun o => Opp.coin o = "BTC"%string) btc
    /\ Forall (fun o => Opp.coin o = "ETH"%string) eth
    /\ (List.length btc <= 2)%nat /\ (List.length eth <= 2)%nat
    /\ (1 <= 4)%nat.
Proof.
  apply (opportunities_shape (fun _ => EmptyString) (one_price "btc" (fl 102))
           (one_market "btc" (quoted_market (fl 100) None (Some 70)))).
  vm_compute. reflexivity.
Defined.

(** ** What the analysis reads, skips and cannot survive *)

Section DetectorEdges.

Variable fmt_money : pyfloat -> string.

Local Open Scope Z_scope.
Local Arguments calculate_fair_value : simpl never.

(** The analysis reads the ["btc"] and ["eth"] entries of its two
    arguments and nothing else: the DOGE price, the 24-hour changes and the
    error markers have no influence on the result. *)
Theorem analysis_reads_two_assets (prices prices' : gmap string pyval)
    (markets_15m markets_15m' : gmap string entry)
    (Hpb : prices !! "btc"%string = prices' !! "btc"%string)
    (Hpe : prices !! "eth"%string = prices' !! "eth"%string)
    (Hmb : markets_15m !! "btc"%string = markets_15m' !! "btc"%string)
    (Hme : markets_15m !! "eth"%string = markets_15m' !! "eth"%string) :
  analyze_arbitrage fmt_money prices markets_15m
  = analyze_arbitrage fmt_money prices' markets_15m'.
Proof.
  rewrite !analyze_arbitrage_rounds. unfold analyze_coin.
  rewrite Hpb, Hpe, Hmb, Hme. reflexivity.
Qed.

(** when the round of one asset adds nothing, the result is the round of
    the other *)
Lemma analyze_arbitrage_other (prices : gmap string pyval)
    (markets_15m : gmap string entry) (coin other : string) :
  (coin, other) = ("btc", "eth")%string \/ (coin, other) = ("eth", "btc")%string ->
  analyze_coin fmt_money prices markets_15m coin = Ok [] ->
  analyze_arbitrage fmt_money prices markets_15m
  = analyze_coin fmt_money prices markets_15m other.
Proof.
  intros Hpair Hnil. rewrite analyze_arbitrage_rounds.
  destruct Hpair as [[= -> ->] | [= -> ->]]; rewrite Hnil.
  - destruct (analyze_coin fmt_money prices markets_15m "eth"); reflexivity.
  - destruct (analyze_coin fmt_money prices markets_15m "btc") as [a|e]; simpl;
      [rewrite app_nil_r|]; reflexivity.
Qed.

Lemma analyze_coin_no_price (prices : gmap string pyval)
    (markets_15m : gmap string entry) (coin : string) :
  prices !! coin = None \/ prices !! coin = Some VNone ->
  analyze_coin fmt_money prices markets_15m coin = Ok [].
Proof.
  intros [H | H]; unfold analyze_coin; rewrite H;
    destruct (markets_15m !! coin); reflexivity.
Qed.

(** An asset without a market entry, without a price, with a [None] price
    or with a [None] strike is skipped without an error: the result is
    that of the other asset. *)
Theorem asset_skipped (prices : gmap string pyval) (markets_15m : gmap string entry)
    (coin other : string)
    (Hpair : (coin, other) = ("btc", "eth")%string
             \/ (coin, other) = ("eth", "btc")%string)
    (Hskip : markets_15m !! coin = None
             \/ prices !! coin = None
             \/ prices !! coin = Some VNone
             \/ exists m, markets_15m !! coin = Some (EMarket m)
                          /\ Market.strike m = None) :
  analyze_coin fmt_money prices markets_15m coin = Ok []
  /\ analyze_arbitrage fmt_money prices markets_15m
     = analyze_coin fmt_money prices markets_15m other.
Proof.
  assert (Hnil : analyze_coin fmt_money prices markets_15m coin = Ok []).
  { destruct Hskip as [H | [H | [H | (m & H & Hs)]]].
    - unfold analyze_coin. rewrite H. reflexivity.
    - apply analyze_coin_no_price. auto.
    - apply analyze_coin_no_price. auto.
    - unfold analyze_coin. rewrite H.
      destruct (prices !! coin) as [[|x|s]|]; try reflexivity; simpl;
        rewrite Hs; reflexivity. }
  split; [exact Hnil|].
  apply (analyze_arbitrage_other prices markets_15m coin other); assumption.
Qed.

Lemma analyze_coin_zero_strike (prices : gmap string pyval)
    (markets_15m : gmap string entry) (coin : string) (m : Market.t)
    (cp : pyfloat) (k : Q) :
  markets_15m !! coin = Some (EMarket m) ->
  prices !! coin = Some (VNum cp) ->
  Market.strike m = Some (Fin k) ->
  (k == 0)%Q ->
  analyze_coin fmt_money prices markets_15m coin = Err ZeroDivisionError.
Proof.
  intros Hm Hp Hs Hk. unfold analyze_coin. rewrite Hm, Hp. simpl. rewrite Hs. simpl.
  apply Qis_zero_true in Hk.
  unfold calculate_fair_value, pf_div. simpl. rewrite Hk. reflexivity.
Qed.

(** A strike of zero on one asset raises [ZeroDivisionError] in its round
    and no analysis result is returned at all: the opportunities of the
    other asset are lost with it. *)
Theorem zero_strike_aborts (prices : gmap string pyval)
    (markets_15m : gmap string entry) (coin : string) (m : Market.t)
    (cp : pyfloat) (k : Q)
    (Hcoin : coin = "btc"%string \/ coin = "eth"%string)
    (Hm : markets_15m !! coin = Some (EMarket m))
    (Hp : prices !! coin = Some (VNum cp))
    (Hs : Market.strike m = Some (Fin k))
    (Hk : (k == 0)%Q) :
  analyze_coin fmt_money prices markets_15m coin = Err ZeroDivisionError
  /\ is_ok (analyze_arbitrage fmt_money prices markets_15m) = false
  /\ (coin = "btc"%string
      \/ is_ok (analyze_coin fmt_money prices markets_15m "btc") = true ->
      analyze_arbitrage fmt_money prices markets_15m = Err ZeroDivisionError).
Proof.
  pose proof (analyze_coin_zero_strike _ _ _ _ _ _ Hm Hp Hs Hk) as Hz.
  split; [exact Hz|]. rewrite analyze_arbitrage_rounds.
  destruct Hcoin as [-> | ->]; rewrite Hz.
  - split; [reflexivity|]. intros _. reflexivity.
  - destruct (analyze_coin fmt_money prices markets_15m "btc") as [a|e]; simpl.
    + split; [reflexivity|]. intros _. reflexivity.
    + split; [reflexivity|]. intros [H | H]; discriminate.
Qed.

End DetectorEdges.

Lemma asset_skipped_witness :
  analyze_arbitrage (fun _ => EmptyString) (one_price "btc" (fl 102))
    (one_market "btc" (quoted_market (fl 100) None (Some 70)))
  = analyze_coin (fun _ => EmptyString) (one_price "btc" (fl 102))
      (one_market "btc" (quoted_market (fl 100) None (Some 70))) "btc".
Proof.
  apply (asset_skipped (fun _ => EmptyString) (one_price "btc" (fl 102))
           (one_market "btc" (quoted_market (fl 100) None (Some 70)))
           "eth" "btc" (or_intror eq_refl) (or_introl eq_refl)).
Defined.

Lemma analysis_reads_two_assets_witness :
  analyze_arbitrage (fun _ => EmptyString)
    (<["doge"%string := VNum (fl 1)]> (one_price "btc" (fl 102)))
    (<["eth_error"%string := EError "timed out"]>
       (one_market "btc" (quoted_market (fl 100) None (Some 70))))
  = analyze_arbitrage (fun _ => EmptyString) (one_price "btc" (fl 102))
      (one_market "btc" (quoted_market (fl 100) None (Some 70))).
Proof.
  apply analysis_reads_two_assets; vm_compute; reflexivity.
Defined.

Lemma zero_strike_aborts_witness :
  is_ok (analyze_arbitrage (fun _ => EmptyString)
           (<["eth"%string := VNum (fl 102)]> (one_price "btc" (fl 102)))
           (<["eth"%string := EMarket (quoted_market (fl 100) None (Some 70))]>
              (one_market "btc" (quoted_market (fl 0) None None))))
  = false.
Proof.
  apply (zero_strike_aborts (fun _ => EmptyString)
           (<["eth"%string := VNum (fl 102)]> (one_price "btc" (fl 102)))
           (<["eth"%string := EMarket (quoted_market (fl 100) None (Some 70))]>
              (one_market "btc" (quoted_market (fl 0) None None)))
           "btc" (quoted_market (fl 0) None None) (fl 102) 0
           (or_introl eq_refl));
    vm_compute; reflexivity.
Defined.

(** ** The market extraction *)

Section Extraction.

Variable exn_text : exn -> string.

Local Open Scope Z_scope.

Lemma market_entry_stored (m : ApiMarket.t) : market_entry m = Ok (stored_entry m).
Proof.
  unfold market_entry, stored_entry, strike_of.
  destruct (parse_strike_total (from_option EmptyString (ApiMarket.yes_sub_title m)))
    as [r Hr].
  rewrite Hr. reflexivity.
Qed.

Lemma scan_markets_selected (coin : string) (ms : list ApiMarket.t)
    (acc : gmap string entry) :
  scan_markets coin ms acc
  = Ok match List.find quotable ms with
       | Some m => <[coin := EMarket (stored_entry m)]> acc
       | None => acc
       end.
Proof.
  induction ms as [|x rest IH]; simpl; [reflexivity|].
  destruct (quotable x); [|exact IH].
  rewrite market_entry_stored. reflexivity.
Qed.

(** one round of the loop, whatever the client answers *)
Lemma fetch_15m_round (c : client) (acc : gmap string entry) (series coin : string) :
  fetch_15m exn_text c acc (series, coin)
  = ([EvRequest "GET" (path_15m series)],
     Ok (fetched exn_text coin (c "GET"%string (path_15m series)) acc)).
Proof.
  unfold fetch_15m, request, IO.perform, IO.bind, IO.catch, IO.lift, IO.ret, fetched.
  destruct (c "GET"%string (path_15m series)) as [resp|e]; [|reflexivity].
  rewrite scan_markets_selected. reflexivity.
Qed.

Lemma get_15m_steps (c : client) :
  get_kalshi_15m_markets exn_text c
  = ([EvRequest "GET" (path_15m "KXBTC15M"); EvRequest "GET" (path_15m "KXETH15M")],
     Ok (markets_after exn_text c)).
Proof.
  unfold get_kalshi_15m_markets, series_15m, for_each.
  rewrite fetch_15m_round. unfold IO.bind at 1.
  rewrite fetch_15m_round. reflexivity.
Qed.

Lemma markets_after_lookup (c : client) :
  let rb := c "GET"%string (path_15m "KXBTC15M") in
  let re := c "GET"%string (path_15m "KXETH15M") in
  let M := markets_after exn_text c in
  M !! "btc"%string = option_map (fun m => EMarket (stored_entry m)) (selected rb)
  /\ M !! "eth"%string = option_map (fun m => EMarket (stored_entry m)) (selected re)
  /\ M !! "btc_error"%string = failure EError exn_text rb
  /\ M !! "eth_error"%string = failure EError exn_text re
  /\ (forall k : string,
        k <> "btc"%string -> k <> "eth"%string ->
        k <> "btc_error"%string -> k <> "eth_error"%string ->
        M !! k = None).
Proof.
  intros rb re M. subst M. unfold markets_after, fetched. fold rb re.
  change (error_key "btc") with "btc_error"%string.
  change (error_key "eth") with "eth_error"%string.
  destruct rb as [respb|eb], re as [respe|ee];
    try destruct (selected (Ok respb));
    try destruct (selected (Ok respe));
    try destruct (selected (Err eb)) eqn:Sb; try discriminate Sb;
    try destruct (selected (Err ee)) eqn:Se; try discriminate Se;
    cbn [option_map failure];
    repeat split; try (intros k H1 H2 H3 H4);
    repeat first [ rewrite lookup_insert_eq
                 | rewrite lookup_insert_ne by (discriminate || congruence)
                 | rewrite lookup_empty ];
    reflexivity.
Qed.

(** Whatever the client answers or raises, [get_kalshi_15m_markets] raises
    nothing and makes exactly the two requests, BTC then ETH.  In its
    result each asset depends on its own series only.  A [try] block that
    raised leaves the text of its exception under ["<coin>_error"] and
    nothing under the coin.  An answer with a quotable market leaves the
    entry of the first such market under the coin and no error marker; an
    answer without one leaves nothing under the coin.  Whatever is under the
    coin is such an entry; an error marker is a text, and excludes an entry
    for its asset.  There is no other key. *)
Theorem get_kalshi_15m_markets_result (c : client) :
  exists M : gmap string entry,
    get_kalshi_15m_markets exn_text c
    = ([EvRequest "GET" (path_15m "KXBTC15M"); EvRequest "GET" (path_15m "KXETH15M")],
       Ok M)
    /\ (forall series coin : string,
          (series, coin) = ("KXBTC15M", "btc")%string
          \/ (series, coin) = ("KXETH15M", "eth")%string ->
          let r := c "GET"%string (path_15m series) in
          (forall e, r = Err e ->
             M !! error_key coin = Some (EError (exn_text e)) /\ M !! coin = None)
          /\ (forall m, selected r = Some m ->
                M !! coin = Some (EMarket (stored_entry m))
                /\ M !! error_key coin = None)
          /\ (forall resp, r = Ok resp -> selected r = None -> M !! coin = None)
          /\ (forall x, M !! coin = Some x ->
                exists m, selected r = Some m /\ x = EMarket (stored_entry m))
          /\ (forall x, M !! error_key coin = Some x ->
                M !! coin = None /\ exists text, x = EError text))
    /\ (forall k : string,
          k <> "btc"%string -> k <> "eth"%string ->
          k <> "btc_error"%string -> k <> "eth_error"%string ->
          M !! k = None).
Proof.
  exists (markets_after exn_text c).
  split; [apply get_15m_steps|].
  destruct (markets_after_lookup c) as (Hb & He & Hbe & Hee & Hother).
  split; [|exact Hother].
  assert (Hcase : forall (r : result response) (coin : string),
            markets_after exn_text c !! coin
            = option_map (fun m => EMarket (stored_entry m)) (selected r) ->
            markets_after exn_text c !! error_key coin = failure EError exn_text r ->
            (forall e, r = Err e ->
               markets_after exn_text c !! error_key coin = Some (EError (exn_text e))
               /\ markets_after exn_text c !! coin = None)
            /\ (forall m, selected r = Some m ->
                  markets_after exn_text c !! coin = Some (EMarket (stored_entry m))
                  /\ markets_after exn_text c !! error_key coin = None)
            /\ (forall resp, r = Ok resp -> selected r = None ->
                  markets_after exn_text c !! coin = None)
            /\ (forall x, markets_after exn_text c !! coin = Some x ->
                  exists m, selected r = Some m /\ x = EMarket (stored_entry m))
            /\ (forall x, markets_after exn_text c !! error_key coin = Some x ->
                  markets_after exn_text c !! coin = None
                  /\ exists text, x = EError text)).
  { intros r coin Hc He'. rewrite Hc, He'.
    split; [|split; [|split; [|split]]].
    - intros e ->. split; reflexivity.
    - intros m Hm. rewrite Hm. split; [reflexivity|].
      destruct r as [resp|e]; [reflexivity|discriminate Hm].
    - intros resp _ Hn. rewrite Hn. reflexivity.
    - intros x Hx. destruct (selected r) as [m|]; [|discriminate Hx].
      injection Hx as <-. eauto.
    - intros x Hx. destruct r as [resp|e]; [discriminate Hx|].
      injection Hx as <-. split; [reflexivity|eauto]. }
  intros series coin [[= -> ->] | [= -> ->]] r.
  - apply (Hcase r "btc"%string Hb Hbe).
  - apply (Hcase r "eth"%string He Hee).
Qed.

Lemma parse_strike_strike_of (subtitle : string) :
  parse_strike subtitle = Ok (strike_of subtitle).
Proof.
  unfold strike_of. destruct (parse_strike_total subtitle) as [r ->]. reflexivity.
Qed.

(** Every market entry of the result is stored under ["btc"] or ["eth"],
    comes with both YES quotes present and satisfies the liquidity filter
    ([yes_bid > 0] or [yes_ask < 100]), and its strike is the one parsed
    from its own subtitle: the defaults of the analysis (ask 100, bid 0)
    never apply to entries the extraction built. *)
Theorem stored_markets_quotable (c : client) (M : gmap string entry)
    (k : string) (en : Market.t)
    (Hrun : IO.outcome (get_kalshi_15m_markets exn_text c) = Ok M)
    (Hk : M !! k = Some (EMarket en)) :
  (k = "btc"%string \/ k = "eth"%string)
  /\ exists (bid ask : Z) (sub : string),
       Market.yes_bid en = Some bid
       /\ Market.yes_ask en = Some ask
       /\ (0 < bid \/ ask < 100)
       /\ Market.subtitle en = Some sub
       /\ parse_strike sub = Ok (Market.strike en).
Proof.
  destruct (markets_after_lookup c) as (Hb & He & Hbe & Hee & Hother).
  rewrite get_15m_steps in Hrun. simpl in Hrun. injection Hrun as <-.
  assert (Hstored : forall r : result response,
            option_map (fun m => EMarket (stored_entry m)) (selected r)
            = Some (EMarket en) ->
            exists (bid ask : Z) (sub : string),
              Market.yes_bid en = Some bid
              /\ Market.yes_ask en = Some ask
              /\ (0 < bid \/ ask < 100)
              /\ Market.subtitle en = Some sub
              /\ parse_strike sub = Ok (Market.strike en)).
  { intros r Hr. unfold selected in Hr.
    destruct (List.find quotable (listed r)) as [m|] eqn:Hfind; [|discriminate].
    simpl in Hr. injection Hr as <-.
    apply List.find_some in Hfind as [_ Hq].
    exists (from_option 0 (ApiMarket.yes_bid m)),
           (from_option 0 (ApiMarket.yes_ask m)),
           (from_option EmptyString (ApiMarket.yes_sub_title m)).
    repeat split; try reflexivity.
    - unfold quotable in Hq. apply orb_prop in Hq as [H | H];
        [left; apply Z.ltb_lt, H | right; apply Z.ltb_lt, H].
    - apply parse_strike_strike_of. }
  destruct (String.eqb_spec k "btc") as [-> | Nb].
  { split; [auto|]. apply (Hstored _ (eq_trans (eq_sym Hb) Hk)). }
  destruct (String.eqb_spec k "eth") as [-> | Ne].
  { split; [auto|]. apply (Hstored _ (eq_trans (eq_sym He) Hk)). }
  exfalso.
  destruct (String.eqb_spec k "btc_error") as [-> | Nbe].
  { rewrite Hbe in Hk. destruct (c _ _); discriminate. }
  destruct (String.eqb_spec k "eth_error") as [-> | Nee].
  { rewrite Hee in Hk. destruct (c _ _); discriminate. }
  rewrite (Hother k Nb Ne Nbe Nee) in Hk. discriminate.
Qed.

(** A market object without a ["yes_ask"] key passes the filter and is
    stored with an ask of 0, so that every fair value above 5 gives a
    BUY_YES whose edge is the whole fair value. *)
Theorem missing_ask_is_bought (fmt_money : pyfloat -> string) (m : ApiMarket.t)
    (coin : string) (cp strike : pyfloat) (fv : Z)
    (Hask : ApiMarket.yes_ask m = None)
    (Hfv : 5 < fv) :
  quotable m = true
  /\ Market.yes_ask (stored_entry m) = Some 0
  /\ List.filter (of_type BUY_YES) (detect fmt_money coin (stored_entry m) cp strike fv)
     = [buy_yes fmt_money coin (stored_entry m) cp strike fv 0]
  /\ Opp.edge (buy_yes fmt_money coin (stored_entry m) cp strike fv 0) = fv.
Proof.
  split; [|split; [|split]].
  - unfold quotable. rewrite Hask. apply orb_true_r.
  - simpl. rewrite Hask. reflexivity.
  - rewrite detect_buys.
    change (Market.yes_ask (stored_entry m))
      with (Some (from_option 0 (ApiMarket.yes_ask m))).
    rewrite Hask. cbn [from_option]. change (0 + 5) with 5.
    assert (E : (5 <? fv) = true) by (apply Z.ltb_lt; lia).
    rewrite E. reflexivity.
  - simpl. lia.
Qed.

End Extraction.

Lemma stored_markets_quotable_witness :
  exists (bid ask : Z) (sub : string),
    Market.yes_bid (stored_entry sample_market) = Some bid
    /\ Market.yes_ask (stored_entry sample_market) = Some ask
    /\ (0 < bid \/ ask < 100)
    /\ Market.subtitle (stored_entry sample_market) = Some sub
    /\ parse_strike sub = Ok (Market.strike (stored_entry sample_market)).
Proof.
  apply (stored_markets_quotable sample_exn_text flaky_client
           (<["eth"%string := EMarket (stored_entry sample_market)]>
              (<["btc_error"%string := EError "timed out"]> ∅))
           "eth" (stored_entry sample_market));
    vm_compute; reflexivity.
Defined.

Lemma missing_ask_is_bought_witness :
  let m := {| ApiMarket.ticker := None; ApiMarket.yes_bid := None;
              ApiMarket.yes_ask := None; ApiMarket.no_bid := None;
              ApiMarket.no_ask := None; ApiMarket.close_time := None;
              ApiMarket.volume := None;
              ApiMarket.yes_sub_title := Some "Price to beat: $100"%string;
              ApiMarket.rules_primary := None |} in
  quotable m = true /\ Market.yes_ask (stored_entry m) = Some 0.
Proof.
  intros m.
  pose proof (missing_ask_is_bought (fun _ => EmptyString) m "btc" (fl 99) (fl 100) 35
                eq_refl eq_refl) as (H1 & H2 & _).
  split; assumption.
Defined.

(** ** Where the strike is read from *)

Section StrikeMore.

Import Str.

(** The strike is read from the text between the first dollar sign and the
    next one (or the end), wherever ["Price to beat:"] stands in the
    subtitle; so a dollar sign before the marker hides the strike that
    follows it. *)
Theorem strike_between_dollars (before seg tail : string)
    (Hbefore : occurs "$" before = false)
    (Hseg : occurs "$" seg = false)
    (Htail : tail = EmptyString \/ starts_with "$" tail = true) :
  let subtitle := (before ++ "$" ++ seg ++ tail)%string in
  parse_strike subtitle
  = Ok (if contains "Price to beat:" subtitle
        then match FloatParse.float_of_string (replace "," "" seg) with
             | Ok x => Some x
             | Err _ => None
             end
        else None).
Proof.
  intros subtitle. unfold parse_strike, strike_of_subtitle.
  subst subtitle. rewrite strike_text_segment by assumption. simpl Py.bind.
  destruct (contains _ _); [|reflexivity].
  destruct (FloatParse.float_of_string _); reflexivity.
Qed.

Lemma strike_between_dollars_witness :
  parse_strike "Fee $5. Price to beat: $67,250.50" = Ok None
  /\ parse_strike "From $1,000$ up. Price to beat: soon"
     = Ok (Some (Fin (inject_Z 1000))).
Proof.
  split.
  - exact (strike_between_dollars "Fee " "5. Price to beat: " "$67,250.50"
             eq_refl eq_refl (or_intror eq_refl)).
  - exact (strike_between_dollars "From " "1,000" "$ up. Price to beat: soon"
             eq_refl eq_refl (or_intror eq_refl)).
Defined.

End StrikeMore.

(** ** The daily markets *)

Section DailyMarkets.

Variable exn_text : exn -> string.

Local Open Scope Z_scope.

Lemma fetch_daily_round (c : client) (acc : gmap string daily_entry)
    (series coin : string) :
  fetch_daily exn_text c acc (series, coin)
  = ([EvRequest "GET" (path_daily series)],
     Ok (daily_fetched exn_text coin (c "GET"%string (path_daily series)) acc)).
Proof.
  unfold fetch_daily, request, IO.perform, IO.bind, IO.catch, IO.ret, daily_fetched.
  destruct (c "GET"%string (path_daily series)) as [resp|e]; reflexivity.
Qed.

Lemma get_daily_steps (c : client) :
  get_kalshi_daily_markets exn_text c
  = ([EvRequest "GET" (path_daily "KXDOGE"); EvRequest "GET" (path_daily "KXBTC")],
     Ok (daily_after exn_text c)).
Proof.
  unfold get_kalshi_daily_markets, series_daily, for_each.
  rewrite fetch_daily_round. unfold IO.bind at 1.
  rewrite fetch_daily_round. reflexivity.
Qed.

Lemma daily_kept_bounds (r : result response) :
  (List.length (daily_kept r) <= 5)%nat
  /\ Forall (fun d => 0 < Daily.volume d \/ 0 < Daily.yes_bid d) (daily_kept r).
Proof.
  unfold daily_kept. split.
  - rewrite length_map, length_firstn. lia.
  - apply Forall_forall. intros d Hd.
    apply (proj1 (list_elem_of_In _ _)) in Hd.
    apply in_map_iff in Hd as (m & <- & Hm).
    assert (Hin : In m (List.filter active (listed r))).
    { clear -Hm. revert Hm. generalize (List.filter active (listed r)). intros l.
      generalize 5%nat. intros n. revert l.
      induction n as [|n IH]; intros [|x l]; simpl; try tauto.
      intros [-> | H]; [left; reflexivity|right; apply (IH l H)]. }
    apply List.filter_In in Hin as [_ Hact].
    unfold active in Hact. apply orb_prop in Hact as [H | H];
      [left|right]; apply Z.ltb_lt, H.
Qed.

(** Whatever the client answers or raises, [get_kalshi_daily_markets]
    raises nothing and makes exactly the two requests, DOGE then BTC.
    Each list of markets in its result has between one and five entries,
    all with some volume or a bid: they are the first active markets of the
    answer, in its order. *)
Theorem get_kalshi_daily_markets_result (c : client) :
  exists D : gmap string daily_entry,
    get_kalshi_daily_markets exn_text c
    = ([EvRequest "GET" (path_daily "KXDOGE"); EvRequest "GET" (path_daily "KXBTC")],
       Ok D)
    /\ forall (k : string) (l : list Daily.t),
         D !! k = Some (DMarkets l) ->
         (exists series : string,
            (series, k) ∈ series_daily
            /\ l = daily_kept (c "GET"%string (path_daily series)))
         /\ (1 <= List.length l <= 5)%nat
         /\ Forall (fun d => 0 < Daily.volume d \/ 0 < Daily.yes_bid d) l.
Proof.
  exists (daily_after exn_text c). split; [apply get_daily_steps|].
  unfold daily_after, daily_fetched.
  change (error_key "doge") with "doge_error"%string.
  change (error_key "btc_daily") with "btc_daily_error"%string.
  intros k l Hk.
  assert (Hsrc : exists series : string,
             (series, k) ∈ [("KXDOGE", "doge"); ("KXBTC", "btc_daily")]%string
             /\ l = daily_kept (c "GET"%string (path_daily series))
             /\ List.filter active (listed (c "GET"%string (path_daily series))) <> []).
  { destruct (c "GET"%string (path_daily "KXDOGE")) as [rd|ed] eqn:Ed;
    destruct (c "GET"%string (path_daily "KXBTC")) as [rb|eb] eqn:Eb;
      try destruct (List.filter active (listed (Ok rd))) eqn:Fd;
      try destruct (List.filter active (listed (Ok rb))) eqn:Fb;
      repeat match type of Hk with
             | <[?j := _]> _ !! k = _ =>
                 destruct (String.eqb_spec j k) as [<- | ?];
                 [rewrite lookup_insert_eq in Hk
                 |rewrite lookup_insert_ne in Hk by assumption]
             | ∅ !! k = _ => rewrite lookup_empty in Hk
             end;
      try discriminate; injection Hk as <-;
      first [ exists "KXDOGE"%string; rewrite Ed, Fd;
              split; [set_solver|split; [reflexivity|discriminate]]
            | exists "KXBTC"%string; rewrite Eb, Fb;
              split; [set_solver|split; [reflexivity|discriminate]] ]. }
  destruct Hsrc as (series & Hin & -> & Hne).
  split; [eauto|].
  destruct (daily_kept_bounds (c "GET"%string (path_daily series))) as [Hlen Hall].
  split; [split; [|exact Hlen]|exact Hall].
  clear Hk. unfold daily_kept. rewrite length_map, length_firstn.
  destruct (List.filter active (listed (c "GET"%string (path_daily series))));
    [congruence|simpl; lia].
Qed.

End DailyMarkets.

(** ** The price feed and the whole cycle *)

Section CycleMore.

Variable exn_text : exn -> string.
Variable fmt_money : pyfloat -> string.
Variable format_report :
  gmap string pyval -> gmap string entry -> gmap string daily_entry ->
  list Opp.t -> result string.
Variable float_text : pyfloat -> string.

Local Arguments calculate_fair_value : simpl never.

(** An asset the feed left out, or gave without a ["usd"] price, has the
    price [None] and is skipped by the analysis without an error. *)
Theorem missing_price_tolerated (data : feed_data) (M : gmap string entry)
    (asset coin other : string)
    (Hasset : (asset, coin, other) = ("bitcoin", "btc", "eth")%string
              \/ (asset, coin, other) = ("ethereum", "eth", "btc")%string)
    (Hmissing : data !! asset = None
                \/ exists quote, data !! asset = Some quote
                                 /\ quote !! "usd"%string = None) :
  prices_of data !! coin = Some VNone
  /\ analyze_arbitrage fmt_money (prices_of data) M
     = analyze_coin fmt_money (prices_of data) M other.
Proof.
  assert (Hget : feed_get data asset "usd" = VNone).
  { unfold feed_get. destruct Hmissing as [-> | (q & -> & ->)]; reflexivity. }
  assert (Hprice : prices_of data !! coin = Some VNone).
  { unfold prices_of.
    destruct Hasset as [[= -> -> ->] | [= -> -> ->]].
    - rewrite lookup_insert_eq, Hget. reflexivity.
    - rewrite lookup_insert_ne by discriminate.
      rewrite lookup_insert_eq, Hget. reflexivity. }
  split; [exact Hprice|].
  apply (analyze_arbitrage_other fmt_money (prices_of data) M coin other).
  - destruct Hasset as [[= -> -> ->] | [= -> -> ->]]; auto.
  - apply analyze_coin_no_price. auto.
Qed.

Lemma lift_bind {A B} (r : result A) (f : A -> IO.t B) :
  IO.bind (IO.lift r) f
  = match r with
    | Ok a => f a
    | Err e => ([], Err e)
    end.
Proof.
  destruct r as [a|e]; [|reflexivity].
  unfold IO.bind, IO.lift. destruct (f a). reflexivity.
Qed.

(** the cycle once the prices are there and the client is built *)
Lemma main_success (w : world) (data : feed_data) (c : client) :
  feed w = Ok data -> new_client w = Ok c ->
  main exn_text fmt_money format_report float_text w
  = ([EvPriceFeed; EvNewClient;
      EvRequest "GET" (path_15m "KXBTC15M"); EvRequest "GET" (path_15m "KXETH15M");
      EvRequest "GET" (path_daily "KXDOGE"); EvRequest "GET" (path_daily "KXBTC")],
     match analyze_arbitrage fmt_money (prices_of data) (markets_after exn_text c) with
     | Err e => Err e
     | Ok opps =>
         match format_report (prices_of data) (markets_after exn_text c)
                 (daily_after exn_text c) opps with
         | Err e => Err e
         | Ok text =>
             Ok (Some {| report := text;
                         prices := prices_of data;
                         markets_15m := markets_after exn_text c;
                         opportunities := opps;
                         has_opportunities :=
                           match opps with [] => false | _ :: _ => true end |})
         end
     end).
Proof.
  intros Hfeed Hclient. unfold main. rewrite Hfeed, Hclient.
  change (get_crypto_prices exn_text (Ok data))
    with (([EvPriceFeed], Ok (prices_of data)) : IO.t (gmap string pyval)).
  unfold IO.bind at 1. rewrite prices_of_no_error.
  unfold IO.perform. unfold IO.bind at 1.
  rewrite get_15m_steps. unfold IO.bind at 1.
  rewrite get_daily_steps. unfold IO.bind at 1.
  rewrite lift_bind.
  destruct (analyze_arbitrage fmt_money (prices_of data) (markets_after exn_text c))
    as [opps|e]; [|reflexivity].
  rewrite lift_bind.
  destruct (format_report (prices_of data) (markets_after exn_text c)
              (daily_after exn_text c) opps) as [text|e]; [|reflexivity].
  destruct opps; reflexivity.
Qed.

(** A cycle whose price fetch and client construction succeed makes the
    same six effects in the same order whatever the markets answer: the
    feed, the client, the two 15-minute series and the two daily series.
    It returns a result when the analysis and the report raise nothing,
    and raises their exception otherwise; the result carries the prices
    without an ["error"] key, and [has_opportunities] tells whether the
    list of opportunities is non-empty. *)
Theorem main_run (w : world) (data : feed_data) (c : client)
    (Hfeed : feed w = Ok data) (Hclient : new_client w = Ok c) :
  exists (M : gmap string entry) (D : gmap string daily_entry),
    IO.outcome (get_kalshi_15m_markets exn_text c) = Ok M
    /\ IO.outcome (get_kalshi_daily_markets exn_text c) = Ok D
    /\ IO.trace (main exn_text fmt_money format_report float_text w)
       = [EvPriceFeed; EvNewClient;
          EvRequest "GET" (path_15m "KXBTC15M"); EvRequest "GET" (path_15m "KXETH15M");
          EvRequest "GET" (path_daily "KXDOGE"); EvRequest "GET" (path_daily "KXBTC")]
    /\ IO.outcome (main exn_text fmt_money format_report float_text w)
       = match analyze_arbitrage fmt_money (prices_of data) M with
         | Err e => Err e
         | Ok opps =>
             match format_report (prices_of data) M D opps with
             | Err e => Err e
             | Ok text =>
                 Ok (Some {| report := text;
                             prices := prices_of data;
                             markets_15m := M;
                             opportunities := opps;
                             has_opportunities :=
                               match opps with [] => false | _ :: _ => true end |})
             end
         end
    /\ prices_of data !! "error"%string = None.
Proof.
  exists (markets_after exn_text c), (daily_after exn_text c).
  rewrite get_15m_steps, get_daily_steps, (main_success w data c Hfeed Hclient).
  split; [reflexivity|]. split; [reflexivity|]. split; [reflexivity|].
  split; [reflexivity|]. apply prices_of_no_error.
Qed.

(** when the client cannot be built, the cycle raises right after the
    price fetch *)
Lemma main_client_failure (w : world) (data : feed_data) (e : exn) :
  feed w = Ok data -> new_client w = Err e ->
  main exn_text fmt_money format_report float_text w
  = ([EvPriceFeed; EvNewClient], Err e).
Proof.
  intros Hfeed Hclient. unfold main. rewrite Hfeed, Hclient.
  change (get_crypto_prices exn_text (Ok data))
    with (([EvPriceFeed], Ok (prices_of data)) : IO.t (gmap string pyval)).
  unfold IO.bind at 1. rewrite prices_of_no_error. reflexivity.
Qed.

(** The cycle returns [None] exactly when the price fetch failed: with the
    prices at hand it returns a result or raises - when the client cannot
    be built, right after the price fetch and before any request. *)
Theorem main_none_iff_feed_failed (w : world) :
  (IO.outcome (main exn_text fmt_money format_report float_text w) = Ok None
   <-> exists e, feed w = Err e)
  /\ (forall data e, feed w = Ok data -> new_client w = Err e ->
        main exn_text fmt_money format_report float_text w
        = ([EvPriceFeed; EvNewClient], Err e)).
Proof.
  split; [split|].
  - intros H. destruct (feed w) as [data|e] eqn:Hfeed; [exfalso|eauto].
    destruct (new_client w) as [c|e] eqn:Hclient.
    + rewrite (main_success w data c Hfeed Hclient) in H. simpl in H.
      destruct (analyze_arbitrage _ _ _); [|discriminate].
      destruct (format_report _ _ _ _); discriminate.
    + rewrite (main_client_failure w data e Hfeed Hclient) in H. discriminate.
  - intros [e He]. unfold main. rewrite He. reflexivity.
  - intros data e. apply main_client_failure.
Qed.

(** A strike of zero read from the subtitle of the selected BTC market
    makes the whole cycle raise [ZeroDivisionError], after all four market
    requests and without any report. *)
Theorem main_zero_strike_crash (w : world) (data : feed_data) (c : client)
    (m : ApiMarket.t) (cp : pyfloat) (k : Q)
    (Hfeed : feed w = Ok data) (Hclient : new_client w = Ok c)
    (Hprice : feed_get data "bitcoin" "usd" = VNum cp)
    (Hsel : selected (c "GET"%string (path_15m "KXBTC15M")) = Some m)
    (Hstrike : strike_of (from_option EmptyString (ApiMarket.yes_sub_title m))
               = Some (Fin k))
    (Hzero : (k == 0)%Q) :
  main exn_text fmt_money format_report float_text w
  = ([EvPriceFeed; EvNewClient;
      EvRequest "GET" (path_15m "KXBTC15M"); EvRequest "GET" (path_15m "KXETH15M");
      EvRequest "GET" (path_daily "KXDOGE"); EvRequest "GET" (path_daily "KXBTC")],
     Err ZeroDivisionError).
Proof.
  rewrite (main_success w data c Hfeed Hclient).
  destruct (markets_after_lookup exn_text c) as (Hb & _).
  rewrite Hsel in Hb. simpl in Hb.
  assert (Hz : analyze_coin fmt_money (prices_of data) (markets_after exn_text c) "btc"
               = Err ZeroDivisionError).
  { apply (analyze_coin_zero_strike fmt_money _ _ "btc" (stored_entry m) cp k); auto.
    unfold prices_of. rewrite lookup_insert_eq, Hprice. reflexivity. }
  rewrite analyze_arbitrage_rounds, Hz. reflexivity.
Qed.

End CycleMore.

Lemma missing_price_tolerated_witness :
  prices_of sample_feed !! "eth"%string = Some VNone
  /\ analyze_arbitrage (fun _ => EmptyString) (prices_of sample_feed)
       (markets_after sample_exn_text flaky_client)
     = analyze_coin (fun _ => EmptyString) (prices_of sample_feed)
         (markets_after sample_exn_text flaky_client) "btc".
Proof.
  apply (missing_price_tolerated (fun _ => EmptyString) sample_feed
           (markets_after sample_exn_text flaky_client) "ethereum" "eth" "btc"
           (or_intror eq_refl)).
  left. vm_compute. reflexivity.
Defined.

Lemma main_run_witness :
  IO.trace (main sample_exn_text (fun _ => EmptyString) (fun _ _ _ _ => Ok EmptyString)
              (fun _ => EmptyString) healthy_world)
  = [EvPriceFeed; EvNewClient;
     EvRequest "GET" (path_15m "KXBTC15M"); EvRequest "GET" (path_15m "KXETH15M");
     EvRequest "GET" (path_daily "KXDOGE"); EvRequest "GET" (path_daily "KXBTC")].
Proof.
  destruct (main_run sample_exn_text (fun _ => EmptyString)
              (fun _ _ _ _ => Ok EmptyString) (fun _ => EmptyString)
              healthy_world sample_feed flaky_client eq_refl eq_refl)
    as (M & D & _ & _ & Htr & _).
  exact Htr.
Defined.

Lemma main_none_iff_feed_failed_witness :
  main sample_exn_text (fun _ => EmptyString) (fun _ _ _ _ => Ok EmptyString)
    (fun _ => EmptyString) clientless_world
  = ([EvPriceFeed; EvNewClient], Err (RequestError "no config")).
Proof.
  apply (proj2 (main_none_iff_feed_failed sample_exn_text (fun _ => EmptyString)
                  (fun _ _ _ _ => Ok EmptyString) (fun _ => EmptyString)
                  clientless_world) sample_feed (RequestError "no config"));
    reflexivity.
Defined.

Lemma main_zero_strike_crash_witness :
  IO.outcome (main sample_exn_text (fun _ => EmptyString)
                (fun _ _ _ _ => Ok EmptyString) (fun _ => EmptyString) zero_world)
  = Err ZeroDivisionError.
Proof.
  rewrite (main_zero_strike_crash sample_exn_text (fun _ => EmptyString)
             (fun _ _ _ _ => Ok EmptyString) (fun _ => EmptyString)
             zero_world sample_feed zero_client zero_market (fl 102) (0 # 100)
             eq_refl eq_refl eq_refl eq_refl eq_refl eq_refl).
  reflexivity.
Defined.

(** ** Requests of the client *)

Section ClientMore.

Variable payload : Type.
Variable empty_payload : payload.
Variable key_id base_url : string.
Variable rsa_pss_sha256 : string -> string.
Variable b64encode : string -> string.
Variable http_error_text : http_response payload -> string.
Variable transport : http_call -> result (http_response payload).

Local Open Scope Z_scope.

(** a request is its planned call, sent *)
Lemma request_plan (now_ms : Z) (method path : string) (data : option dict) :
  _request payload empty_payload key_id base_url rsa_pss_sha256 b64encode
    http_error_text transport now_ms method path data
  = match planned_call key_id base_url rsa_pss_sha256 b64encode now_ms method path data with
    | None => ([], Err (UnsupportedMethod method))
    | Some call => send payload empty_payload http_error_text transport call
    end.
Proof.
  assert (Hsend : forall call : http_call,
            (do! resp := IO.perform (EvHttp call) (transport call) in
             do! _u := (if ok payload resp then IO.ret tt
                        else do! _p := IO.emit (EvStderr (error_line payload resp)) in
                             IO.lift (Err (RequestError (http_error_text resp)))) in
             match text payload resp with
             | EmptyString => IO.ret empty_payload
             | String _ _ => IO.lift (json payload resp)
             end)
            = send payload empty_payload http_error_text transport call).
  { intros call. unfold IO.perform, send.
    destruct (transport call) as [resp|e]; [|reflexivity].
    unfold IO.bind at 1. cbv beta iota. unfold ok.
    destruct ((400 <=? status_code payload resp)
              && (status_code payload resp <? 600)); [reflexivity|].
    destruct (text payload resp); [reflexivity|].
    destruct (json payload resp); reflexivity. }
  unfold _request, planned_call.
  destruct (String.eqb (Str.upper method) "GET");
    [|destruct (String.eqb (Str.upper method) "POST");
      [|destruct (String.eqb (Str.upper method) "DELETE"); [|reflexivity]]];
    rewrite lift_bind; apply Hsend.
Qed.

Lemma upper_char_idempotent (c : ascii) :
  Str.upper_char (Str.upper_char c) = Str.upper_char c.
Proof. destruct c as [[] [] [] [] [] [] [] []]; reflexivity. Qed.

Lemma upper_idempotent (s : string) : Str.upper (Str.upper s) = Str.upper s.
Proof.
  unfold Str.upper. induction s as [|c r IH]; simpl; [reflexivity|].
  rewrite upper_char_idempotent, IH. reflexivity.
Qed.

(** The letter case of a supported method does not matter: the request
    made with [method] is the one made with its upper case, down to the
    signature. *)
Theorem request_method_case (now_ms : Z) (method path : string) (data : option dict)
    (Hsupported : planned_call key_id base_url rsa_pss_sha256 b64encode
                    now_ms method path data <> None) :
  _request payload empty_payload key_id base_url rsa_pss_sha256 b64encode
    http_error_text transport now_ms method path data
  = _request payload empty_payload key_id base_url rsa_pss_sha256 b64encode
      http_error_text transport now_ms (Str.upper method) path data.
Proof.
  rewrite !request_plan.
  assert (E : planned_call key_id base_url rsa_pss_sha256 b64encode
                now_ms (Str.upper method) path data
              = planned_call key_id base_url rsa_pss_sha256 b64encode
                  now_ms method path data).
  { unfold planned_call, _headers, signed_message. rewrite upper_idempotent.
    reflexivity. }
  rewrite E.
  destruct (planned_call _ _ _ _ _ method _ _); [reflexivity|congruence].
Qed.

End ClientMore.

Lemma request_method_case_witness :
  _request unit tt "key" "https://api" (fun m => m) (fun m => m)
    (fun _ => EmptyString) accepting_transport 0 "get" "/x?a=1" None
  = _request unit tt "key" "https://api" (fun m => m) (fun m => m)
      (fun _ => EmptyString) accepting_transport 0 "GET" "/x?a=1" None.
Proof.
  apply (request_method_case unit tt "key" "https://api" (fun m => m) (fun m => m)
           (fun _ => EmptyString) accepting_transport 0 "get" "/x?a=1" None).
  vm_compute. discriminate.
Defined.

(** ** What the signature covers, and what an order carries *)

Section SignatureScope.

Local Open Scope Z_scope.

Lemma spec_truncate_prefix (c : ascii) (a b : string) :
  occurs c a = false -> spec_truncate c (a ++ String c b) = a.
Proof.
  induction a as [|x r IH]; intros H.
  - simpl. rewrite Ascii.eqb_refl. reflexivity.
  - simpl in H. apply orb_false_elim in H as [Hx Hr].
    rewrite append_cons. simpl. rewrite Hx, (IH Hr). reflexivity.
Qed.

Lemma path_clean_query (a b : string) :
  occurs "?" a = false -> path_clean (a ++ String "?" b) = a.
Proof. intros H. rewrite path_clean_truncate. apply spec_truncate_prefix, H. Qed.

Lemma path_clean_plain (a : string) : occurs "?" a = false -> path_clean a = a.
Proof.
  intros Ha. rewrite path_clean_truncate.
  induction a as [|x r IH]; [reflexivity|].
  simpl in Ha. apply orb_false_elim in Ha as [Hx Hr].
  simpl. rewrite Hx, (IH Hr). reflexivity.
Qed.

(** The filters of a listing are not signed: the market requests of the
    monitor for any series, and [get_markets] for any event and limit, all
    sign the same message, that of the bare path
    ["/trade-api/v2/markets"]; likewise [get_orders] for any status and
    [get_events] for any limit and status sign their bare paths. *)
Theorem listing_filters_unsigned (now_ms limit : Z) (series status : string)
    (event_ticker : option string) :
  let bare := signed_message now_ms "GET" "/trade-api/v2/markets" in
  signed_message now_ms "GET" (path_15m series) = bare
  /\ signed_message now_ms "GET" (path_daily series) = bare
  /\ signed_message now_ms "GET" (markets_path event_ticker limit) = bare
  /\ signed_message now_ms "GET" ("/trade-api/v2/portfolio/orders?status=" ++ status)
     = signed_message now_ms "GET" "/trade-api/v2/portfolio/orders"
  /\ signed_message now_ms "GET"
       ("/trade-api/v2/events?limit=" ++ Str.str_of_Z limit ++ "&status=" ++ status)
     = signed_message now_ms "GET" "/trade-api/v2/events".
Proof.
  assert (Hsig : forall a b : string,
            occurs "?" a = false ->
            signed_message now_ms "GET" (a ++ String "?" b)
            = signed_message now_ms "GET" a).
  { intros a b Ha. unfold signed_message.
    rewrite (path_clean_query a b Ha), (path_clean_plain a Ha). reflexivity. }
  intros bare. subst bare. split; [|split; [|split; [|split]]].
  - apply (Hsig "/trade-api/v2/markets"
             ("series_ticker=" ++ series ++ "&limit=5&status=open")%string).
    reflexivity.
  - apply (Hsig "/trade-api/v2/markets"
             ("series_ticker=" ++ series ++ "&limit=20&status=open")%string).
    reflexivity.
  - unfold markets_path. destruct event_ticker as [[|c t]|].
    + apply (Hsig "/trade-api/v2/markets" ("limit=" ++ Str.str_of_Z limit)%string).
      reflexivity.
    + rewrite append_assoc.
      apply (Hsig "/trade-api/v2/markets"
               ("limit=" ++ Str.str_of_Z limit ++ "&event_ticker=" ++ String c t)%string).
      reflexivity.
    + apply (Hsig "/trade-api/v2/markets" ("limit=" ++ Str.str_of_Z limit)%string).
      reflexivity.
  - apply (Hsig "/trade-api/v2/portfolio/orders" ("status=" ++ status)%string).
    reflexivity.
  - apply (Hsig "/trade-api/v2/events"
             ("limit=" ++ Str.str_of_Z limit ++ "&status=" ++ status)%string).
    reflexivity.
Qed.

(** An order never carries a number in both price fields, and no key
    twice. *)
Theorem order_prices_exclusive (ticker side action : string) (count : Z)
    (type : string) (price : option Z) :
  let order := build_order ticker side action count type price in
  ~ (exists a b : Z,
       dict_get order "yes_price" = Some (JInt a)
       /\ dict_get order "no_price" = Some (JInt b))
  /\ List.NoDup (List.map fst order).
Proof.
  intros order. subst order. unfold build_order. split.
  - intros (a & b & Ha & Hb).
    destruct price as [p|]; [|discriminate].
    destruct (String.eqb type "limit"); [|discriminate].
    destruct (String.eqb_spec side "yes") as [-> | _]; [|discriminate].
    discriminate.
  - assert (H5 : List.NoDup ["ticker"; "side"; "action"; "count"; "type"]%string)
      by (repeat (apply List.NoDup_cons; [simpl; intuition discriminate|]);
          apply List.NoDup_nil).
    assert (H7 : List.NoDup ["ticker"; "side"; "action"; "count"; "type";
                        "yes_price"; "no_price"]%string)
      by (repeat (apply List.NoDup_cons; [simpl; intuition discriminate|]);
          apply List.NoDup_nil).
    destruct price as [p|]; [|exact H5].
    destruct (String.eqb type "limit"); [exact H7|exact H5].
Qed.

End SignatureScope.

(** ** The command line of the client *)

Section CommandLine.

Variable payload : Type.
Variable empty_payload : payload.
Variable key_id base_url : string.
Variable rsa_pss_sha256 : string -> string.
Variable b64encode : string -> string.
Variable http_error_text : http_response payload -> string.
Variable load_client : result unit.
Variable dumps : payload -> string.
Variable transport : http_call -> result (http_response payload).
Variable now_ms : Z.

Local Open Scope Z_scope.

(** what printing the answer of a GET does *)
Lemma show_get (path : string) :
  exists (tail : list event) (r : result ending),
    show payload dumps
      (_request payload empty_payload key_id base_url rsa_pss_sha256 b64encode
         http_error_text transport now_ms "GET" path None)
    = (EvHttp (HttpGet (base_url ++ path)
                 (_headers key_id rsa_pss_sha256 b64encode now_ms "GET" path) None)
       :: tail, r)
    /\ List.filter is_http tail = []
    /\ forallb reads_only tail = true
    /\ (forall code, r <> Ok (Exited code)).
Proof.
  unfold show. rewrite request_plan.
  change (planned_call key_id base_url rsa_pss_sha256 b64encode now_ms "GET" path None)
    with (Some (HttpGet (base_url ++ path)
                  (_headers key_id rsa_pss_sha256 b64encode now_ms "GET" path) None)).
  cbv beta iota. unfold send.
  destruct (transport _) as [resp|e].
  - destruct ((400 <=? status_code payload resp)
              && (status_code payload resp <? 600)).
    + do 2 eexists. split; [reflexivity|]. repeat split; try reflexivity.
      intros code; discriminate.
    + destruct (text payload resp); [|destruct (json payload resp)];
        (do 2 eexists; split; [reflexivity|]; repeat split; try reflexivity;
         intros code; discriminate).
  - do 2 eexists. split; [reflexivity|]. repeat split; try reflexivity.
    intros code; discriminate.
Qed.

(** every run either stops on its arguments or prints one GET *)
Lemma kalshi_main_run (argv : list string) :
  load_client = Ok tt ->
  let run := kalshi_main payload empty_payload key_id base_url rsa_pss_sha256
               b64encode http_error_text load_client dumps transport now_ms argv in
  (served argv = false
   /\ exists lines, lines <> [] /\ run = (EvNewClient :: List.map EvPrint lines,
                                          Ok (Exited 1)))
  \/ (served argv = true
      /\ exists (call : http_call) (tail : list event) (r : result ending),
           run = (EvNewClient :: EvHttp call :: tail, r)
           /\ reads_only (EvHttp call) = true
           /\ List.filter is_http tail = []
           /\ forallb reads_only tail = true
           /\ (forall code, r <> Ok (Exited code))).
Proof.
  intros Hload run. subst run. unfold kalshi_main. rewrite Hload.
  unfold IO.perform, IO.bind at 1.
  assert (Hstop : forall lines : list string,
            lines <> [] ->
            exists lines', lines' <> []
              /\ (let (tr', r) := exit_with lines 1 in
                  ([EvNewClient] ++ tr', r))
                 = (EvNewClient :: List.map EvPrint lines', Ok (Exited 1))).
  { intros lines Hl. exists lines. split; [exact Hl|reflexivity]. }
  assert (Hget : forall path : string,
            exists (call : http_call) (tail : list event) (r : result ending),
              (let (tr', r) :=
                 show payload dumps
                   (_request payload empty_payload key_id base_url rsa_pss_sha256
                      b64encode http_error_text transport now_ms "GET" path None) in
               ([EvNewClient] ++ tr', r))
              = (EvNewClient :: EvHttp call :: tail, r)
              /\ reads_only (EvHttp call) = true
              /\ List.filter is_http tail = []
              /\ forallb reads_only tail = true
              /\ (forall code, r <> Ok (Exited code))).
  { intros path. destruct (show_get path) as (tail & r & -> & H1 & H2 & H3).
    do 3 eexists. split; [reflexivity|]. repeat split; assumption. }
  destruct argv as [|a0 [|cmd args]].
  - left. split; [reflexivity|]. apply Hstop. discriminate.
  - left. split; [reflexivity|]. apply Hstop. discriminate.
  - unfold served.
    destruct (String.eqb cmd "balance"); [right; split; [reflexivity|apply Hget]|].
    destruct (String.eqb cmd "positions"); [right; split; [reflexivity|apply Hget]|].
    destruct (String.eqb cmd "orders"); [right; split; [reflexivity|apply Hget]|].
    destruct (String.eqb cmd "events"); [right; split; [reflexivity|apply Hget]|].
    destruct (String.eqb cmd "markets"); [right; split; [reflexivity|apply Hget]|].
    destruct (String.eqb cmd "market").
    { destruct args as [|ticker rest].
      - left. split; [reflexivity|]. apply Hstop. discriminate.
      - right. split; [reflexivity|apply Hget]. }
    destruct (String.eqb cmd "orderbook").
    { destruct args as [|ticker rest].
      - left. split; [reflexivity|]. apply Hstop. discriminate.
      - right. split; [reflexivity|apply Hget]. }
    left. split; [reflexivity|]. apply Hstop. discriminate.
Qed.

(** The command line only reads: whatever its arguments and whatever the
    API answers, a run makes at most one HTTP call, and that call is a GET
    without parameters; it never places or cancels an order. *)
Theorem cli_read_only (argv : list string) :
  let tr := IO.trace
              (kalshi_main payload empty_payload key_id base_url rsa_pss_sha256
                 b64encode http_error_text load_client dumps transport now_ms argv) in
  forallb reads_only tr = true
  /\ (List.length (List.filter is_http tr) <= 1)%nat.
Proof.
  intros tr. subst tr.
  assert (Hcases : load_client = Ok tt \/ exists e, load_client = Err e).
  { destruct load_client as [[]|e]; eauto. }
  destruct Hcases as [Hload | [e Hload]].
  - destruct (kalshi_main_run argv Hload)
      as [(_ & lines & _ & Hrun) | (_ & call & tail & r & Hrun & Hc & Hf & Ha & _)];
      rewrite Hrun; unfold IO.trace, fst.
    + assert (Hp : forall ls, forallb reads_only (List.map EvPrint ls) = true
                              /\ List.filter is_http (List.map EvPrint ls) = []).
      { induction ls as [|x ls [IH1 IH2]]; simpl; auto. }
      destruct (Hp lines) as [H1 H2]. simpl. rewrite H1, H2. simpl.
      split; [reflexivity|lia].
    + change (forallb reads_only (EvNewClient :: EvHttp call :: tail))
        with (reads_only (EvHttp call) && forallb reads_only tail).
      change (List.filter is_http (EvNewClient :: EvHttp call :: tail))
        with (EvHttp call :: List.filter is_http tail).
      rewrite Hc, Ha, Hf. simpl. split; [reflexivity|lia].
  - unfold kalshi_main. rewrite Hload. simpl. split; [reflexivity|lia].
Qed.

(** The client is built before the arguments are looked at.  Once it is
    built, [main] calls [sys.exit] exactly when its arguments are not
    served - no command, an unknown command, or [market] or [orderbook]
    without a ticker - always with status 1, and then it only prints its
    message, without any HTTP call.  The script runs [main] without a
    handler, so its exit status is 0 or 1: it is 0 exactly when [main]
    returns, which takes served arguments, and 1 when the arguments are not
    served and also when the request of a served command raises. *)
Theorem cli_exit_status (argv : list string) (Hload : load_client = Ok tt) :
  let run := kalshi_main payload empty_payload key_id base_url rsa_pss_sha256
               b64encode http_error_text load_client dumps transport now_ms argv in
  let status := exit_status (IO.outcome run) in
  (forall code, IO.outcome run = Ok (Exited code) <-> served argv = false /\ code = 1)
  /\ (served argv = false ->
      exists lines, lines <> [] /\ IO.trace run = EvNewClient :: List.map EvPrint lines)
  /\ (status = 0 \/ status = 1)
  /\ (status = 0 <-> IO.outcome run = Ok Returned)
  /\ (status = 0 -> served argv = true)
  /\ (status = 1 <-> served argv = false \/ exists e, IO.outcome run = Err e).
Proof.
  intros run status. subst status.
  destruct (kalshi_main_run argv Hload)
    as [(Hs & lines & Hl & Hrun) | (Hs & call & tail & r & Hrun & _ & _ & _ & Hr)];
    fold run in Hrun; rewrite Hrun; unfold IO.outcome, IO.trace, fst, snd;
    (split; [|split; [|split; [|split; [|split]]]]).
  - intros code. split.
    + intros [= <-]. auto.
    + intros [_ ->]. reflexivity.
  - intros _. eauto.
  - right. reflexivity.
  - simpl. split; [intros H; discriminate H|intros H; discriminate H].
  - simpl. intros H. discriminate H.
  - simpl. split; [auto|reflexivity].
  - intros code. split.
    + intros H. exfalso. apply (Hr code H).
    + intros [H _]. congruence.
  - intros H. congruence.
  - destruct r as [[|code]|e]; simpl; auto. exfalso. apply (Hr code eq_refl).
  - destruct r as [[|code]|e]; simpl.
    + split; reflexivity.
    + exfalso. apply (Hr code eq_refl).
    + split; intros H; discriminate H.
  - intros _. exact Hs.
  - destruct r as [[|code]|e]; simpl.
    + split; [intros H; discriminate H|].
      intros [H | [e H]]; [congruence|discriminate H].
    + exfalso. apply (Hr code eq_refl).
    + split; [intros _; right; eauto|reflexivity].
Qed.

End CommandLine.

Lemma cli_exit_status_witness :
  IO.outcome (kalshi_main unit tt "key" "https://api" (fun m => m) (fun m => m)
                (fun _ => EmptyString) (Ok tt) (fun _ => EmptyString)
                accepting_transport 0 ["kalshi.py"; "market"]%string)
  = Ok (Exited 1)
  /\ exit_status
       (IO.outcome
          (kalshi_main unit tt "key" "https://api" (fun m => m) (fun m => m)
             (fun _ => "401 Client Error"%string) (Ok tt) (fun _ => EmptyString)
             (fun _ => Ok {| status_code := 401; text := "unauthorized";
                             json := Err ValueError |})
             0 ["kalshi.py"; "balance"]%string)) = 1.
Proof.
  split.
  - apply (proj1 (cli_exit_status unit tt "key" "https://api" (fun m => m) (fun m => m)
                    (fun _ => EmptyString) (Ok tt) (fun _ => EmptyString)
                    accepting_transport 0 ["kalshi.py"; "market"]%string eq_refl) 1).
    split; reflexivity.
  - apply (proj2 (proj2 (proj2 (proj2 (proj2
             (cli_exit_status unit tt "key" "https://api" (fun m => m) (fun m => m)
                (fun _ => "401 Client Error"%string) (Ok tt) (fun _ => EmptyString)
                (fun _ => Ok {| status_code := 401; text := "unauthorized";
                                json := Err ValueError |})
                0 ["kalshi.py"; "balance"]%string eq_refl)))))).
    right. eexists. reflexivity.
Defined.

(** ** Evaluation checks of the client operations and of the command line *)

Example cli_balance :
  kalshi_main unit tt "key" "https://api" (fun m => m) (fun m => m)
    (fun _ => EmptyString) (Ok tt) (fun _ => "{}"%string) accepting_transport 0
    ["kalshi.py"; "balance"]%string
  = ([EvNewClient;
      EvHttp (HttpGet "https://api/trade-api/v2/portfolio/balance"
                (_headers "key" (fun m => m) (fun m => m) 0 "GET"
                   "/trade-api/v2/portfolio/balance") None);
      EvPrint "{}"],
     Ok Returned).
Proof. reflexivity. Qed.

Example cli_no_command :
  kalshi_main unit tt "key" "https://api" (fun m => m) (fun m => m)
    (fun _ => EmptyString) (Ok tt) (fun _ => "{}"%string) accepting_transport 0
    ["kalshi.py"]%string
  = ([EvNewClient; EvPrint usage; EvPrint usage_commands], Ok (Exited 1)).
Proof. reflexivity. Qed.

Example cli_no_config :
  kalshi_main unit tt "key" "https://api" (fun m => m) (fun m => m)
    (fun _ => EmptyString) (Err (RequestError "no config")) (fun _ => "{}"%string)
    accepting_transport 0 ["kalshi.py"]%string
  = ([EvNewClient], Err (RequestError "no config")).
Proof. reflexivity. Qed.

Example markets_path_event :
  markets_path (Some "KXBTC-25"%string) 20
  = "/trade-api/v2/markets?limit=20&event_ticker=KXBTC-25"%string
  /\ markets_path (Some EmptyString) 20 = "/trade-api/v2/markets?limit=20"%string.
Proof. split; reflexivity. Qed.

Example cancel_order_call :
  IO.trace (cancel_order unit tt "key" "https://api" (fun m => m) (fun m => m)
              (fun _ => EmptyString) accepting_transport 0 "abc")
  = [EvHttp (HttpDelete "https://api/trade-api/v2/portfolio/orders/abc"
               (_headers "key" (fun m => m) (fun m => m) 0 "DELETE"
                  "/trade-api/v2/portfolio/orders/abc"))].
Proof. reflexivity. Qed.

Example request_error_status :
  _request unit tt "key" "https://api" (fun m => m) (fun m => m)
    (fun _ => "404 Client Error"%string)
    (fun _ => Ok {| status_code := 404; text := "not found"; json := Err ValueError |})
    0 "GET" "/x" None
  = ([EvHttp (HttpGet "https://api/x"
                (_headers "key" (fun m => m) (fun m => m) 0 "GET" "/x") None);
      EvStderr "Error 404: not found"],
     Err (RequestError "404 Client Error")).
Proof. reflexivity. Qed.
